(** * Video upload pipeline of the file-storage server

    A shallow embedding of [handlerUploadVideo] and of the helpers it
    calls ([getVideoAspectRatio], [processVideoForFastStart],
    [generatePresignedURL], [dbVideoToSignedVideo]).

    The handler talks to many collaborators (token validation, the
    metadata store, ffprobe, ffmpeg, the object store).  Their outcomes
    are fields of an environment record [Env]; what the handler changes
    lives in a [World] that is threaded through every call: the string
    cells behind [*string] fields, the rows of the metadata store, the
    objects of the bucket and a log of the calls that reached a
    collaborator.

    Two texts of [handlerUploadVideo] are embedded: the one that checks
    the upload, signs the record and classifies the video (top level),
    and the one of [handler_upload_video.go] ([Direct]).

    The three texts of [handlerUploadThumbnail] follow in [Thumbnail],
    over the same collaborators. *)

From Stdlib Require Import ZArith Lia String Ascii Strings.Byte List.
From stdpp Require Import base option gmap strings list.
Import ListNotations.

Local Open Scope string_scope.

(** ** The parts of the Go library the code relies on *)

(** Go's [error] interface is modelled by its message; [None] is [nil]. *)
Definition error := string.

Inductive result (A : Type) : Type :=
| Ok (a : A)
| Err (e : error).
Arguments Ok {A} a.
Arguments Err {A} e.

Module strings.

(** [strings.Cut(s, sep)]: slice [s] around the first instance of [sep];
    [(s, "", false)] when [sep] does not occur. *)
Fixpoint Cut (s sep : string) : string * string * bool :=
  if String.prefix sep s
  then ("", String.substring (String.length sep)
                             (String.length s - String.length sep) s, true)
  else match s with
       | EmptyString => ("", "", false)
       | String c s' =>
           let '(before, after, found) := Cut s' sep in
           (String c before, after, found)
       end.

(** [strings.Split(s, sep)] for a non-empty [sep]: the pieces between
    the occurrences of [sep], at least one piece. *)
Fixpoint split_from (fuel : nat) (s sep : string) : list string :=
  match fuel with
  | O => [s]
  | S fuel' =>
      let '(before, after, found) := Cut s sep in
      if found then before :: split_from fuel' after sep else [s]
  end.

Definition Split (s sep : string) : list string :=
  split_from (String.length s) s sep.

(** Number of non-overlapping occurrences of the one-byte separator [c]. *)
Fixpoint count_char (c : ascii) (s : string) : nat :=
  match s with
  | EmptyString => 0
  | String d s' => (if Ascii.eqb d c then 1 else 0) + count_char c s'
  end.

End strings.

Module base64.

(** The alphabet of [base64.URLEncoding]. *)
Definition encodeURL : string :=
  "ABCDEFGHIJKLMNOPQRSTUVWXYZabcdefghijklmnopqrstuvwxyz0123456789-_".

Definition digit (n : N) : ascii :=
  match String.get (N.to_nat n) encodeURL with
  | Some c => c
  | None => "A"%char
  end.

(** The six-bit group of [v] that starts at bit [sh]. *)
Definition sextet (v : N) (sh : N) : ascii :=
  digit (N.land (N.shiftr v sh) 63).

(** [base64.RawURLEncoding.EncodeToString]: three bytes give four
    digits; a rest of one byte gives two digits, a rest of two bytes
    three digits; no padding character is written. *)
Fixpoint EncodeToString (src : list byte) : string :=
  match src with
  | [] => ""
  | [a] =>
      let v := N.shiftl (Byte.to_N a) 16 in
      String (sextet v 18) (String (sextet v 12) "")
  | [a; b] =>
      let v := N.lor (N.shiftl (Byte.to_N a) 16) (N.shiftl (Byte.to_N b) 8) in
      String (sextet v 18) (String (sextet v 12) (String (sextet v 6) ""))
  | a :: b :: c :: rest =>
      let v := N.lor (N.lor (N.shiftl (Byte.to_N a) 16)
                            (N.shiftl (Byte.to_N b) 8)) (Byte.to_N c) in
      String (sextet v 18) (String (sextet v 12)
        (String (sextet v 6) (String (sextet v 0) (EncodeToString rest))))
  end.

End base64.

Module time.
(** [time.Duration] counts nanoseconds in an int64. *)
Definition Duration := Z.
Definition Nanosecond : Duration := 1%Z.
Definition Second : Duration := (1000 * 1000 * 1000 * Nanosecond)%Z.
Definition Minute : Duration := (60 * Second)%Z.
End time.

(** Go's [int] on the 64-bit targets the server is built for: the result
    of an arithmetic operation is reduced into [-2^63, 2^63). *)
Definition int_min : Z := (- 2 ^ 63)%Z.
Definition int_max : Z := (2 ^ 63 - 1)%Z.
Definition int_wrap (z : Z) : Z := ((z + 2 ^ 63) mod 2 ^ 64 - 2 ^ 63)%Z.
Definition int_mul (a b : Z) : Z := int_wrap (a * b).
(** Go's [/] on integers truncates towards zero. *)
Definition int_div (a b : Z) : Z := int_wrap (Z.quot a b).

(** ** The classifier *)

(** One element of the anonymous [Streams] slice the probe output is
    decoded into. *)
Record Stream := mkStream {
  CodecType : string;
  Width : Z;
  Height : Z;
}.

(** What [json.Unmarshal(out.Bytes(), &data)] does to [data].  The decoder
    checks the syntax of the whole input before it stores anything, so a
    syntax error leaves [data] at its zero value; once decoding has started
    an ill-typed field is reported (the error of the first one) and skipped
    while the rest is still stored. *)
Inductive UnmarshalOutcome :=
| SyntaxError (e : error)
| Decoded (streams : list Stream) (e : option error).


(** ** Data *)

Definition UUID := string.

(** Address of a Go [string] variable whose address has been taken
    ([*string] values point here). *)
Definition loc := nat.

(** Modelled from the spec: [database.Video], the VideoRecord of the
    metadata store, is declared outside the files at hand.  It is
    identified by a video id, has an owner, and carries the two optional
    location fields the handlers assign through [*string] pointers. *)
Record Video := mkVideo {
  ID : UUID;
  ThumbnailURL : option loc;
  VideoURL : option loc;
  UserID : UUID;
}.

Definition set_VideoURL (p : option loc) (v : Video) : Video :=
  {| ID := ID v; ThumbnailURL := ThumbnailURL v; VideoURL := p;
     UserID := UserID v |}.

(** A record with its pointers followed: what a row of the metadata store
    holds and what the JSON encoder writes. *)
Record Row := mkRow {
  id : UUID;
  thumbnail_url : option string;
  video_url : option string;
  user_id : UUID;
}.

(** The fields of [apiConfig] the upload path reads. *)
Record apiConfig := mkConfig {
  jwtSecret : string;
  s3Bucket : string;
  s3Region : string;
}.

Record PutObjectInput := mkPut {
  Bucket : string;
  Key : string;
  Body : string;        (* name of the file the body is read from *)
  ContentType : string;
}.

(** One file part of a multipart form. *)
Record Part := mkPart {
  part_ContentType : string;     (* its Content-Type header *)
  part_data : list byte;
}.

Record Request := mkRequest {
  PathValue_videoID : string;
  Header : list (string * string);
  BodySize : Z;
  (* the form ParseMultipartForm finds when the body fits the limit *)
  MultipartForm : result (list (string * Part));
}.

Definition StatusOK : Z := 200.
Definition StatusBadRequest : Z := 400.
Definition StatusUnauthorized : Z := 401.
Definition StatusInternalServerError : Z := 500.

(** Modelled from the spec: [respondWithError] and [respondWithJSON], the
    JSON response envelopes, are declared outside the files at hand.  A
    response is recorded as the call that wrote it; a run-time panic ends
    a handler as well. *)
Inductive Response :=
| respondWithError (code : Z) (msg : string) (err : option error)
| respondWithJSON (code : Z) (payload : Row)
| panic (msg : string).

(** Calls that reach a collaborator, as they are logged in the [World]. *)
Inductive Call :=
| CallExec (name : string) (args : list string)
| CallGetVideo (videoID : UUID)
| CallUpdateVideo (row : Row)
| CallPutObject (input : PutObjectInput)
| CallPresignGetObject (bucket key : string) (expires : time.Duration).

(** Everything a request can change. *)
Record World := mkWorld {
  heap : list string;                          (* [loc] is an index here *)
  db : gmap string Row;                        (* the metadata store *)
  objects : gmap (string * string) (string * string);
                                (* (bucket, key) to (content type, body) *)
  calls : list Call;                           (* most recent first *)
}.

(** The outcomes of the collaborators for one request. *)
Record Env := mkEnv {
  uuid_Parse : string -> result UUID;
  auth_GetBearerToken : list (string * string) -> result string;
  auth_ValidateJWT : string -> string -> result UUID;
  db_GetVideo_fault : UUID -> option error;
  db_UpdateVideo_fault : Row -> option error;
  mime_ParseMediaType : string -> result string;
  os_CreateTemp : string -> string -> result string;
  io_Copy : string -> list byte -> option error;
  rand_fault : option error;
  rand_byte : nat -> byte;
  exec_Run : string -> list string -> list byte * option error;
  json_decode : list byte -> UnmarshalOutcome;
  os_Open : string -> option error;
  s3_PutObject : PutObjectInput -> option error;
  (* the first argument counts the calls logged so far: it stands for
     the moment of signing *)
  s3_PresignGetObject :
    nat -> string -> string -> time.Duration -> result string;
}.

(** ** State passing *)

Definition St (A : Type) : Type := World -> A * World.

Definition log (c : Call) (w : World) : World :=
  {| heap := heap w; db := db w; objects := objects w;
     calls := c :: calls w |}.

(** [&s] for a string variable [s]: a new cell. *)
Definition new_string (s : string) : St loc := fun w =>
  (length (heap w),
   {| heap := heap w ++ [s]; db := db w; objects := objects w;
      calls := calls w |}).

(** [*p].  Go pointers never dangle; a missing cell reads as the zero
    string. *)
Definition deref (w : World) (p : loc) : string :=
  default "" (heap w !! p).

Definition deref_opt (w : World) (p : option loc) : option string :=
  match p with
  | None => None
  | Some q => Some (deref w q)
  end.

Definition row_of (w : World) (v : Video) : Row :=
  {| id := ID v; thumbnail_url := deref_opt w (ThumbnailURL v);
     video_url := deref_opt w (VideoURL v); user_id := UserID v |}.

Definition new_string_opt (s : option string) : St (option loc) := fun w =>
  match s with
  | None => (None, w)
  | Some t => let '(p, w') := new_string t w in (Some p, w')
  end.

(** Modelled from the spec: [cfg.db.GetVideo], the metadata store's
    [GetRecord(id) -> VideoRecord | NotFoundError].  The row is selected by
    its id, so the record that comes back carries the id asked for. *)
Definition GetVideo (env : Env) (videoID : UUID) : St (result Video) := fun w =>
  let w := log (CallGetVideo videoID) w in
  match db_GetVideo_fault env videoID with
  | Some e => (Err e, w)
  | None =>
      match db w !! videoID with
      | None => (Err "sql: no rows in result set", w)
      | Some row =>
          let '(t, w) := new_string_opt (thumbnail_url row) w in
          let '(u, w) := new_string_opt (video_url row) w in
          (Ok {| ID := videoID; ThumbnailURL := t; VideoURL := u;
                 UserID := user_id row |}, w)
      end
  end.

(** Modelled from the spec: [cfg.db.UpdateVideo], the metadata store's
    [UpdateRecord(record) -> () | StoreError]; it rewrites the row of the
    record's id and touches no other row. *)
Definition UpdateVideo (env : Env) (video : Video) : St (option error) := fun w =>
  let row := row_of w video in
  let w := log (CallUpdateVideo row) w in
  match db_UpdateVideo_fault env row with
  | Some e => (Some e, w)
  | None =>
      (None,
       {| heap := heap w;
          db := match db w !! ID video with
                | Some _ => <[ID video := row]> (db w)
                | None => db w
                end;
          objects := objects w; calls := calls w |})
  end.

(** [cfg.s3Client.PutObject]. *)
Definition PutObject (env : Env) (input : PutObjectInput) : St (option error) :=
  fun w =>
  let w := log (CallPutObject input) w in
  match s3_PutObject env input with
  | Some e => (Some e, w)
  | None =>
      (None,
       {| heap := heap w; db := db w;
          objects := <[(Bucket input, Key input) :=
                         (ContentType input, Body input)]> (objects w);
          calls := calls w |})
  end.

(** [json.Unmarshal]: empty input is always a syntax error ("unexpected
    end of JSON input"). *)
Definition json_Unmarshal (env : Env) (input : list byte) : UnmarshalOutcome :=
  match input with
  | [] => SyntaxError "unexpected end of JSON input"
  | _ => json_decode env input
  end.

(** [rand.Read(b)] fills all of [b] or fails. *)
Definition rand_Read (env : Env) (n : nat) : result (list byte) :=
  match rand_fault env with
  | Some e => Err e
  | None => Ok (map (rand_byte env) (seq 0 n))
  end.

(** ** The functions of the upload path *)

Local Open Scope Z_scope.

Definition generatePresignedURL (env : Env) (bucket key : string)
    (expireTime : time.Duration) : St (string * option error) := fun w =>
  let out :=
    s3_PresignGetObject env (length (calls w)) bucket key expireTime in
  let w := log (CallPresignGetObject bucket key expireTime) w in
  match out with
  | Err err => (("", Some err), w)
  | Ok url => ((url, None), w)
  end.

Definition dbVideoToSignedVideo (env : Env) (cfg : apiConfig) (video : Video)
    : St (Video * option error) := fun w =>
  match VideoURL video with
  | None => ((video, None), w)
  | Some p =>
      if String.eqb (deref w p) "" then ((video, None), w)
      else
        let '(bucket, key, ok) := strings.Cut (deref w p) "," in
        if negb ok then ((video, None), w)
        else
          let '((presignedURL, err), w) :=
            generatePresignedURL env bucket key (time.Minute * 5) w in
          match err with
          | Some e => ((video, Some e), w)
          | None =>
              let '(q, w) := new_string presignedURL w in
              ((set_VideoURL (Some q) video, None), w)
          end
  end.

Definition processVideoForFastStart (env : Env) (filePath : string)
    : St (string * option error) := fun w =>
  let outputFilePath := filePath ++ ".processing" in
  let args := ["-i"; filePath; "-c"; "copy"; "-movflags"; "faststart";
               "-f"; "mp4"; outputFilePath]%string in
  let w := log (CallExec "ffmpeg" args) w in
  match snd (exec_Run env "ffmpeg" args) with
  | Some err => (("", Some err), w)
  | None => ((outputFilePath, None), w)
  end.

(** The [for _, s := range data.Streams] loop with its [switch]. *)
Fixpoint range_Streams (streams : list Stream) : string * option error :=
  match streams with
  | [] => ("other", None)
  | s :: rest =>
      if String.eqb (CodecType s) "video" && (0 <? Width s) && (0 <? Height s)
      then
        let ratio := int_div (int_mul (Width s) 1000) (Height s) in
        if (1700 <=? ratio) && (ratio <=? 1850) then ("16:9", None)
        else if (520 <=? ratio) && (ratio <=? 600) then ("9:16", None)
        else ("other", None)
      else range_Streams rest
  end.

Definition getVideoAspectRatio (env : Env) (filePath : string)
    : St (string * option error) := fun w =>
  let args := ["-v"; "error"; "-print_format"; "json"; "-show_streams";
               filePath]%string in
  (* cmd.Run(): the error is dropped, whatever reached stdout is kept *)
  let out := fst (exec_Run env "ffprobe" args) in
  let w := log (CallExec "ffprobe" args) w in
  (* json.Unmarshal(out.Bytes(), &data): the error is dropped *)
  let Streams :=
    match json_Unmarshal env out with
    | SyntaxError _ => []
    | Decoded streams _ => streams
    end in
  (range_Streams Streams, w).

(** ** The handler

    [log.Println] and the deferred [Close] and [os.Remove] of the
    temporary files bear on neither the response nor the two stores and
    are left out; so is [tempFile.Seek], whose result the code drops. *)

(** A handler either goes on with a value or has written its response
    and returned. *)
Definition Handler (A : Type) : Type := World -> (A + Response) * World.

Definition hret {A} (a : A) : Handler A := fun w => (inl a, w).

Definition hbind {A B} (m : Handler A) (k : A -> Handler B) : Handler B :=
  fun w =>
    match m w with
    | (inl a, w') => k a w'
    | (inr r, w') => (inr r, w')
    end.

Definition respond {A} (r : Response) : Handler A := fun w => (inr r, w).

Definition lift {A} (m : St A) : Handler A := fun w =>
  let '(a, w') := m w in (inl a, w').

(** [x, err := f(); if err != nil { respond; return }] *)
Definition attempt {A} (x : result A) (onErr : error -> Response) : Handler A :=
  match x with
  | Ok a => hret a
  | Err e => respond (onErr e)
  end.

(** [if err := f(); err != nil { respond; return }] *)
Definition check (e : option error) (onErr : error -> Response)
    : Handler unit :=
  match e with
  | None => hret tt
  | Some err => respond (onErr err)
  end.

Definition run (m : Handler Response) (w : World) : Response * World :=
  match m w with
  | (inl r, w') => (r, w')
  | (inr r, w') => (r, w')
  end.

Declare Scope handler_scope.
Delimit Scope handler_scope with handler.
Notation "'let*' x ':=' m 'in' k" := (hbind m (fun x => k))
  (at level 10, x name, m at level 100, k at level 200) : handler_scope.

(** [r.Body = http.MaxBytesReader(w, r.Body, n); r.ParseMultipartForm(n)] *)
Definition ParseMultipartForm (r : Request) (maxMemory : Z) : option error :=
  if maxMemory <? BodySize r then Some "http: request body too large"%string
  else match MultipartForm r with
       | Err e => Some e
       | Ok _ => None
       end.

(** [r.FormFile(name)]: the first file part of that name. *)
Fixpoint find_part (name : string) (parts : list (string * Part))
    : result Part :=
  match parts with
  | [] => Err "http: no such file"
  | (n, p) :: rest => if String.eqb n name then Ok p else find_part name rest
  end.

Definition FormFile (r : Request) (name : string) : result Part :=
  match MultipartForm r with
  | Err e => Err e
  | Ok parts => find_part name parts
  end.

Definition maxMemory : Z := Z.shiftl 1 30.

Definition handlerUploadVideo (env : Env) (cfg : apiConfig) (r : Request)
    : World -> Response * World := run (
  (* parameter parsing *)
  let videoIDString := PathValue_videoID r in
  let* videoID := attempt (uuid_Parse env videoIDString)
    (fun err => respondWithError StatusBadRequest "Invalid ID" (Some err)) in
  (* auth *)
  let* token := attempt (auth_GetBearerToken env (Header r))
    (fun err => respondWithError StatusUnauthorized "Couldn't find JWT"
                  (Some err)) in
  let* userID := attempt (auth_ValidateJWT env token (jwtSecret cfg))
    (fun err => respondWithError StatusUnauthorized "Couldn't validate JWT"
                  (Some err)) in
  (* ensure request comes from the video owner *)
  let* got := lift (GetVideo env videoID) in
  let* metadata := attempt got
    (fun err => respondWithError StatusBadRequest
                  "Unable to get video metadata" (Some err)) in
  if negb (String.eqb (UserID metadata) userID)
  then respond (respondWithError StatusUnauthorized "Not your video m8" None)
  else
  let* _ := check (ParseMultipartForm r maxMemory)
    (fun err => respondWithError StatusBadRequest
                  "Upload too large or invalid multipart form" (Some err)) in
  let* file := attempt (FormFile r "video")
    (fun err => respondWithError StatusBadRequest "Unable to parse form file"
                  (Some err)) in
  (* ensure correct mime type *)
  let contentTypeHeader := part_ContentType file in
  let* mediaType := attempt (mime_ParseMediaType env contentTypeHeader)
    (fun err => respondWithError StatusBadRequest "Unable to get mediaType"
                  (Some err)) in
  if negb (String.eqb mediaType "video/mp4")
  then respond (respondWithError StatusBadRequest "Unable to get mediaType"
                  None)
  else
  let* tempFile := attempt (os_CreateTemp env "" "tubely-upload.mp4")
    (fun err => respondWithError StatusInternalServerError
                  "Unable to create temp file" (Some err)) in
  let* _ := check (io_Copy env tempFile (part_data file))
    (fun _ => respondWithError StatusInternalServerError
                "Unable to copy to temp file" None) in
  (* random video name *)
  let* randomBytes := attempt (rand_Read env 32)
    (fun err => respondWithError StatusInternalServerError
                  "Unable to create image name" (Some err)) in
  let fileName := base64.EncodeToString randomBytes in
  match strings.Split mediaType "/" !! 1%nat with
  | None => respond (panic "index out of range")
  | Some fileExtension =>
  let fileName := (fileName ++ "." ++ fileExtension)%string in
  let* probed := lift (getVideoAspectRatio env tempFile) in
  let '(aspectRatio, err) := probed in
  let* _ := check err
    (fun err => respondWithError StatusInternalServerError
                  "Unable to get file aspect ratio" (Some err)) in
  let fileName :=
    if String.eqb aspectRatio "16:9" then ("landscape/" ++ fileName)%string
    else if String.eqb aspectRatio "9:16" then ("portrait/" ++ fileName)%string
    else ("other/" ++ fileName)%string in
  let* processed := lift (processVideoForFastStart env tempFile) in
  let '(processedPath, err) := processed in
  let* _ := check err
    (fun err => respondWithError StatusInternalServerError
                  "Unable to process video for fast start" (Some err)) in
  let* _ := check (os_Open env processedPath)
    (fun err => respondWithError StatusInternalServerError
                  "Unable to process video for fast start" (Some err)) in
  let* err := lift (PutObject env
    {| Bucket := s3Bucket cfg; Key := fileName; Body := processedPath;
       ContentType := mediaType |}) in
  let* _ := check err
    (fun err => respondWithError StatusInternalServerError
                  "Unable to update video" (Some err)) in
  let videoURL := (s3Bucket cfg ++ "," ++ fileName)%string in
  let* p := lift (new_string videoURL) in
  let metadata := set_VideoURL (Some p) metadata in
  let* err := lift (UpdateVideo env metadata) in
  let* _ := check err
    (fun err => respondWithError StatusInternalServerError
                  "Unable to update video" (Some err)) in
  let* signed := lift (dbVideoToSignedVideo env cfg metadata) in
  let '(video, err) := signed in
  let* _ := check err
    (fun err => respondWithError StatusInternalServerError
                  "Unable to update video" (Some err)) in
  fun w => (inl (respondWithJSON StatusOK (row_of w video)), w)
  end)%handler.

(** The handler as it stands in [handler_upload_video.go]: no classifier,
    no fast-start pass, the object is read from the temporary file, the
    result of [PutObject] is dropped and the record receives the object's
    public URL. *)
Module Direct.

Definition handlerUploadVideo (env : Env) (cfg : apiConfig) (r : Request)
    : World -> Response * World := run (
  (* parameter parsing *)
  let videoIDString := PathValue_videoID r in
  let* videoID := attempt (uuid_Parse env videoIDString)
    (fun err => respondWithError StatusBadRequest "Invalid ID" (Some err)) in
  (* auth *)
  let* token := attempt (auth_GetBearerToken env (Header r))
    (fun err => respondWithError StatusUnauthorized "Couldn't find JWT"
                  (Some err)) in
  let* userID := attempt (auth_ValidateJWT env token (jwtSecret cfg))
    (fun err => respondWithError StatusUnauthorized "Couldn't validate JWT"
                  (Some err)) in
  (* ensure request comes from the video owner *)
  let* got := lift (GetVideo env videoID) in
  let* metadata := attempt got
    (fun err => respondWithError StatusBadRequest
                  "Unable to get video metadata" (Some err)) in
  if negb (String.eqb (UserID metadata) userID)
  then respond (respondWithError StatusUnauthorized "Not your video m8" None)
  else
  let* _ := check (ParseMultipartForm r maxMemory)
    (fun err => respondWithError StatusBadRequest
                  "Upload too large or invalid multipart form" (Some err)) in
  let* file := attempt (FormFile r "video")
    (fun err => respondWithError StatusBadRequest "Unable to parse form file"
                  (Some err)) in
  (* ensure correct mime type *)
  let contentTypeHeader := part_ContentType file in
  let* mediaType := attempt (mime_ParseMediaType env contentTypeHeader)
    (fun err => respondWithError StatusBadRequest "Unable to get mediaType"
                  (Some err)) in
  if negb (String.eqb mediaType "video/mp4")
  then respond (respondWithError StatusBadRequest "Unable to get mediaType"
                  None)
  else
  let* tempFile := attempt (os_CreateTemp env "" "tubely-upload.mp4")
    (fun err => respondWithError StatusInternalServerError
                  "Unable to create temp file" (Some err)) in
  let* _ := check (io_Copy env tempFile (part_data file))
    (fun _ => respondWithError StatusInternalServerError
                "Unable to copy to temp file" None) in
  (* random video name *)
  let* randomBytes := attempt (rand_Read env 32)
    (fun err => respondWithError StatusInternalServerError
                  "Unable to create image name" (Some err)) in
  let fileName := base64.EncodeToString randomBytes in
  match strings.Split mediaType "/" !! 1%nat with
  | None => respond (panic "index out of range")
  | Some fileExtension =>
  let fileName := (fileName ++ "." ++ fileExtension)%string in
  (* the two results of PutObject are not bound *)
  let* _ := lift (PutObject env
    {| Bucket := s3Bucket cfg; Key := fileName; Body := tempFile;
       ContentType := mediaType |}) in
  let videoURL := ("https://" ++ s3Bucket cfg ++ ".s3." ++ s3Region cfg
                   ++ ".amazonaws.com/" ++ fileName)%string in
  let* p := lift (new_string videoURL) in
  let metadata := set_VideoURL (Some p) metadata in
  let* err := lift (UpdateVideo env metadata) in
  let* _ := check err
    (fun err => respondWithError StatusInternalServerError
                  "Unable to update video" (Some err)) in
  fun w => (inl (respondWithJSON StatusOK (row_of w metadata)), w)
  end)%handler.

End Direct.

(** The second text of the handler in the file that also holds the
    signing one: the classifier is there (its label is printed as well),
    the fast-start pass and the signing are not, and the result of
    [PutObject] is dropped as in [Direct]. *)
Module Classified.

Definition handlerUploadVideo (env : Env) (cfg : apiConfig) (r : Request)
    : World -> Response * World := run (
  (* parameter parsing *)
  let videoIDString := PathValue_videoID r in
  let* videoID := attempt (uuid_Parse env videoIDString)
    (fun err => respondWithError StatusBadRequest "Invalid ID" (Some err)) in
  (* auth *)
  let* token := attempt (auth_GetBearerToken env (Header r))
    (fun err => respondWithError StatusUnauthorized "Couldn't find JWT"
                  (Some err)) in
  let* userID := attempt (auth_ValidateJWT env token (jwtSecret cfg))
    (fun err => respondWithError StatusUnauthorized "Couldn't validate JWT"
                  (Some err)) in
  (* ensure request comes from the video owner *)
  let* got := lift (GetVideo env videoID) in
  let* metadata := attempt got
    (fun err => respondWithError StatusBadRequest
                  "Unable to get video metadata" (Some err)) in
  if negb (String.eqb (UserID metadata) userID)
  then respond (respondWithError StatusUnauthorized "Not your video m8" None)
  else
  let* _ := check (ParseMultipartForm r maxMemory)
    (fun err => respondWithError StatusBadRequest
                  "Upload too large or invalid multipart form" (Some err)) in
  let* file := attempt (FormFile r "video")
    (fun err => respondWithError StatusBadRequest "Unable to parse form file"
                  (Some err)) in
  (* ensure correct mime type *)
  let contentTypeHeader := part_ContentType file in
  let* mediaType := attempt (mime_ParseMediaType env contentTypeHeader)
    (fun err => respondWithError StatusBadRequest "Unable to get mediaType"
                  (Some err)) in
  if negb (String.eqb mediaType "video/mp4")
  then respond (respondWithError StatusBadRequest "Unable to get mediaType"
                  None)
  else
  let* tempFile := attempt (os_CreateTemp env "" "tubely-upload.mp4")
    (fun err => respondWithError StatusInternalServerError
                  "Unable to create temp file" (Some err)) in
  let* _ := check (io_Copy env tempFile (part_data file))
    (fun _ => respondWithError StatusInternalServerError
                "Unable to copy to temp file" None) in
  (* random video name *)
  let* randomBytes := attempt (rand_Read env 32)
    (fun err => respondWithError StatusInternalServerError
                  "Unable to create image name" (Some err)) in
  let fileName := base64.EncodeToString randomBytes in
  match strings.Split mediaType "/" !! 1%nat with
  | None => respond (panic "index out of range")
  | Some fileExtension =>
  let fileName := (fileName ++ "." ++ fileExtension)%string in
  let* probed := lift (getVideoAspectRatio env tempFile) in
  let '(aspectRatio, err) := probed in
  let* _ := check err
    (fun err => respondWithError StatusInternalServerError
                  "Unable to get file aspect ratio" (Some err)) in
  let fileName :=
    if String.eqb aspectRatio "16:9" then ("landscape/" ++ fileName)%string
    else if String.eqb aspectRatio "9:16" then ("portrait/" ++ fileName)%string
    else ("other/" ++ fileName)%string in
  (* the two results of PutObject are not bound *)
  let* _ := lift (PutObject env
    {| Bucket := s3Bucket cfg; Key := fileName; Body := tempFile;
       ContentType := mediaType |}) in
  let videoURL := ("https://" ++ s3Bucket cfg ++ ".s3." ++ s3Region cfg
                   ++ ".amazonaws.com/" ++ fileName)%string in
  let* p := lift (new_string videoURL) in
  let metadata := set_VideoURL (Some p) metadata in
  let* err := lift (UpdateVideo env metadata) in
  let* _ := check err
    (fun err => respondWithError StatusInternalServerError
                  "Unable to update video" (Some err)) in
  fun w => (inl (respondWithJSON StatusOK (row_of w metadata)), w)
  end)%handler.

End Classified.

(** ** A concrete setting

    One owner, one record without a location yet, and collaborators that
    all succeed; the variations below break one collaborator each. *)
Module Sample.

Definition cfg : apiConfig :=
  {| jwtSecret := "secret"; s3Bucket := "tubely"; s3Region := "eu-west-1" |}.

Definition video1 : UUID := "video-1".
Definition user1 : UUID := "user-1".

Definition world0 : World :=
  {| heap := [];
     db := {[ video1 := {| id := video1; thumbnail_url := None;
                           video_url := None; user_id := user1 |} ]};
     objects := ∅;
     calls := [] |}.

Definition request : Request :=
  {| PathValue_videoID := video1;
     Header := [("Authorization", "Bearer token-1")]%string;
     BodySize := 4096;
     MultipartForm :=
       Ok [("video"%string,
            {| part_ContentType := "video/mp4"; part_data := [x00; x01] |})] |}.

(** A presigner in the shape of the real one: host from the bucket, path
    from the key, the validity in seconds in the query. *)
Definition presign (tick : nat) (bucket key : string) (d : time.Duration)
    : result string :=
  Ok ("https://" ++ bucket ++ ".s3.amazonaws.com/" ++ key
      ++ "?X-Amz-Expires=" ++ (if (d =? 300000000000)%Z then "300" else "0"))%string.

(** The probe reports the streams [ss] (as two bytes of output that the
    decoder turns into [ss]). *)
Definition env_with (ss : list Stream) (put : option error)
    (sign : nat -> string -> string -> time.Duration -> result string)
    : Env :=
  {| uuid_Parse := fun s => Ok s;
     auth_GetBearerToken := fun _ => Ok "token-1"%string;
     auth_ValidateJWT := fun _ _ => Ok user1;
     db_GetVideo_fault := fun _ => None;
     db_UpdateVideo_fault := fun _ => None;
     mime_ParseMediaType := fun s => Ok s;
     os_CreateTemp := fun _ _ => Ok "/tmp/tubely-upload.mp4123"%string;
     io_Copy := fun _ _ => None;
     rand_fault := None;
     rand_byte := fun n => match Byte.of_nat n with Some b => b | None => x00 end;
     exec_Run := fun _ _ => ([x7b; x7d], None);
     json_decode := fun _ => Decoded ss None;
     os_Open := fun _ => None;
     s3_PutObject := fun _ => put;
     s3_PresignGetObject := sign |}.

Definition env : Env :=
  env_with [{| CodecType := "video"; Width := 1280; Height := 720 |}] None
           presign.

Definition env_put_fails : Env :=
  env_with [{| CodecType := "video"; Width := 1280; Height := 720 |}]
           (Some "RequestError: send request failed"%string) presign.

End Sample.


(** ** The specification's vocabulary *)

(** OrientationCategory of the data model. *)
Inductive OrientationCategory := landscape | portrait | other.

(** The classification rule in the specification's words: evaluated in
    this order, first match wins. *)
Definition classify_spec (ratio : Z) : OrientationCategory :=
  if (1700 <=? ratio) && (ratio <=? 1850) then landscape
  else if (520 <=? ratio) && (ratio <=? 600) then portrait
  else other.

(** The label [getVideoAspectRatio] returns for a category. *)
Definition label (c : OrientationCategory) : string :=
  match c with
  | landscape => "16:9"
  | portrait => "9:16"
  | other => "other"
  end.

(** The category the handler's [switch aspectRatio] reads off a label. *)
Definition category (aspectRatio : string) : OrientationCategory :=
  if String.eqb aspectRatio "16:9" then landscape
  else if String.eqb aspectRatio "9:16" then portrait
  else other.

(** The path segment of a category in a storage key. *)
Definition segment (c : OrientationCategory) : string :=
  match c with
  | landscape => "landscape"
  | portrait => "portrait"
  | other => "other"
  end.

(** The arguments [getVideoAspectRatio] starts the probe with. *)
Definition ffprobe_args (filePath : string) : list string :=
  ["-v"; "error"; "-print_format"; "json"; "-show_streams"; filePath]%string.

(** The calls logged between two worlds, most recent first. *)
Definition calls_since (w w' : World) : list Call :=
  take (length (calls w') - length (calls w)) (calls w').

(** Resolving the same record [n] times in a row. *)
Fixpoint resolve_times (env : Env) (cfg : apiConfig) (video : Video) (n : nat)
    : St (list (Video * option error)) := fun w =>
  match n with
  | O => ([], w)
  | S n' =>
      let '(r, w1) := dbVideoToSignedVideo env cfg video w in
      let '(rs, w2) := resolve_times env cfg video n' w1 in
      (r :: rs, w2)
  end.

(** A width whose product with 1000 leaves the 64-bit range and wraps
    around to 1776. *)
Definition wide : Z := 2102928824402888886.

(** The arguments [processVideoForFastStart] starts the transcoder with. *)
Definition ffmpeg_args (filePath : string) : list string :=
  ["-i"; filePath; "-c"; "copy"; "-movflags"; "faststart"; "-f"; "mp4";
   filePath ++ ".processing"]%string.

(** The random part of a file name: the encoding of the 32 bytes read
    from the random source. *)
Definition random_id (env : Env) : string :=
  base64.EncodeToString (map (rand_byte env) (seq 0 32)).

(** The storage key the handler builds for the upload spooled in
    [tempFile]: the segment of the classifier's category, the random id
    and the subtype of the media type. *)
Definition storage_key (env : Env) (tempFile : string) (w : World) : string :=
  (segment (category (fst (fst (getVideoAspectRatio env tempFile w))))
   ++ "/" ++ random_id env ++ "." ++ "mp4")%string.

(** Calls that neither write to a store nor sign anything. *)
Definition quiet (c : Call) : Prop :=
  match c with
  | CallExec _ _ | CallGetVideo _ => True
  | _ => False
  end.

(** A run that ends before the object store is reached: an error response
    other than the aspect-ratio one, both stores as they were. *)
Definition early_outcome (w : World) (resp : Response) (w' : World) : Prop :=
  exists code msg err new,
    resp = respondWithError code msg err
    /\ msg <> "Unable to get file aspect ratio"%string
    /\ db w' = db w /\ objects w' = objects w
    /\ calls w' = (new ++ calls w)%list /\ Forall quiet new.

(** A run that reaches [PutObject] for record [videoID] (row [row0]
    before the run) with the upload spooled in [tempFile]. *)
Definition late_outcome (env : Env) (cfg : apiConfig) (w : World)
    (videoID : UUID) (row0 : Row) (tempFile : string)
    (resp : Response) (w' : World) : Prop :=
  let key := storage_key env tempFile w in
  let inp := {| Bucket := s3Bucket cfg; Key := key;
                Body := (tempFile ++ ".processing")%string;
                ContentType := "video/mp4" |} in
  let base := CallExec "ffmpeg" (ffmpeg_args tempFile)
              :: CallExec "ffprobe" (ffprobe_args tempFile)
              :: CallGetVideo videoID :: calls w in
  match s3_PutObject env inp with
  | Some e =>
      resp = respondWithError StatusInternalServerError
               "Unable to update video" (Some e)
      /\ db w' = db w /\ objects w' = objects w
      /\ calls w' = CallPutObject inp :: base
  | None =>
      let row1 := {| id := videoID; thumbnail_url := thumbnail_url row0;
                     video_url := Some (s3Bucket cfg ++ "," ++ key)%string;
                     user_id := user_id row0 |} in
      objects w'
      = <[(s3Bucket cfg, key) :=
            ("video/mp4"%string, (tempFile ++ ".processing")%string)]>
          (objects w)
      /\ match db_UpdateVideo_fault env row1 with
         | Some e =>
             resp = respondWithError StatusInternalServerError
                      "Unable to update video" (Some e)
             /\ db w' = db w
             /\ calls w' = CallUpdateVideo row1 :: CallPutObject inp :: base
         | None =>
             db w' = <[videoID := row1]> (db w)
             /\ let '(b, k, _) :=
                  strings.Cut (s3Bucket cfg ++ "," ++ key) "," in
                calls w'
                = CallPresignGetObject b k (time.Minute * 5)
                  :: CallUpdateVideo row1 :: CallPutObject inp :: base
                /\ match s3_PresignGetObject env (5 + length (calls w))%nat
                           b k (time.Minute * 5) with
                   | Err e =>
                       resp = respondWithError StatusInternalServerError
                                "Unable to update video" (Some e)
                   | Ok url =>
                       resp = respondWithJSON StatusOK
                                {| id := videoID;
                                   thumbnail_url := thumbnail_url row0;
                                   video_url := Some url;
                                   user_id := user_id row0 |}
                   end
         end
  end.

Definition handler_outcome (env : Env) (cfg : apiConfig) (r : Request)
    (w : World) (resp : Response) (w' : World) : Prop :=
  early_outcome w resp w'
  \/ exists videoID row0 tempFile,
       uuid_Parse env (PathValue_videoID r) = Ok videoID
       /\ db w !! videoID = Some row0
       /\ os_CreateTemp env "" "tubely-upload.mp4" = Ok tempFile
       /\ late_outcome env cfg w videoID row0 tempFile resp w'.

(** The characters a raw URL-safe encoding may consist of. *)
Definition url_safe (c : ascii) : Prop :=
  In c (list_ascii_of_string base64.encodeURL).

(** Proof steps for one statement of the handler. *)
Ltac early new :=
  cbn -[String.eqb]; left; eexists _, _, _, new;
  split; [reflexivity|]; split; [discriminate|];
  repeat split; cbn [db objects calls log]; try assumption;
  try reflexivity; repeat constructor.

Ltac step_attempt :=
  unfold hbind at 1; unfold attempt at 1;
  match goal with
  | |- context [match ?x with Ok _ => _ | Err _ => _ end] =>
      destruct x eqn:?
  end; cbn [hret respond].

Ltac step_check :=
  unfold hbind at 1; unfold check at 1;
  match goal with
  | |- context [match ?x with Some _ => _ | None => _ end] =>
      destruct x eqn:?
  end; cbn [hret respond].

(** A video stream of the given dimensions. *)
Definition video_stream (w h : Z) : Stream :=
  {| CodecType := "video"; Width := w; Height := h |}.

(** The request passes every check and its upload is spooled: the id
    parses, the token validates to the owner of the record, the record is
    there, the form holds a video/mp4 part named "video", and temporary
    file, copy and random source all work. *)
Definition reaches_spool (env : Env) (cfg : apiConfig) (r : Request)
    (w : World) (videoID : UUID) (row0 : Row) (file : Part)
    (tempFile : string) : Prop :=
  uuid_Parse env (PathValue_videoID r) = Ok videoID
  /\ (exists token,
        auth_GetBearerToken env (Header r) = Ok token
        /\ auth_ValidateJWT env token (jwtSecret cfg) = Ok (user_id row0))
  /\ db_GetVideo_fault env videoID = None
  /\ db w !! videoID = Some row0
  /\ ParseMultipartForm r maxMemory = None
  /\ FormFile r "video" = Ok file
  /\ mime_ParseMediaType env (part_ContentType file) = Ok "video/mp4"%string
  /\ os_CreateTemp env "" "tubely-upload.mp4" = Ok tempFile
  /\ io_Copy env tempFile (part_data file) = None
  /\ rand_fault env = None.

(** Steps of the handler under a known outcome. *)
Ltac use_attempt H :=
  unfold hbind at 1; unfold attempt at 1; rewrite H; cbn [hret respond].

Ltac use_check H :=
  unfold hbind at 1; unfold check at 1; rewrite H; cbn [hret respond].

Ltac pass_owner H1 H2 H3 HG Huser :=
  use_attempt H1; use_attempt H2; use_attempt H3;
  unfold hbind at 1; unfold lift at 1; rewrite HG;
  unfold hbind at 1; unfold attempt at 1; cbn [hret];
  rewrite Huser, String.eqb_refl; cbn [negb].

Ltac pass_spool H1 H2 H3 HG Huser Hform Hfile Hmime Htmp Hcopy Hrand :=
  pass_owner H1 H2 H3 HG Huser;
  use_check Hform; use_attempt Hfile; use_attempt Hmime;
  rewrite String.eqb_refl; cbn [negb];
  use_attempt Htmp; use_check Hcopy;
  unfold hbind at 1; unfold attempt at 1; unfold rand_Read at 1;
  rewrite Hrand; cbn [hret];
  change (strings.Split "video/mp4" "/" !! 1%nat) with (Some "mp4"%string);
  cbv iota beta zeta.

Ltac split_late Hlate :=
  unfold late_outcome in Hlate; cbv zeta in Hlate;
  match type of Hlate with
  | context [s3_PutObject ?env ?i] =>
      destruct (s3_PutObject env i) as [?e|] eqn:?Hput;
      [ destruct Hlate as (?Hr & ?Hdb & ?Hobj & ?Hc)
      | destruct Hlate as [?Hobj Hlate];
        match type of Hlate with
        | context [db_UpdateVideo_fault env ?row] =>
            destruct (db_UpdateVideo_fault env row) as [?e|] eqn:?Hupd;
            [ destruct Hlate as (?Hr & ?Hdb & ?Hc)
            | destruct Hlate as [?Hdb Hlate];
              match type of Hlate with
              | context [strings.Cut ?s ","] =>
                  destruct (strings.Cut s ",") as [[?b ?k] ?found] eqn:?Hcut;
                  destruct Hlate as [?Hc ?Hr]
              end ]
        end ]
  end.

(** The public URL the two earlier handlers write into the record. *)
Definition direct_url (cfg : apiConfig) (key : string) : string :=
  ("https://" ++ s3Bucket cfg ++ ".s3." ++ s3Region cfg
   ++ ".amazonaws.com/" ++ key)%string.

(** A run of one of the earlier handlers that reaches [PutObject], with
    [pre] the calls made before it. *)
Definition unchecked_outcome (env : Env) (cfg : apiConfig) (w : World)
    (videoID : UUID) (row0 : Row) (body key : string) (pre : list Call)
    (resp : Response) (w' : World) : Prop :=
  let inp := {| Bucket := s3Bucket cfg; Key := key; Body := body;
                ContentType := "video/mp4" |} in
  let row1 := {| id := videoID; thumbnail_url := thumbnail_url row0;
                 video_url := Some (direct_url cfg key);
                 user_id := user_id row0 |} in
  objects w'
  = match s3_PutObject env inp with
    | Some _ => objects w
    | None => <[(s3Bucket cfg, key) := ("video/mp4"%string, body)]> (objects w)
    end
  /\ calls w'
     = (CallUpdateVideo row1 :: CallPutObject inp :: pre ++ calls w)%list
  /\ match db_UpdateVideo_fault env row1 with
     | Some e =>
         resp = respondWithError StatusInternalServerError
                  "Unable to update video" (Some e)
         /\ db w' = db w
     | None =>
         resp = respondWithJSON StatusOK row1
         /\ db w' = <[videoID := row1]> (db w)
     end.

(** The 24-bit group the encoder forms from three bytes, and the value
    of one of its six-bit digits. *)
Definition pack3 (A B C : N) : N :=
  N.lor (N.lor (N.shiftl A 16) (N.shiftl B 8)) C.

Definition sextet_value (v sh : N) : N := N.land (N.shiftr v sh) 63.

(** Variations of the concrete setting, one for each way a run can go. *)
Module Cases.

Definition with_jwt (u : result UUID) (env : Env) : Env :=
  {| uuid_Parse := uuid_Parse env;
     auth_GetBearerToken := auth_GetBearerToken env;
     auth_ValidateJWT := fun _ _ => u;
     db_GetVideo_fault := db_GetVideo_fault env;
     db_UpdateVideo_fault := db_UpdateVideo_fault env;
     mime_ParseMediaType := mime_ParseMediaType env;
     os_CreateTemp := os_CreateTemp env;
     io_Copy := io_Copy env;
     rand_fault := rand_fault env;
     rand_byte := rand_byte env;
     exec_Run := exec_Run env;
     json_decode := json_decode env;
     os_Open := os_Open env;
     s3_PutObject := s3_PutObject env;
     s3_PresignGetObject := s3_PresignGetObject env |}.

Definition with_exec (run : string -> list string -> list byte * option error)
    (env : Env) : Env :=
  {| uuid_Parse := uuid_Parse env;
     auth_GetBearerToken := auth_GetBearerToken env;
     auth_ValidateJWT := auth_ValidateJWT env;
     db_GetVideo_fault := db_GetVideo_fault env;
     db_UpdateVideo_fault := db_UpdateVideo_fault env;
     mime_ParseMediaType := mime_ParseMediaType env;
     os_CreateTemp := os_CreateTemp env;
     io_Copy := io_Copy env;
     rand_fault := rand_fault env;
     rand_byte := rand_byte env;
     exec_Run := run;
     json_decode := json_decode env;
     os_Open := os_Open env;
     s3_PutObject := s3_PutObject env;
     s3_PresignGetObject := s3_PresignGetObject env |}.

Definition with_update_fault (e : option error) (env : Env) : Env :=
  {| uuid_Parse := uuid_Parse env;
     auth_GetBearerToken := auth_GetBearerToken env;
     auth_ValidateJWT := auth_ValidateJWT env;
     db_GetVideo_fault := db_GetVideo_fault env;
     db_UpdateVideo_fault := fun _ => e;
     mime_ParseMediaType := mime_ParseMediaType env;
     os_CreateTemp := os_CreateTemp env;
     io_Copy := io_Copy env;
     rand_fault := rand_fault env;
     rand_byte := rand_byte env;
     exec_Run := exec_Run env;
     json_decode := json_decode env;
     os_Open := os_Open env;
     s3_PutObject := s3_PutObject env;
     s3_PresignGetObject := s3_PresignGetObject env |}.

Definition with_rand_byte (f : nat -> byte) (env : Env) : Env :=
  {| uuid_Parse := uuid_Parse env;
     auth_GetBearerToken := auth_GetBearerToken env;
     auth_ValidateJWT := auth_ValidateJWT env;
     db_GetVideo_fault := db_GetVideo_fault env;
     db_UpdateVideo_fault := db_UpdateVideo_fault env;
     mime_ParseMediaType := mime_ParseMediaType env;
     os_CreateTemp := os_CreateTemp env;
     io_Copy := io_Copy env;
     rand_fault := rand_fault env;
     rand_byte := f;
     exec_Run := exec_Run env;
     json_decode := json_decode env;
     os_Open := os_Open env;
     s3_PutObject := s3_PutObject env;
     s3_PresignGetObject := s3_PresignGetObject env |}.

Definition with_temp (t : result string) (env : Env) : Env :=
  {| uuid_Parse := uuid_Parse env;
     auth_GetBearerToken := auth_GetBearerToken env;
     auth_ValidateJWT := auth_ValidateJWT env;
     db_GetVideo_fault := db_GetVideo_fault env;
     db_UpdateVideo_fault := db_UpdateVideo_fault env;
     mime_ParseMediaType := mime_ParseMediaType env;
     os_CreateTemp := fun _ _ => t;
     io_Copy := io_Copy env;
     rand_fault := rand_fault env;
     rand_byte := rand_byte env;
     exec_Run := exec_Run env;
     json_decode := json_decode env;
     os_Open := os_Open env;
     s3_PutObject := s3_PutObject env;
     s3_PresignGetObject := s3_PresignGetObject env |}.

(** A caller who does not own [Sample.video1]. *)
Definition env_stranger : Env := with_jwt (Ok "user-2"%string) Sample.env.

(** The transcoder exits with an error; the probe works. *)
Definition env_ffmpeg_fails : Env :=
  with_exec (fun name _ =>
               if String.eqb name "ffmpeg"
               then ([], Some "exit status 1"%string)
               else ([x7b; x7d], None)) Sample.env.

Definition env_update_fails : Env :=
  with_update_fault (Some "database is locked"%string) Sample.env.

Definition env_sign_fails : Env :=
  Sample.env_with [{| CodecType := "video"; Width := 1280; Height := 720 |}]
    None (fun _ _ _ _ => Err "no credentials"%string).

Definition env_other_bytes : Env := with_rand_byte (fun _ => xff) Sample.env.

Definition env_no_temp : Env :=
  with_temp (Err "no space left on device"%string) Sample.env.

(** The probe sees an audio stream, a video stream without dimensions, a
    portrait stream and a landscape stream, in this order. *)
Definition mixed_streams : list Stream :=
  [{| CodecType := "audio"; Width := 0; Height := 0 |};
   {| CodecType := "video"; Width := 0; Height := 0 |};
   {| CodecType := "video"; Width := 720; Height := 1280 |};
   {| CodecType := "video"; Width := 1920; Height := 1080 |}].

Definition env_mixed : Env := Sample.env_with mixed_streams None Sample.presign.

(** A body one byte over the limit. *)
Definition big_request : Request :=
  {| PathValue_videoID := PathValue_videoID Sample.request;
     Header := Header Sample.request;
     BodySize := maxMemory + 1;
     MultipartForm := MultipartForm Sample.request |}.

(** A metadata store without the record. *)
Definition world_empty : World :=
  {| heap := []; db := ∅; objects := ∅; calls := [] |}.

(** A record that holds a stored reference, and the world it lives in. *)
Definition stored_video : Video :=
  {| ID := Sample.video1; ThumbnailURL := None; VideoURL := Some 0%nat;
     UserID := Sample.user1 |}.

Definition stored_world : World :=
  {| heap := ["tubely,landscape/a.mp4"%string]; db := db Sample.world0;
     objects := ∅; calls := [] |}.

Definition sample_part : Part :=
  {| part_ContentType := "video/mp4"; part_data := [x00; x01] |}.

Definition sample_row : Row :=
  {| id := Sample.video1; thumbnail_url := None; video_url := None;
     user_id := Sample.user1 |}.

Definition sample_temp : string := "/tmp/tubely-upload.mp4123".

End Cases.

(** ** The thumbnail handlers

    [handlerUploadThumbnail] exists in three texts: one keeps the image in
    the global map [videoThumbnails] ([InMemory]), one writes it into the
    record as a data URL ([DataURL]), one writes it to a file below the
    assets directory ([Assets]).  Two of them go on after the answer to a
    caller who does not own the record, so a run may write more than one
    response: the responses are collected in the order they are written.

    [fmt.Println], [log.Println] and the deferred [file.Close] are left
    out.  The result of [r.ParseMultipartForm(maxMemory)] is dropped by
    all three texts and the body is not limited; [r.FormFile] reports
    what is wrong with the form. *)
Module Thumbnail.

(** [type thumbnail struct], the value type of [videoThumbnails]. *)
Record thumbnail := mkThumbnail {
  data : list byte;
  mediaType : string;
}.

(** The fields of [apiConfig] the thumbnail handlers read. *)
Record Config := mkThumbnailConfig {
  api : apiConfig;          (* for [jwtSecret] *)
  port : string;
  assetsRoot : string;
}.

(** The collaborators of the upload path and those only the thumbnail
    handlers call. *)
Record Sys := mkSys {
  collaborators : Env;
  io_ReadAll_fault : list byte -> option error;
  (* [filepath.Join]: a function of its two arguments *)
  filepath_Join : string -> string -> string;
  os_Create : string -> option error;
  (* how many bytes a failing [io.Copy] has written when it gives up *)
  io_Copy_written : string -> list byte -> nat;
}.

(** What a thumbnail upload can change, and the responses written so
    far (oldest first). *)
Record State := mkState {
  world : World;
  videoThumbnails : gmap string thumbnail;
  files : gmap string (list byte);
  written : list Response;
}.

(** A statement either goes on with a value ([Some]) or has returned from
    the handler ([None]). *)
Definition Handler (A : Type) : Type := State -> option A * State.

Definition ret {A} (a : A) : Handler A := fun s => (Some a, s).

Definition bind {A B} (m : Handler A) (k : A -> Handler B) : Handler B :=
  fun s =>
    match m s with
    | (Some a, s') => k a s'
    | (None, s') => (None, s')
    end.

(** [respondWithError(w, ...)] or [respondWithJSON(w, ...)] on its own:
    the handler goes on. *)
Definition write (resp : Response) : Handler unit := fun s =>
  (Some tt,
   {| world := world s; videoThumbnails := videoThumbnails s;
      files := files s; written := (written s ++ [resp])%list |}).

(** [respondWithError(w, ...); return] *)
Definition respond {A} (resp : Response) : Handler A := fun s =>
  (None,
   {| world := world s; videoThumbnails := videoThumbnails s;
      files := files s; written := (written s ++ [resp])%list |}).

Definition lift {A} (m : St A) : Handler A := fun s =>
  let '(a, w') := m (world s) in
  (Some a,
   {| world := w'; videoThumbnails := videoThumbnails s;
      files := files s; written := written s |}).

(** [x, err := f(); if err != nil { respond; return }] *)
Definition attempt {A} (x : result A) (onErr : error -> Response) : Handler A :=
  match x with
  | Ok a => ret a
  | Err e => respond (onErr e)
  end.

(** [if err := f(); err != nil { respond; return }] *)
Definition check (e : option error) (onErr : error -> Response)
    : Handler unit :=
  match e with
  | None => ret tt
  | Some err => respond (onErr err)
  end.

(** [respondWithJSON(w, code, video)]: the record is encoded with its
    pointers followed. *)
Definition write_json (code : Z) (video : Video) : Handler unit := fun s =>
  write (respondWithJSON code (row_of (world s) video)) s.

Definition exec (m : Handler unit) (s : State) : State := snd (m s).

Declare Scope thumbnail_scope.
Delimit Scope thumbnail_scope with thumbnail.
Notation "'let*' x ':=' m 'in' k" := (bind m (fun x => k))
  (at level 10, x name, m at level 100, k at level 200) : thumbnail_scope.

Definition set_ThumbnailURL (p : option loc) (v : Video) : Video :=
  {| ID := ID v; ThumbnailURL := p; VideoURL := VideoURL v;
     UserID := UserID v |}.

(** [io.ReadAll(file)]: all of the part, or an error. *)
Definition ReadAll (sys : Sys) (file : Part) : result (list byte) :=
  match io_ReadAll_fault sys (part_data file) with
  | Some e => Err e
  | None => Ok (part_data file)
  end.

(** [videoThumbnails[videoID] = t] *)
Definition store_thumbnail (videoID : UUID) (t : thumbnail) : Handler unit :=
  fun s =>
  (Some tt,
   {| world := world s;
      videoThumbnails := <[videoID := t]> (videoThumbnails s);
      files := files s; written := written s |}).

(** [os.Create(name)]: the file is created, or truncated when it is
    there. *)
Definition Create (sys : Sys) (name : string) : Handler (option error) :=
  fun s =>
  match os_Create sys name with
  | Some e => (Some (Some e), s)
  | None =>
      (Some None,
       {| world := world s; videoThumbnails := videoThumbnails s;
          files := <[name := []]> (files s); written := written s |})
  end.

(** [io.Copy(dst, src)] into the file just created: all of [src] arrives,
    or the bytes written before the error. *)
Definition arrived (sys : Sys) (dst : string) (src : list byte) : list byte :=
  match io_Copy (collaborators sys) dst src with
  | None => src
  | Some _ => take (io_Copy_written sys dst src) src
  end.

Definition Copy (sys : Sys) (dst : string) (src : list byte)
    : Handler (option error) := fun s =>
  (Some (io_Copy (collaborators sys) dst src),
   {| world := world s; videoThumbnails := videoThumbnails s;
      files := <[dst := arrived sys dst src]> (files s);
      written := written s |}).

(** [base64.StdEncoding]: the standard alphabet, and [=] to fill the last
    group of four. *)
Module StdEncoding.

Definition encodeStd : string :=
  "ABCDEFGHIJKLMNOPQRSTUVWXYZabcdefghijklmnopqrstuvwxyz0123456789+/".

Definition digit (n : N) : ascii :=
  match String.get (N.to_nat n) encodeStd with
  | Some c => c
  | None => "A"%char
  end.

Definition sextet (v : N) (sh : N) : ascii :=
  digit (N.land (N.shiftr v sh) 63).

Fixpoint EncodeToString (src : list byte) : string :=
  match src with
  | [] => ""
  | [a] =>
      let v := N.shiftl (Byte.to_N a) 16 in
      String (sextet v 18) (String (sextet v 12) "==")
  | [a; b] =>
      let v := N.lor (N.shiftl (Byte.to_N a) 16) (N.shiftl (Byte.to_N b) 8) in
      String (sextet v 18) (String (sextet v 12) (String (sextet v 6) "="))
  | a :: b :: c :: rest =>
      let v := N.lor (N.lor (N.shiftl (Byte.to_N a) 16)
                            (N.shiftl (Byte.to_N b) 8)) (Byte.to_N c) in
      String (sextet v 18) (String (sextet v 12)
        (String (sextet v 6) (String (sextet v 0) (EncodeToString rest))))
  end.

End StdEncoding.

(** The text that keeps the image in [videoThumbnails]. *)
Module InMemory.

Definition handlerUploadThumbnail (sys : Sys) (cfg : Config) (r : Request)
    : State -> State := exec (
  let videoIDString := PathValue_videoID r in
  let* videoID := attempt (uuid_Parse (collaborators sys) videoIDString)
    (fun err => respondWithError StatusBadRequest "Invalid ID" (Some err)) in
  let* token := attempt (auth_GetBearerToken (collaborators sys) (Header r))
    (fun err => respondWithError StatusUnauthorized "Couldn't find JWT"
                  (Some err)) in
  let* userID := attempt
    (auth_ValidateJWT (collaborators sys) token (jwtSecret (api cfg)))
    (fun err => respondWithError StatusUnauthorized "Couldn't validate JWT"
                  (Some err)) in
  (* "thumbnail" should match the HTML form input name *)
  let* file := attempt (FormFile r "thumbnail")
    (fun err => respondWithError StatusBadRequest "Unable to parse form file"
                  (Some err)) in
  let mediaType := part_ContentType file in
  let* imageData := attempt (ReadAll sys file)
    (fun err => respondWithError StatusBadRequest "Unable to parse form file"
                  (Some err)) in
  let* got := lift (GetVideo (collaborators sys) videoID) in
  let* metadata := attempt got
    (fun err => respondWithError StatusBadRequest
                  "Unable to get video metadata" (Some err)) in
  (* no [return] in this branch *)
  let* _ := (if negb (String.eqb (UserID metadata) userID)
             then write (respondWithError StatusUnauthorized
                           "Not your video m8" None)
             else ret tt) in
  let thumbnail := {| data := imageData; mediaType := mediaType |} in
  let* _ := store_thumbnail videoID thumbnail in
  let newUrl :=
    ("http://localhost:" ++ port cfg ++ "/api/thumbnails/" ++ videoID)%string in
  let* p := lift (new_string newUrl) in
  let metadata := set_ThumbnailURL (Some p) metadata in
  let* err := lift (UpdateVideo (collaborators sys) metadata) in
  let* _ := check err
    (fun err => respondWithError StatusInternalServerError
                  "Unable to update video" (Some err)) in
  write_json StatusOK metadata)%thumbnail.

End InMemory.

(** The text that stores the image in the record itself. *)
Module DataURL.

Definition handlerUploadThumbnail (sys : Sys) (cfg : Config) (r : Request)
    : State -> State := exec (
  let videoIDString := PathValue_videoID r in
  let* videoID := attempt (uuid_Parse (collaborators sys) videoIDString)
    (fun err => respondWithError StatusBadRequest "Invalid ID" (Some err)) in
  let* token := attempt (auth_GetBearerToken (collaborators sys) (Header r))
    (fun err => respondWithError StatusUnauthorized "Couldn't find JWT"
                  (Some err)) in
  let* userID := attempt
    (auth_ValidateJWT (collaborators sys) token (jwtSecret (api cfg)))
    (fun err => respondWithError StatusUnauthorized "Couldn't validate JWT"
                  (Some err)) in
  let* file := attempt (FormFile r "thumbnail")
    (fun err => respondWithError StatusBadRequest "Unable to parse form file"
                  (Some err)) in
  let mediaType := part_ContentType file in
  let* imageData := attempt (ReadAll sys file)
    (fun err => respondWithError StatusBadRequest "Unable to parse form file"
                  (Some err)) in
  let* got := lift (GetVideo (collaborators sys) videoID) in
  let* metadata := attempt got
    (fun err => respondWithError StatusBadRequest
                  "Unable to get video metadata" (Some err)) in
  (* no [return] in this branch *)
  let* _ := (if negb (String.eqb (UserID metadata) userID)
             then write (respondWithError StatusUnauthorized
                           "Not your video m8" None)
             else ret tt) in
  let imageBase64 := StdEncoding.EncodeToString imageData in
  let dataURL := ("data:" ++ mediaType ++ ";base64," ++ imageBase64)%string in
  let* p := lift (new_string dataURL) in
  let metadata := set_ThumbnailURL (Some p) metadata in
  let* err := lift (UpdateVideo (collaborators sys) metadata) in
  let* _ := check err
    (fun err => respondWithError StatusInternalServerError
                  "Unable to update video" (Some err)) in
  write_json StatusOK metadata)%thumbnail.

End DataURL.

(** The text that writes the image to a file of the assets directory. *)
Module Assets.

Definition handlerUploadThumbnail (sys : Sys) (cfg : Config) (r : Request)
    : State -> State := exec (
  let videoIDString := PathValue_videoID r in
  let* videoID := attempt (uuid_Parse (collaborators sys) videoIDString)
    (fun err => respondWithError StatusBadRequest "Invalid ID" (Some err)) in
  let* token := attempt (auth_GetBearerToken (collaborators sys) (Header r))
    (fun err => respondWithError StatusUnauthorized "Couldn't find JWT"
                  (Some err)) in
  let* userID := attempt
    (auth_ValidateJWT (collaborators sys) token (jwtSecret (api cfg)))
    (fun err => respondWithError StatusUnauthorized "Couldn't validate JWT"
                  (Some err)) in
  let* file := attempt (FormFile r "thumbnail")
    (fun err => respondWithError StatusBadRequest "Unable to parse form file"
                  (Some err)) in
  let contentTypeHeader := part_ContentType file in
  let* mediaType := attempt
    (mime_ParseMediaType (collaborators sys) contentTypeHeader)
    (fun err => respondWithError StatusBadRequest "Unable to get mediaType"
                  (Some err)) in
  if negb (String.eqb mediaType "image/jpeg")
     && negb (String.eqb mediaType "image/png")
  then respond (respondWithError StatusBadRequest "Unable to get mediaType"
                  None)
  else
  let* got := lift (GetVideo (collaborators sys) videoID) in
  let* metadata := attempt got
    (fun err => respondWithError StatusBadRequest
                  "Unable to get video metadata" (Some err)) in
  if negb (String.eqb (UserID metadata) userID)
  then respond (respondWithError StatusUnauthorized "Not your video m8" None)
  else
  let* randomBytes := attempt (rand_Read (collaborators sys) 32)
    (fun err => respondWithError StatusInternalServerError
                  "Unable to create image name" (Some err)) in
  let fileName := base64.EncodeToString randomBytes in
  match strings.Split mediaType "/" !! 1%nat with
  | None => respond (panic "index out of range")
  | Some fileExtension =>
  let fileName := (fileName ++ "." ++ fileExtension)%string in
  let filePath := filepath_Join sys (assetsRoot cfg) fileName in
  let* err := Create sys filePath in
  let* _ := check err
    (fun _ => respondWithError StatusUnauthorized "Not your video m8" None) in
  (* io.Copy(newFile, file): the result is dropped *)
  let* _ := Copy sys filePath (part_data file) in
  let thumbnailURL :=
    ("http://localhost:" ++ port cfg ++ "/assets/" ++ fileName)%string in
  let* p := lift (new_string thumbnailURL) in
  let metadata := set_ThumbnailURL (Some p) metadata in
  let* err := lift (UpdateVideo (collaborators sys) metadata) in
  let* _ := check err
    (fun err => respondWithError StatusInternalServerError
                  "Unable to update video" (Some err)) in
  write_json StatusOK metadata
  end)%thumbnail.

End Assets.

(** *** Vocabulary for the properties *)

(** The row [row0] of record [videoID] with a new thumbnail location. *)
Definition with_thumbnail (videoID : UUID) (url : string) (row0 : Row) : Row :=
  {| id := videoID; thumbnail_url := Some url; video_url := video_url row0;
     user_id := user_id row0 |}.

(** The response after the update of the record to [row1]. *)
Definition update_response (sys : Sys) (row1 : Row) : Response :=
  match db_UpdateVideo_fault (collaborators sys) row1 with
  | None => respondWithJSON StatusOK row1
  | Some e => respondWithError StatusInternalServerError
                "Unable to update video" (Some e)
  end.

(** The metadata store after the update of record [videoID] to [row1]. *)
Definition update_db (sys : Sys) (videoID : UUID) (row1 : Row)
    (d : gmap string Row) : gmap string Row :=
  match db_UpdateVideo_fault (collaborators sys) row1 with
  | None => <[videoID := row1]> d
  | Some _ => d
  end.

Definition not_yours : Response :=
  respondWithError StatusUnauthorized "Not your video m8" None.

(** The caller's token validates to [user]. *)
Definition authenticated (sys : Sys) (cfg : Config) (r : Request)
    (user : UUID) : Prop :=
  exists token,
    auth_GetBearerToken (collaborators sys) (Header r) = Ok token
    /\ auth_ValidateJWT (collaborators sys) token (jwtSecret (api cfg))
       = Ok user.

(** A request by [user] with the readable file part [file] for the record
    [videoID], whose row is [row0]. *)
Definition reaches_record (sys : Sys) (cfg : Config) (r : Request) (s : State)
    (videoID user : UUID) (row0 : Row) (file : Part) : Prop :=
  uuid_Parse (collaborators sys) (PathValue_videoID r) = Ok videoID
  /\ authenticated sys cfg r user
  /\ FormFile r "thumbnail" = Ok file
  /\ io_ReadAll_fault sys (part_data file) = None
  /\ db_GetVideo_fault (collaborators sys) videoID = None
  /\ db (world s) !! videoID = Some row0.

(** A run that is answered with one error and has changed neither store,
    nor the thumbnails in memory, nor a file; at most the record has been
    read. *)
Definition turned_away (s s' : State) : Prop :=
  exists code msg err,
    written s' = (written s ++ [respondWithError code msg err])%list
    /\ videoThumbnails s' = videoThumbnails s /\ files s' = files s
    /\ db (world s') = db (world s)
    /\ objects (world s') = objects (world s)
    /\ (calls (world s') = calls (world s)
        \/ exists videoID : UUID,
             calls (world s') = CallGetVideo videoID :: calls (world s)).

(** The two locations the first two texts write. *)
Definition memory_url (cfg : Config) (videoID : UUID) : string :=
  "http://localhost:" ++ port cfg ++ "/api/thumbnails/" ++ videoID.

Definition data_url (file : Part) : string :=
  "data:" ++ part_ContentType file ++ ";base64,"
  ++ StdEncoding.EncodeToString (part_data file).

(** Name, path and location of the asset file for the subtype [ext] of
    the media type. *)
Definition asset_name (sys : Sys) (ext : string) : string :=
  random_id (collaborators sys) ++ "." ++ ext.

Definition asset_path (sys : Sys) (cfg : Config) (ext : string) : string :=
  filepath_Join sys (assetsRoot cfg) (asset_name sys ext).

Definition asset_url (sys : Sys) (cfg : Config) (ext : string) : string :=
  "http://localhost:" ++ port cfg ++ "/assets/" ++ asset_name sys ext.

(** A request by the owner of record [videoID] (row [row0]) with a file
    part of media type image/[ext], [ext] being jpeg or png, for which a
    random name can be drawn. *)
Definition reaches_asset (sys : Sys) (cfg : Config) (r : Request) (s : State)
    (videoID : UUID) (row0 : Row) (file : Part) (ext : string) : Prop :=
  uuid_Parse (collaborators sys) (PathValue_videoID r) = Ok videoID
  /\ authenticated sys cfg r (user_id row0)
  /\ FormFile r "thumbnail" = Ok file
  /\ mime_ParseMediaType (collaborators sys) (part_ContentType file)
     = Ok ("image/" ++ ext)
  /\ (ext = "jpeg" \/ ext = "png")
  /\ db_GetVideo_fault (collaborators sys) videoID = None
  /\ db (world s) !! videoID = Some row0
  /\ rand_fault (collaborators sys) = None.

End Thumbnail.

(** A setting for the thumbnail handlers: the record of [Sample] with a
    video location, a caller who owns it and one who does not. *)
Module ThumbnailCases.

Definition cfg : Thumbnail.Config :=
  {| Thumbnail.api := Sample.cfg; Thumbnail.port := "8091";
     Thumbnail.assetsRoot := "./assets" |}.

Definition sys_of (e : Env) : Thumbnail.Sys :=
  {| Thumbnail.collaborators := e;
     Thumbnail.io_ReadAll_fault := fun _ => None;
     Thumbnail.filepath_Join := fun a b => (a ++ "/" ++ b)%string;
     Thumbnail.os_Create := fun _ => None;
     Thumbnail.io_Copy_written := fun _ _ => 1%nat |}.

Definition owner : Thumbnail.Sys := sys_of Sample.env.
Definition stranger : Thumbnail.Sys := sys_of Cases.env_stranger.

Definition picture : Part :=
  {| part_ContentType := "image/png"; part_data := [x89; x50; x4e; x47] |}.

Definition request : Request :=
  {| PathValue_videoID := Sample.video1;
     Header := [("Authorization", "Bearer token-1")]%string;
     BodySize := 4096;
     MultipartForm := Ok [("thumbnail"%string, picture)] |}.

Definition row : Row :=
  {| id := Sample.video1; thumbnail_url := None;
     video_url := Some "tubely,landscape/a.mp4"%string;
     user_id := Sample.user1 |}.

Definition state0 : Thumbnail.State :=
  {| Thumbnail.world :=
       {| heap := []; db := {[ Sample.video1 := row ]}; objects := ∅;
          calls := [] |};
     Thumbnail.videoThumbnails := ∅;
     Thumbnail.files := ∅;
     Thumbnail.written := [] |}.

(** The same picture with other bytes. *)
Definition other_picture : Part :=
  {| part_ContentType := "image/png"; part_data := [x89; x50; x4e; x48] |}.

Definition other_request : Request :=
  {| PathValue_videoID := Sample.video1;
     Header := [("Authorization", "Bearer token-1")]%string;
     BodySize := 4096;
     MultipartForm := Ok [("thumbnail"%string, other_picture)] |}.

(** The assets directory cannot be written to. *)
Definition no_create : Thumbnail.Sys :=
  {| Thumbnail.collaborators := Sample.env;
     Thumbnail.io_ReadAll_fault := fun _ => None;
     Thumbnail.filepath_Join := fun a b => (a ++ "/" ++ b)%string;
     Thumbnail.os_Create := fun _ => Some "permission denied"%string;
     Thumbnail.io_Copy_written := fun _ _ => 0%nat |}.

(** The copy stops after one byte. *)
Definition env_copy_fails : Env :=
  {| uuid_Parse := uuid_Parse Sample.env;
     auth_GetBearerToken := auth_GetBearerToken Sample.env;
     auth_ValidateJWT := auth_ValidateJWT Sample.env;
     db_GetVideo_fault := db_GetVideo_fault Sample.env;
     db_UpdateVideo_fault := db_UpdateVideo_fault Sample.env;
     mime_ParseMediaType := mime_ParseMediaType Sample.env;
     os_CreateTemp := os_CreateTemp Sample.env;
     io_Copy := fun _ _ => Some "unexpected EOF"%string;
     rand_fault := rand_fault Sample.env;
     rand_byte := rand_byte Sample.env;
     exec_Run := exec_Run Sample.env;
     json_decode := json_decode Sample.env;
     os_Open := os_Open Sample.env;
     s3_PutObject := s3_PutObject Sample.env;
     s3_PresignGetObject := s3_PresignGetObject Sample.env |}.

Definition copy_fails : Thumbnail.Sys := sys_of env_copy_fails.

Definition asset : string :=
  "AAECAwQFBgcICQoLDA0ODxAREhMUFRYXGBkaGxwdHh8.png".

End ThumbnailCases.

(** * Properties *)

(** ** Integers *)

Lemma int_wrap_id z : int_min <= z <= int_max -> int_wrap z = z.
Proof.
  unfold int_wrap, int_min, int_max. intros H.
  rewrite Z.mod_small; lia.
Qed.

Lemma ratio_exact w h :
  0 < w -> w * 1000 <= int_max -> 0 < h ->
  int_div (int_mul w 1000) h = w * 1000 / h.
Proof.
  intros Hw Hmax Hh. unfold int_div, int_mul.
  assert (Hmin : int_min <= 0) by (unfold int_min; lia).
  rewrite (int_wrap_id (w * 1000)) by lia.
  rewrite Z.quot_div_nonneg by lia.
  apply int_wrap_id.
  assert (0 <= w * 1000 / h) by (apply Z.div_pos; lia).
  assert (w * 1000 / h <= w * 1000) by (apply Z.div_le_upper_bound; nia).
  lia.
Qed.

(** ** The classifier *)

Lemma range_Streams_nil_error streams : snd (range_Streams streams) = None.
Proof.
  induction streams as [|s rest IH]; simpl; [reflexivity|].
  repeat (case_match; simpl; try reflexivity). 
  all: exact IH.
Qed.

Lemma range_Streams_skip pre rest :
  Forall (fun s => CodecType s <> "video"%string \/ Width s <= 0 \/ Height s <= 0)
         pre ->
  range_Streams (pre ++ rest) = range_Streams rest.
Proof.
  induction 1 as [|s pre Hs _ IH]; simpl; [reflexivity|].
  rewrite IH.
  destruct (String.eqb_spec (CodecType s) "video"); simpl; [|reflexivity].
  destruct (Z.ltb_spec 0 (Width s)); simpl; [|reflexivity].
  destruct (Z.ltb_spec 0 (Height s)); simpl; [|reflexivity].
  destruct Hs as [?|[?|?]]; [congruence | lia | lia].
Qed.

Lemma range_Streams_select s rest :
  CodecType s = "video"%string -> 0 < Width s -> Width s * 1000 <= int_max ->
  0 < Height s ->
  range_Streams (s :: rest)
  = (label (classify_spec (Width s * 1000 / Height s)), None).
Proof.
  intros Hc Hw Hmax Hh. simpl.
  rewrite Hc, ratio_exact by assumption. simpl.
  destruct (Z.ltb_spec 0 (Width s)); [|lia].
  destruct (Z.ltb_spec 0 (Height s)); [|lia]. simpl.
  unfold classify_spec.
  destruct ((1700 <=? _) && _); [reflexivity|].
  destruct ((520 <=? _) && _); reflexivity.
Qed.

Lemma getVideoAspectRatio_eq env filePath w :
  getVideoAspectRatio env filePath w
  = (range_Streams
       match json_Unmarshal env (fst (exec_Run env "ffprobe"
                                        (ffprobe_args filePath))) with
       | SyntaxError _ => []
       | Decoded streams _ => streams
       end,
     log (CallExec "ffprobe" (ffprobe_args filePath)) w).
Proof. reflexivity. Qed.

Lemma category_label c : category (label c) = c.
Proof. destruct c; reflexivity. Qed.

(** C2, amended.  When the first qualifying stream of the probe output
    has width [w] and height [h] and [w * 1000] fits the 64-bit [int],
    the classifier computes [ratio = floor(w * 1000 / h)] and answers by
    the rule: [1700 <= ratio <= 1850] gives the landscape label,
    [520 <= ratio <= 600] the portrait label, anything else [other], with
    a nil error; the handler's switch reads the same category off the
    label.  Ratios 1700, 1850, 520, 600 fall inside their range and 1699,
    1851, 519, 601 are [other]. *)
Theorem classifier_follows_ratio env filePath w pre s post e :
  json_Unmarshal env (fst (exec_Run env "ffprobe" (ffprobe_args filePath)))
    = Decoded (pre ++ s :: post) e ->
  Forall (fun t => CodecType t <> "video"%string \/ Width t <= 0 \/ Height t <= 0)
         pre ->
  CodecType s = "video"%string ->
  0 < Width s -> Width s * 1000 <= int_max -> 0 < Height s ->
  let ratio := Width s * 1000 / Height s in
  fst (getVideoAspectRatio env filePath w) = (label (classify_spec ratio), None)
  /\ category (fst (fst (getVideoAspectRatio env filePath w)))
     = classify_spec ratio
  /\ (1700 <= ratio <= 1850 -> classify_spec ratio = landscape)
  /\ (520 <= ratio <= 600 -> classify_spec ratio = portrait)
  /\ (~ 1700 <= ratio <= 1850 -> ~ 520 <= ratio <= 600 ->
      classify_spec ratio = other)
  /\ map (fun r => fst (range_Streams
                          [{| CodecType := "video"; Width := r;
                              Height := 1000 |}]))
         [1700; 1850; 520; 600; 1699; 1851; 519; 601]
     = ["16:9"; "16:9"; "9:16"; "9:16"; "other"; "other"; "other"; "other"]%string.
Proof.
  intros Hout Hpre Hc Hw Hmax Hh ratio.
  assert (Hres : fst (getVideoAspectRatio env filePath w)
                 = (label (classify_spec ratio), None)).
  { rewrite getVideoAspectRatio_eq, Hout. simpl fst.
    rewrite range_Streams_skip by assumption.
    now apply range_Streams_select. }
  split; [exact Hres|].
  split; [rewrite Hres; apply category_label|].
  unfold classify_spec.
  repeat split.
  - intros [? ?].
    destruct (Z.leb_spec 1700 ratio); [|lia].
    destruct (Z.leb_spec ratio 1850); [reflexivity|lia].
  - intros [? ?].
    destruct (Z.leb_spec 1700 ratio); simpl.
    + destruct (Z.leb_spec ratio 1850); [lia|].
      destruct (Z.leb_spec 520 ratio); [|lia].
      destruct (Z.leb_spec ratio 600); [reflexivity|lia].
    + destruct (Z.leb_spec 520 ratio); [|lia].
      destruct (Z.leb_spec ratio 600); [reflexivity|lia].
  - intros Hl Hp.
    destruct (Z.leb_spec 1700 ratio), (Z.leb_spec ratio 1850),
      (Z.leb_spec 520 ratio), (Z.leb_spec ratio 600);
      simpl; try reflexivity; lia.
Qed.

Lemma classifier_follows_ratio_witness :
  fst (getVideoAspectRatio Sample.env "/tmp/a.mp4" Sample.world0)
  = ("16:9"%string, None).
Proof.
  exact (proj1 (classifier_follows_ratio Sample.env "/tmp/a.mp4" Sample.world0
    [] {| CodecType := "video"; Width := 1280; Height := 720 |} [] None
    eq_refl (List.Forall_nil _) eq_refl eq_refl
    ltac:(vm_compute; discriminate) eq_refl)).
Defined.

(** C2 as stated fails: for the width [wide] and height 1 the product
    [wide * 1000] wraps around to 1776, so the classifier answers with the
    landscape label although [floor(wide * 1000 / 1)] lies in no range. *)
Lemma classifier_ratio_wraps :
  0 < wide /\ wide <= int_max
  /\ range_Streams [{| CodecType := "video"; Width := wide; Height := 1 |}]
     = ("16:9"%string, None)
  /\ wide * 1000 / 1 = 2102928824402888886000
  /\ classify_spec (wide * 1000 / 1) = other
  /\ range_Streams [{| CodecType := "video"; Width := wide; Height := 1 |}]
     <> (label (classify_spec (wide * 1000 / 1)), None).
Proof.
  repeat split; try reflexivity.
  - vm_compute. discriminate.
  - vm_compute. discriminate.
Qed.

(** C3.  Whatever the probe subprocess returned as its run error: when its
    output is empty, or is not syntactically valid JSON, or decodes to
    streams none of which has type "video" with positive width and
    height, the classifier returns [other] with a nil error. *)
Theorem classifier_degrades_to_other env filePath w :
  let out := fst (exec_Run env "ffprobe" (ffprobe_args filePath)) in
  (out = []
   \/ (exists e, json_decode env out = SyntaxError e)
   \/ (exists ss e, json_decode env out = Decoded ss e
        /\ Forall (fun t => CodecType t <> "video"%string
                            \/ Width t <= 0 \/ Height t <= 0) ss)) ->
  getVideoAspectRatio env filePath w
  = (("other"%string, None),
     log (CallExec "ffprobe" (ffprobe_args filePath)) w).
Proof.
  intros out H. rewrite getVideoAspectRatio_eq. fold out. f_equal.
  destruct H as [H | [[e H] | (ss & e & H & Hss)]].
  - rewrite H. reflexivity.
  - unfold json_Unmarshal. rewrite H. destruct out; reflexivity.
  - unfold json_Unmarshal. destruct out; [reflexivity|]. rewrite H.
    rewrite <- (app_nil_r ss). now rewrite range_Streams_skip.
Qed.

Lemma classifier_degrades_to_other_witness :
  getVideoAspectRatio
    (Sample.env_with [{| CodecType := "audio"; Width := 0; Height := 0 |}]
                     None Sample.presign)
    "/tmp/a.mp4" Sample.world0
  = (("other"%string, None),
     log (CallExec "ffprobe" (ffprobe_args "/tmp/a.mp4")) Sample.world0).
Proof.
  apply classifier_degrades_to_other. right. right.
  exists [{| CodecType := "audio"; Width := 0; Height := 0 |}], None.
  split; [reflexivity|].
  constructor; [left; discriminate | constructor].
Defined.

(** ** Cutting at the comma *)

Lemma substring_all s : String.substring 0 (String.length s) s = s.
Proof. induction s as [|c s IH]; simpl; [reflexivity | now rewrite IH]. Qed.

Lemma prefix_empty s : String.prefix "" s = true.
Proof. destruct s; reflexivity. Qed.

Lemma Cut_comma_cons c s :
  strings.Cut (String c s) ","
  = if Ascii.eqb c ","
    then (""%string, s, true)
    else let '(before, after, found) := strings.Cut s "," in
         (String c before, after, found).
Proof.
  cbn [strings.Cut String.prefix].
  destruct (ascii_dec "," c) as [<-|Hne].
  - rewrite prefix_empty. cbn [String.length].
    replace (S (String.length s) - 1)%nat with (String.length s) by lia.
    cbn [String.substring]. rewrite substring_all. reflexivity.
  - destruct (Ascii.eqb_spec c ","); [congruence | reflexivity].
Qed.

Lemma Cut_without_comma s :
  strings.count_char "," s = 0%nat -> strings.Cut s "," = (s, ""%string, false).
Proof.
  induction s as [|c s IH]; [reflexivity|].
  cbn [strings.count_char]. rewrite Cut_comma_cons.
  destruct (Ascii.eqb c ","); [discriminate|].
  intros H. rewrite IH by exact H. reflexivity.
Qed.

Lemma Cut_at_first_comma bucket rest :
  strings.count_char "," bucket = 0%nat ->
  strings.Cut (bucket ++ "," ++ rest) "," = (bucket, rest, true).
Proof.
  induction bucket as [|c b IH].
  - intros _. change ("" ++ "," ++ rest)%string with (String "," rest).
    now rewrite Cut_comma_cons.
  - change (String c b ++ "," ++ rest)%string
      with (String c (b ++ "," ++ rest)).
    cbn [strings.count_char]. rewrite Cut_comma_cons.
    destruct (Ascii.eqb c ","); [discriminate|].
    intros H. rewrite IH by exact H. reflexivity.
Qed.

Lemma comma_not_empty bucket rest : (bucket ++ "," ++ rest)%string <> ""%string.
Proof. destruct bucket; discriminate. Qed.

(** ** Worlds *)

Lemma calls_since_app w w' new :
  calls w' = (new ++ calls w)%list -> calls_since w w' = new.
Proof.
  intros H. unfold calls_since. rewrite H, length_app.
  replace (length new + length (calls w) - length (calls w))%nat
    with (length new) by lia.
  apply take_app_length.
Qed.

Lemma deref_new h (s : string) d o c :
  deref {| heap := h ++ [s]; db := d; objects := o; calls := c |} (length h) = s.
Proof. unfold deref. simpl. now rewrite list_lookup_middle. Qed.

(** ** The resolver *)

Lemma resolve_nil env cfg video w :
  VideoURL video = None ->
  dbVideoToSignedVideo env cfg video w = ((video, None), w).
Proof. intros H. unfold dbVideoToSignedVideo. now rewrite H. Qed.

Lemma resolve_empty env cfg video w p :
  VideoURL video = Some p -> deref w p = ""%string ->
  dbVideoToSignedVideo env cfg video w = ((video, None), w).
Proof. intros H He. unfold dbVideoToSignedVideo. now rewrite H, He. Qed.

Lemma resolve_no_comma env cfg video w p :
  VideoURL video = Some p -> strings.count_char "," (deref w p) = 0%nat ->
  dbVideoToSignedVideo env cfg video w = ((video, None), w).
Proof.
  intros H Hc. unfold dbVideoToSignedVideo. rewrite H.
  destruct (String.eqb (deref w p) ""); [reflexivity|].
  now rewrite Cut_without_comma.
Qed.

Lemma resolve_comma env cfg video w p bucket key :
  VideoURL video = Some p -> deref w p = (bucket ++ "," ++ key)%string ->
  strings.count_char "," bucket = 0%nat ->
  dbVideoToSignedVideo env cfg video w
  = let w1 := log (CallPresignGetObject bucket key (time.Minute * 5)) w in
    match s3_PresignGetObject env (length (calls w)) bucket key
            (time.Minute * 5) with
    | Err e => ((video, Some e), w1)
    | Ok url =>
        ((set_VideoURL (Some (length (heap w))) video, None),
         {| heap := heap w ++ [url]; db := db w; objects := objects w;
            calls := calls w1 |})
    end.
Proof.
  intros H Hs Hb. unfold dbVideoToSignedVideo. rewrite H, Hs.
  destruct (String.eqb_spec (bucket ++ "," ++ key) "") as [E|_];
    [now apply comma_not_empty in E|].
  rewrite Cut_at_first_comma by exact Hb.
  unfold generatePresignedURL. cbn [negb].
  destruct (s3_PresignGetObject _ _ _ _ _); reflexivity.
Qed.

(** What one resolution can do to the world: append one string cell and
    log one signing call, nothing else. *)
Lemma resolve_frame env cfg video w :
  let w' := snd (dbVideoToSignedVideo env cfg video w) in
  db w' = db w /\ objects w' = objects w
  /\ heap w `prefix_of` heap w'
  /\ (calls w' = calls w
      \/ exists p bucket key,
           VideoURL video = Some p
           /\ strings.Cut (deref w p) "," = (bucket, key, true)
           /\ calls w'
              = CallPresignGetObject bucket key (time.Minute * 5) :: calls w).
Proof.
  unfold dbVideoToSignedVideo.
  destruct (VideoURL video) as [p|] eqn:Hp; simpl;
    [|repeat split; auto].
  destruct (String.eqb (deref w p) ""); simpl; [repeat split; auto|].
  destruct (strings.Cut (deref w p) ",") as [[bucket key] ok] eqn:Hcut.
  destruct ok; simpl; [|repeat split; auto].
  unfold generatePresignedURL.
  destruct (s3_PresignGetObject _ _ _ _ _); simpl.
  - repeat split; auto; [now apply prefix_app_r|].
    right. exists p, bucket, key. auto.
  - repeat split; auto. right. exists p, bucket, key. auto.
Qed.

Lemma resolve_times_frame env cfg video n : forall w,
  let w' := snd (resolve_times env cfg video n w) in
  db w' = db w /\ objects w' = objects w
  /\ heap w `prefix_of` heap w'
  /\ exists new,
       calls w' = (new ++ calls w)%list
       /\ Forall (fun c => exists bucket key d,
                     c = CallPresignGetObject bucket key d) new.
Proof.
  induction n as [|n IH]; intros w; cbn [resolve_times].
  - simpl. repeat split; auto. exists []. split; [reflexivity|constructor].
  - pose proof (resolve_frame env cfg video w) as Hstep.
    destruct (dbVideoToSignedVideo env cfg video w) as [r w1].
    specialize (IH w1).
    destruct (resolve_times env cfg video n w1) as [rs w2].
    simpl in *.
    destruct Hstep as (Hdb & Hobj & Hheap & Hcalls).
    destruct IH as (Hdb' & Hobj' & Hheap' & new & Hnew & Hall).
    split; [congruence|]. split; [congruence|].
    split; [etrans; eassumption|].
    destruct Hcalls as [Hc | (p & bucket & key & _ & _ & Hc)].
    + exists new. rewrite Hnew, Hc. auto.
    + exists (new ++ [CallPresignGetObject bucket key (time.Minute * 5)])%list.
      rewrite Hnew, Hc, <- app_assoc. split; [reflexivity|].
      apply Forall_app. split; [exact Hall|].
      constructor; [eauto | constructor].
Qed.

Lemma resolve_times_signs env cfg video p bucket key n : forall w,
  VideoURL video = Some p ->
  heap w !! p = Some (bucket ++ "," ++ key)%string ->
  strings.count_char "," bucket = 0%nat ->
  let w' := snd (resolve_times env cfg video n w) in
  heap w' !! p = Some (bucket ++ "," ++ key)%string
  /\ calls w'
     = (repeat (CallPresignGetObject bucket key (time.Minute * 5)) n
        ++ calls w)%list.
Proof.
  induction n as [|n IH]; intros w Hp Hs Hb; cbn [resolve_times].
  - simpl. auto.
  - assert (Hd : deref w p = (bucket ++ "," ++ key)%string)
      by (unfold deref; now rewrite Hs).
    rewrite (resolve_comma env cfg video w p bucket key Hp Hd Hb).
    cbv zeta.
    destruct (s3_PresignGetObject _ _ _ _ _) as [url|e].
    + match goal with
      | |- context [resolve_times env cfg video n ?w1] =>
          specialize (IH w1 Hp); destruct (resolve_times env cfg video n w1)
            as [rs w2] eqn:E
      end.
      simpl in *. destruct IH as [IH1 IH2]; [|exact Hb|].
      { now apply lookup_app_l_Some. }
      split; [exact IH1|]. rewrite IH2.
      change (?c :: ?l ++ ?k)%list with ((c :: l) ++ k)%list.
      rewrite (repeat_cons n). now rewrite <- app_assoc.
    + match goal with
      | |- context [resolve_times env cfg video n ?w1] =>
          specialize (IH w1 Hp); destruct (resolve_times env cfg video n w1)
            as [rs w2] eqn:E
      end.
      simpl in *. destruct IH as [IH1 IH2]; [exact Hs|exact Hb|].
      split; [exact IH1|]. rewrite IH2.
      change (?c :: ?l ++ ?k)%list with ((c :: l) ++ k)%list.
      rewrite (repeat_cons n). now rewrite <- app_assoc.
Qed.

(** C6.  A record whose location field is nil, or points to the empty
    string, comes back from the resolver as it went in, with a nil error
    and with the world untouched (no signing call, no new cell). *)
Theorem resolve_absent_or_empty env cfg video w :
  VideoURL video = None
  \/ (exists p, VideoURL video = Some p /\ deref w p = ""%string) ->
  dbVideoToSignedVideo env cfg video w = ((video, None), w).
Proof.
  intros [H | (p & H & He)].
  - now apply resolve_nil.
  - now apply resolve_empty with p.
Qed.

Lemma resolve_absent_or_empty_witness :
  let video := {| ID := Sample.video1; ThumbnailURL := None;
                  VideoURL := Some 0%nat; UserID := Sample.user1 |} in
  let w := {| heap := [""%string]; db := ∅; objects := ∅; calls := [] |} in
  dbVideoToSignedVideo Sample.env Sample.cfg video w = ((video, None), w).
Proof.
  intros video w. apply resolve_absent_or_empty.
  right. exists 0%nat. split; reflexivity.
Defined.

(** C4 as stated fails: a location with two commas is cut at the first
    one and signed; the record that comes back points to the signed URL
    and one signing call has been made. *)
Lemma resolve_two_commas_signed :
  let video := {| ID := Sample.video1; ThumbnailURL := None;
                  VideoURL := Some 0%nat; UserID := Sample.user1 |} in
  let w := {| heap := ["tubely,clips,a.mp4"%string]; db := ∅; objects := ∅;
              calls := [] |} in
  let out := dbVideoToSignedVideo Sample.env Sample.cfg video w in
  strings.count_char "," (deref w 0%nat) = 2%nat
  /\ strings.Split (deref w 0%nat) "," = ["tubely"; "clips"; "a.mp4"]%string
  /\ out <> ((video, None), w)
  /\ fst out = (set_VideoURL (Some 1%nat) video, None)
  /\ deref (snd out) 1%nat
     = "https://tubely.s3.amazonaws.com/clips,a.mp4?X-Amz-Expires=300"%string
  /\ calls (snd out)
     = [CallPresignGetObject "tubely" "clips,a.mp4" 300000000000].
Proof.
  repeat split; try reflexivity.
  vm_compute. discriminate.
Qed.

(** C4, amended.  A record whose location field is present and holds no
    comma comes back unchanged with a nil error and an untouched world.
    A field that holds a comma, one or several, is cut at its first
    comma: what precedes it is the bucket, all that follows it is the key,
    and that pair is handed to the signer. *)
Theorem resolve_comma_cases env cfg video w p :
  VideoURL video = Some p ->
  (strings.count_char "," (deref w p) = 0%nat ->
   dbVideoToSignedVideo env cfg video w = ((video, None), w))
  /\ (forall bucket rest,
        deref w p = (bucket ++ "," ++ rest)%string ->
        strings.count_char "," bucket = 0%nat ->
        calls (snd (dbVideoToSignedVideo env cfg video w))
        = CallPresignGetObject bucket rest (time.Minute * 5) :: calls w).
Proof.
  intros Hp. split.
  - now apply resolve_no_comma.
  - intros bucket rest Hs Hb.
    rewrite (resolve_comma env cfg video w p bucket rest Hp Hs Hb).
    cbv zeta. destruct (s3_PresignGetObject _ _ _ _ _); reflexivity.
Qed.

Lemma resolve_comma_cases_witness :
  let video := {| ID := Sample.video1; ThumbnailURL := None;
                  VideoURL := Some 0%nat; UserID := Sample.user1 |} in
  let w := {| heap := ["legacy-value"%string]; db := ∅; objects := ∅;
              calls := [] |} in
  dbVideoToSignedVideo Sample.env Sample.cfg video w = ((video, None), w).
Proof.
  intros video w.
  exact (proj1 (resolve_comma_cases Sample.env Sample.cfg video w 0%nat
                  eq_refl) eq_refl).
Defined.

(** C8 as stated fails when the signer does: the location field holds
    [tubely,landscape/a.mp4], which splits into bucket and key, yet the
    record that comes back still carries that stored reference, not a
    presigned URL, and the signer's error comes with it. *)
Lemma resolve_signer_failure_leaves_reference :
  let out := dbVideoToSignedVideo Cases.env_sign_fails Sample.cfg
               Cases.stored_video Cases.stored_world in
  deref_opt Cases.stored_world (VideoURL Cases.stored_video)
  = Some "tubely,landscape/a.mp4"%string
  /\ strings.Cut "tubely,landscape/a.mp4" ","
     = ("tubely"%string, "landscape/a.mp4"%string, true)
  /\ snd (fst out) = Some "no credentials"%string
  /\ deref_opt (snd out) (VideoURL (fst (fst out)))
     = Some "tubely,landscape/a.mp4"%string
  /\ calls (snd out)
     = [CallPresignGetObject "tubely" "landscape/a.mp4" 300000000000].
Proof. repeat split. Qed.

(** C8, amended.  For a record whose location field holds [bucket,key]
    (the bucket being what precedes the first comma), the resolver asks
    the object store for a presigned GET of exactly that bucket and key
    with an expiry of exactly five minutes, and the record that comes
    back has the id, the thumbnail location and the owner of the one
    passed in.  When the signer returns a URL, the location field of the
    returned record reads that URL and the error is nil; the URL sits in
    a new cell, the cell of the stored reference is not written.  When
    the signer fails, the record is returned as it was, its location
    field still reading [bucket,key], with the signer's error. *)
Theorem resolve_signs_for_five_minutes env cfg video w p bucket key :
  VideoURL video = Some p ->
  deref w p = (bucket ++ "," ++ key)%string ->
  strings.count_char "," bucket = 0%nat ->
  let out := dbVideoToSignedVideo env cfg video w in
  time.Minute * 5 = 5 * 60 * 1000000000
  /\ calls (snd out)
     = CallPresignGetObject bucket key (time.Minute * 5) :: calls w
  /\ db (snd out) = db w
  /\ ID (fst (fst out)) = ID video
  /\ ThumbnailURL (fst (fst out)) = ThumbnailURL video
  /\ UserID (fst (fst out)) = UserID video
  /\ deref (snd out) p = (bucket ++ "," ++ key)%string
  /\ match s3_PresignGetObject env (length (calls w)) bucket key
             (time.Minute * 5) with
     | Ok url =>
         snd (fst out) = None
         /\ deref_opt (snd out) (VideoURL (fst (fst out))) = Some url
         /\ exists q,
              fst out = (set_VideoURL (Some q) video, None)
              /\ VideoURL (fst (fst out)) = Some q
              /\ heap w !! q = None
              /\ deref (snd out) q = url
     | Err e =>
         out = ((video, Some e),
                log (CallPresignGetObject bucket key (time.Minute * 5)) w)
         /\ deref_opt (snd out) (VideoURL (fst (fst out)))
            = Some (bucket ++ "," ++ key)%string
     end.
Proof.
  intros Hp Hs Hb. cbv zeta.
  rewrite (resolve_comma env cfg video w p bucket key Hp Hs Hb). cbv zeta.
  split; [reflexivity|].
  assert (Hcell : heap w !! p = Some (bucket ++ "," ++ key)%string).
  { unfold deref in Hs. destruct (heap w !! p) as [t|] eqn:Hl;
      simpl in Hs; [congruence|].
    destruct bucket; discriminate Hs. }
  destruct (s3_PresignGetObject _ _ _ _ _) as [url|e];
    cbn [fst snd calls db log set_VideoURL ID ThumbnailURL UserID VideoURL
         deref_opt].
  - do 5 (split; [reflexivity|]).
    split.
    { unfold deref. cbn [heap].
      now rewrite (lookup_app_l_Some _ _ _ _ Hcell). }
    split; [reflexivity|].
    split; [now rewrite deref_new|].
    exists (length (heap w)).
    split; [reflexivity|]. split; [reflexivity|].
    split; [now apply lookup_ge_None_2|].
    apply deref_new.
  - do 5 (split; [reflexivity|]).
    split; [exact Hs|]. split; [reflexivity|].
    rewrite Hp. cbn [deref_opt]. f_equal. exact Hs.
Qed.

Lemma resolve_signs_for_five_minutes_witness :
  let video := {| ID := Sample.video1; ThumbnailURL := None;
                  VideoURL := Some 0%nat; UserID := Sample.user1 |} in
  let w := {| heap := ["tubely,landscape/a.mp4"%string]; db := ∅;
              objects := ∅; calls := [] |} in
  let out := dbVideoToSignedVideo Sample.env Sample.cfg video w in
  calls (snd out)
  = [CallPresignGetObject "tubely" "landscape/a.mp4" (time.Minute * 5)]
  /\ snd (fst out) = None
  /\ deref_opt (snd out) (VideoURL (fst (fst out)))
     = Some "https://tubely.s3.amazonaws.com/landscape/a.mp4?X-Amz-Expires=300"%string.
Proof.
  intros video w out.
  destruct (resolve_signs_for_five_minutes Sample.env Sample.cfg
              video w 0%nat "tubely" "landscape/a.mp4"
              eq_refl eq_refl eq_refl)
    as (_ & Hcalls & _ & _ & _ & _ & _ & Hnil & Hurl & _).
  split; [exact Hcalls|]. split; [exact Hnil|exact Hurl].
Defined.

(** C9.  Resolving a record any number of times writes nothing: the
    metadata store and the object store are as before, no [UpdateVideo]
    call is among the calls made, and the string cells that existed keep
    their contents (the resolver fills a new cell for the copy it
    returns).  For a record that holds [bucket,key], the cell still reads
    [bucket,key] afterwards and the [n] resolutions made exactly [n]
    signing calls, each for that bucket and that key. *)
Theorem resolve_never_writes env cfg video n w :
  let w' := snd (resolve_times env cfg video n w) in
  db w' = db w /\ objects w' = objects w
  /\ heap w `prefix_of` heap w'
  /\ (forall row, ~ In (CallUpdateVideo row) (calls_since w w'))
  /\ (forall p bucket key,
        VideoURL video = Some p ->
        heap w !! p = Some (bucket ++ "," ++ key)%string ->
        strings.count_char "," bucket = 0%nat ->
        heap w' !! p = Some (bucket ++ "," ++ key)%string
        /\ calls_since w w'
           = repeat (CallPresignGetObject bucket key (time.Minute * 5)) n).
Proof.
  intros w'.
  destruct (resolve_times_frame env cfg video n w)
    as (Hdb & Hobj & Hheap & new & Hnew & Hall).
  fold w' in Hdb, Hobj, Hheap, Hnew.
  repeat split; try assumption.
  - intros row Hin. rewrite (calls_since_app _ _ _ Hnew) in Hin.
    rewrite Forall_forall in Hall.
    apply list_elem_of_In, Hall in Hin.
    destruct Hin as (b & k & d & Hin). discriminate.
  - now apply (resolve_times_signs env cfg video p bucket key n w).
  - apply calls_since_app.
    now apply (resolve_times_signs env cfg video p bucket key n w).
Qed.

Lemma resolve_never_writes_witness :
  let video := {| ID := Sample.video1; ThumbnailURL := None;
                  VideoURL := Some 0%nat; UserID := Sample.user1 |} in
  let w := {| heap := ["tubely,landscape/a.mp4"%string];
              db := db Sample.world0; objects := ∅; calls := [] |} in
  let w' := snd (resolve_times Sample.env Sample.cfg video 3 w) in
  heap w' !! 0%nat = Some "tubely,landscape/a.mp4"%string
  /\ calls_since w w'
     = repeat (CallPresignGetObject "tubely" "landscape/a.mp4"
                 (time.Minute * 5)) 3.
Proof.
  intros video w w'.
  exact (proj2 (proj2 (proj2 (proj2
    (resolve_never_writes Sample.env Sample.cfg video 3 w))))
    0%nat "tubely"%string "landscape/a.mp4"%string eq_refl eq_refl eq_refl).
Defined.

(** ** The handler, case by case *)

Lemma GetVideo_spec env videoID w :
  match GetVideo env videoID w with
  | (Err e, w1) => w1 = log (CallGetVideo videoID) w
  | (Ok metadata, w1) =>
      exists row0,
        db w !! videoID = Some row0
        /\ ID metadata = videoID /\ UserID metadata = user_id row0
        /\ db w1 = db w /\ objects w1 = objects w
        /\ calls w1 = CallGetVideo videoID :: calls w
        /\ (forall w2, heap w1 `prefix_of` heap w2 ->
              deref_opt w2 (ThumbnailURL metadata) = thumbnail_url row0)
  end.
Proof.
  unfold GetVideo.
  destruct (db_GetVideo_fault env videoID); [reflexivity|].
  cbn [db log].
  destruct (db w !! videoID) as [row0|]; [|reflexivity].
  unfold new_string_opt, new_string.
  destruct (thumbnail_url row0) as [t|] eqn:Ht, (video_url row0) as [u|];
    cbn; exists row0; rewrite Ht; repeat split; intros w2 Hpre;
    try reflexivity.
  all: cbn; f_equal; unfold deref.
  - erewrite prefix_lookup_Some; [reflexivity| |exact Hpre].
    apply lookup_app_l_Some. now apply list_lookup_middle.
  - erewrite prefix_lookup_Some; [reflexivity| |exact Hpre].
    now apply list_lookup_middle.
Qed.

Lemma Cut_finds_comma a rest :
  exists b k, strings.Cut (a ++ "," ++ rest) "," = (b, k, true).
Proof.
  induction a as [|c a IH].
  - change ("" ++ "," ++ rest)%string with (String "," rest).
    rewrite Cut_comma_cons. simpl. eauto.
  - change (String c a ++ "," ++ rest)%string
      with (String c (a ++ "," ++ rest)).
    rewrite Cut_comma_cons.
    destruct (Ascii.eqb c ","); [eauto|].
    destruct IH as (b & k & ->). eauto.
Qed.

Lemma key_of_label ar f :
  (if String.eqb ar "16:9" then ("landscape/" ++ f)%string
   else if String.eqb ar "9:16" then ("portrait/" ++ f)%string
   else ("other/" ++ f)%string)
  = (segment (category ar) ++ "/" ++ f)%string.
Proof.
  unfold category.
  destruct (String.eqb ar "16:9"); [reflexivity|].
  destruct (String.eqb ar "9:16"); reflexivity.
Qed.


Lemma getVideoAspectRatio_world env filePath w0 w :
  getVideoAspectRatio env filePath w
  = (fst (getVideoAspectRatio env filePath w0),
     log (CallExec "ffprobe" (ffprobe_args filePath)) w).
Proof. reflexivity. Qed.

Lemma getVideoAspectRatio_nil_error env filePath w :
  snd (fst (getVideoAspectRatio env filePath w)) = None.
Proof. rewrite getVideoAspectRatio_eq. apply range_Streams_nil_error. Qed.

Lemma resolve_cut env cfg video w p b k :
  VideoURL video = Some p -> deref w p <> ""%string ->
  strings.Cut (deref w p) "," = (b, k, true) ->
  dbVideoToSignedVideo env cfg video w
  = let w1 := log (CallPresignGetObject b k (time.Minute * 5)) w in
    match s3_PresignGetObject env (length (calls w)) b k (time.Minute * 5) with
    | Err e => ((video, Some e), w1)
    | Ok url =>
        ((set_VideoURL (Some (length (heap w))) video, None),
         {| heap := heap w ++ [url]; db := db w; objects := objects w;
            calls := calls w1 |})
    end.
Proof.
  intros H Hne Hcut. unfold dbVideoToSignedVideo. rewrite H, Hcut.
  destruct (String.eqb_spec (deref w p) "") as [E|_]; [contradiction|].
  unfold generatePresignedURL. cbn [negb].
  destruct (s3_PresignGetObject _ _ _ _ _); reflexivity.
Qed.


Lemma handlerUploadVideo_outcomes env cfg r w :
  let '(resp, w') := handlerUploadVideo env cfg r w in
  handler_outcome env cfg r w resp w'.
Proof.
  unfold handlerUploadVideo, run, handler_outcome.
  step_attempt; [|early (@nil Call)]. rename a into videoID.
  step_attempt; [|early (@nil Call)]. rename a into token.
  step_attempt; [|early (@nil Call)]. rename a into userID.
  unfold hbind at 1; unfold lift at 1.
  pose proof (GetVideo_spec env videoID w) as HG.
  destruct (GetVideo env videoID w) as [got w1].
  unfold hbind at 1; unfold attempt at 1.
  destruct got as [metadata|e]; cbn [hret respond].
  2:{ subst w1. early [CallGetVideo videoID]. }
  destruct HG as (row0 & Hrow & HID & Huser & Hdb & Hobj & Hcalls & Hthumb).
  destruct (negb (UserID metadata =? userID)%string).
  { unfold respond. early [CallGetVideo videoID]. }
  step_check; [early [CallGetVideo videoID]|].
  step_attempt; [|early [CallGetVideo videoID]]. rename a into file.
  step_attempt; [|early [CallGetVideo videoID]]. rename a into mediaType.
  destruct (String.eqb_spec mediaType "video/mp4") as [->|_]; cbn [negb].
  2:{ unfold respond. early [CallGetVideo videoID]. }
  step_attempt; [|early [CallGetVideo videoID]]. rename a into tempFile.
  step_check; [early [CallGetVideo videoID]|].
  unfold hbind at 1; unfold attempt at 1; unfold rand_Read at 1.
  destruct (rand_fault env) eqn:Hrand; cbn [hret respond].
  { early [CallGetVideo videoID]. }
  change (strings.Split "video/mp4" "/" !! 1%nat) with (Some "mp4"%string).
  cbv iota beta zeta.
  unfold hbind at 1; unfold lift at 1.
  rewrite (getVideoAspectRatio_world env tempFile w w1).
  pose proof (getVideoAspectRatio_nil_error env tempFile w) as Herr.
  destruct (fst (getVideoAspectRatio env tempFile w)) as [ar err] eqn:Har.
  cbn [snd] in Herr. subst err.
  unfold hbind at 1; unfold check at 1; cbn [hret].
  rewrite key_of_label.
  unfold hbind at 1; unfold lift at 1; unfold processVideoForFastStart at 1.
  fold (ffmpeg_args tempFile).
  destruct (snd (exec_Run env "ffmpeg" (ffmpeg_args tempFile))) eqn:Hff.
  { unfold hbind at 1; unfold check at 1; cbn [respond].
    early [CallExec "ffmpeg" (ffmpeg_args tempFile);
           CallExec "ffprobe" (ffprobe_args tempFile); CallGetVideo videoID].
    all: rewrite Hcalls; reflexivity. }
  unfold hbind at 1; unfold check at 1; cbn [hret].
  step_check.
  { early [CallExec "ffmpeg" (ffmpeg_args tempFile);
           CallExec "ffprobe" (ffprobe_args tempFile); CallGetVideo videoID].
    all: rewrite Hcalls; reflexivity. }
  fold (random_id env).
  set (key := (segment (category ar) ++ "/" ++ random_id env ++ "."
               ++ "mp4")%string).
  match goal with
  | |- let '(resp, w') := ?X in _ =>
      enough (Hlate : let '(resp, w') := X in
                      late_outcome env cfg w videoID row0 tempFile resp w')
  end.
  { match goal with
    | H : let '(resp, w') := ?X in _ |- _ => destruct X as [resp w']
    end.
    right. exists videoID, row0, tempFile. auto. }
  unfold late_outcome, storage_key. rewrite Har. cbn [fst]. fold key.
  cbv zeta.
  unfold hbind at 1; unfold lift at 1; unfold PutObject at 1.
  cbn [Bucket Key Body ContentType].
  destruct (s3_PutObject env _) as [e|] eqn:Hput.
  { unfold hbind at 1; unfold check at 1; cbn [respond].
    cbn [db objects calls log heap]. rewrite Hcalls. auto. }
  unfold hbind at 1; unfold check at 1; cbn [hret].
  unfold hbind at 1; unfold lift at 1; unfold new_string at 1.
  cbn [db objects calls log heap].
  set (videoURL := (s3Bucket cfg ++ "," ++ key)%string).
  set (row1 := {| id := videoID; thumbnail_url := thumbnail_url row0;
                  video_url := Some videoURL; user_id := user_id row0 |}).
  assert (Hrow1 : forall d o c,
    row_of {| heap := heap w1 ++ [videoURL]; db := d; objects := o;
              calls := c |}
           (set_VideoURL (Some (length (heap w1))) metadata) = row1).
  { intros d o c. unfold row_of. cbn [ID ThumbnailURL VideoURL UserID set_VideoURL].
    rewrite Hthumb by (cbn [heap]; now apply prefix_app_r).
    cbn [deref_opt]. rewrite deref_new, HID, Huser. reflexivity. }
  unfold hbind at 1; unfold lift at 1; unfold UpdateVideo at 1.
  rewrite Hrow1. cbn [db objects calls log heap].
  rewrite Hobj, Hcalls.
  destruct (db_UpdateVideo_fault env row1) as [e|] eqn:Hupd.
  { unfold hbind at 1; unfold check at 1; cbn [respond].
    cbn [db objects calls log heap]. auto. }
  cbn [ID set_VideoURL]. rewrite HID, Hdb, Hrow.
  unfold hbind at 1; unfold check at 1; cbn [hret].
  unfold hbind at 1; unfold lift at 1.
  destruct (Cut_finds_comma (s3Bucket cfg) key) as (b & k & Hcut).
  fold videoURL in Hcut. rewrite Hcut.
  erewrite (resolve_cut env cfg _ _ (length (heap w1)) b k);
    [| reflexivity
     | rewrite deref_new; apply comma_not_empty
     | rewrite deref_new; exact Hcut].
  cbn [db objects calls log heap length]. 
  destruct (s3_PresignGetObject env _ b k (time.Minute * 5)) as [url|e].
  - unfold hbind at 1; unfold check at 1; cbn [hret].
    cbn [db objects calls log heap].
    split; [reflexivity|]. split; [reflexivity|]. split; [reflexivity|].
    f_equal. unfold row_of.
    cbn [ID ThumbnailURL VideoURL UserID set_VideoURL deref_opt].
    rewrite Hthumb
      by (cbn [heap]; rewrite <- app_assoc; now apply prefix_app_r).
    rewrite deref_new, HID, Huser. reflexivity.
  - unfold hbind at 1; unfold check at 1; cbn [respond].
    cbn [db objects calls log heap]. auto.
Qed.

(** ** The encoding of the random bytes *)

Lemma list_ind3 {A} (P : list A -> Prop) :
  P [] -> (forall a, P [a]) -> (forall a b, P [a; b]) ->
  (forall a b c l, P l -> P (a :: b :: c :: l)) ->
  forall l, P l.
Proof.
  intros H0 H1 H2 H3 l.
  assert (H : P l /\ (forall a, P (a :: l)) /\ (forall a b, P (a :: b :: l))).
  { induction l as [|c l (IH0 & IH1 & IH2)]; [auto|].
    split; [apply IH1|]. split; [intros a; apply IH2|].
    intros a b. now apply H3. }
  apply H.
Qed.

Lemma EncodeToString_length src :
  String.length (base64.EncodeToString src)
  = ((4 * length src + 2) / 3)%nat.
Proof.
  induction src as [|a|a b|a b c l IH] using list_ind3; try reflexivity.
  change (String.length (base64.EncodeToString (a :: b :: c :: l)))
    with (4 + String.length (base64.EncodeToString l))%nat.
  rewrite IH. cbn [length].
  replace (4 * S (S (S (length l))) + 2)%nat
    with ((4 * length l + 2) + 4 * 3)%nat by lia.
  rewrite Nat.div_add by discriminate. lia.
Qed.

Lemma get_In n : forall s c,
  String.get n s = Some c -> In c (list_ascii_of_string s).
Proof.
  induction n as [|n IH]; intros [|d s] c H; simpl in H; try discriminate.
  - injection H as ->. now left.
  - right. now apply IH.
Qed.

Lemma digit_url_safe n : url_safe (base64.digit n).
Proof.
  unfold base64.digit.
  destruct (String.get (N.to_nat n) base64.encodeURL) as [c|] eqn:E.
  - now apply get_In with (N.to_nat n).
  - now left.
Qed.

Lemma EncodeToString_url_safe src :
  Forall url_safe (list_ascii_of_string (base64.EncodeToString src)).
Proof.
  induction src as [|a|a b|a b c l IH] using list_ind3;
    cbn [base64.EncodeToString list_ascii_of_string];
    repeat (constructor; [apply digit_url_safe|]);
    try constructor.
  exact IH.
Qed.

Lemma padding_not_url_safe : ~ url_safe "="%char.
Proof.
  unfold url_safe. cbv [base64.encodeURL list_ascii_of_string In].
  intros H. repeat (destruct H as [H|H]; [discriminate|]). exact H.
Qed.

Lemma random_id_length env : String.length (random_id env) = 43%nat.
Proof.
  unfold random_id. rewrite EncodeToString_length, length_map, length_seq.
  reflexivity.
Qed.

(** ** What a run of the handler amounts to *)

Lemma handlerUploadVideo_cases env cfg r w :
  handler_outcome env cfg r w (fst (handlerUploadVideo env cfg r w))
                              (snd (handlerUploadVideo env cfg r w)).
Proof.
  pose proof (handlerUploadVideo_outcomes env cfg r w) as H.
  now destruct (handlerUploadVideo env cfg r w).
Qed.

Lemma handlerUploadVideo_success env cfg r w code payload :
  fst (handlerUploadVideo env cfg r w) = respondWithJSON code payload ->
  let w' := snd (handlerUploadVideo env cfg r w) in
  exists videoID row0 tempFile b k url,
    uuid_Parse env (PathValue_videoID r) = Ok videoID
    /\ db w !! videoID = Some row0
    /\ os_CreateTemp env "" "tubely-upload.mp4" = Ok tempFile
    /\ let key := storage_key env tempFile w in
       let inp := {| Bucket := s3Bucket cfg; Key := key;
                     Body := (tempFile ++ ".processing")%string;
                     ContentType := "video/mp4" |} in
       let row1 := {| id := videoID; thumbnail_url := thumbnail_url row0;
                      video_url := Some (s3Bucket cfg ++ "," ++ key)%string;
                      user_id := user_id row0 |} in
       s3_PutObject env inp = None
       /\ db_UpdateVideo_fault env row1 = None
       /\ fst (strings.Cut (s3Bucket cfg ++ "," ++ key) ",") = (b, k)
       /\ s3_PresignGetObject env (5 + length (calls w))%nat b k
            (time.Minute * 5) = Ok url
       /\ code = StatusOK
       /\ payload = {| id := videoID; thumbnail_url := thumbnail_url row0;
                       video_url := Some url; user_id := user_id row0 |}
       /\ db w' = <[videoID := row1]> (db w)
       /\ objects w'
          = <[(s3Bucket cfg, key) :=
                ("video/mp4"%string, (tempFile ++ ".processing")%string)]>
              (objects w)
       /\ calls_since w w'
          = [CallPresignGetObject b k (time.Minute * 5);
             CallUpdateVideo row1; CallPutObject inp;
             CallExec "ffmpeg" (ffmpeg_args tempFile);
             CallExec "ffprobe" (ffprobe_args tempFile);
             CallGetVideo videoID].
Proof.
  intros Hresp w'.
  destruct (handlerUploadVideo_cases env cfg r w) as [Hearly | Hlate].
  { destruct Hearly as (c & msg & err & new & Hr & _).
    rewrite Hresp in Hr. discriminate. }
  destruct Hlate as (videoID & row0 & tempFile & Hid & Hrow & Htmp & Hlate).
  fold w' in Hlate. rewrite Hresp in Hlate.
  unfold late_outcome in Hlate. cbv zeta in Hlate.
  destruct (s3_PutObject env _) as [e|] eqn:Hput;
    [destruct Hlate as [Hr _]; discriminate|].
  destruct Hlate as [Hobj Hlate].
  destruct (db_UpdateVideo_fault env _) as [e|] eqn:Hupd;
    [destruct Hlate as [Hr _]; discriminate|].
  destruct Hlate as [Hdb Hlate].
  destruct (strings.Cut _ ",") as [[b k] found] eqn:Hcut.
  destruct Hlate as [Hcalls Hlate].
  destruct (s3_PresignGetObject env _ b k _) as [url|e] eqn:Hsign;
    [|discriminate].
  injection Hlate as -> ->.
  exists videoID, row0, tempFile, b, k, url. cbv zeta.
  rewrite Hcut.
  repeat split; try assumption.
  now apply calls_since_app.
Qed.

(** When the upload step is reached and [PutObject] fails, the handler
    of the signing variant answers with the store's error, makes no
    [UpdateVideo] call and leaves the metadata store as it was. *)
Lemma put_failure_aborts env cfg r w inp e :
  let resp := fst (handlerUploadVideo env cfg r w) in
  let w' := snd (handlerUploadVideo env cfg r w) in
  In (CallPutObject inp) (calls_since w w') ->
  s3_PutObject env inp = Some e ->
  resp = respondWithError StatusInternalServerError "Unable to update video"
           (Some e)
  /\ db w' = db w
  /\ objects w' = objects w
  /\ forall row, ~ In (CallUpdateVideo row) (calls_since w w').
Proof.
  cbv zeta. intros Hin Hfail.
  pose proof (handlerUploadVideo_cases env cfg r w) as [Hearly | Hlate];
    set (w' := snd (handlerUploadVideo env cfg r w)) in *;
    set (resp := fst (handlerUploadVideo env cfg r w)) in *.
  { destruct Hearly as (c & msg & err & new & _ & _ & _ & _ & Hc & Hq).
    rewrite (calls_since_app _ _ _ Hc) in Hin.
    rewrite Forall_forall in Hq.
    apply list_elem_of_In, Hq in Hin. simpl in Hin. contradiction. }
  destruct Hlate as (videoID & row0 & tempFile & _ & _ & _ & Hlate).
  unfold late_outcome in Hlate. cbv zeta in Hlate.
  match type of Hlate with
  | context [s3_PutObject env ?i] =>
      destruct (s3_PutObject env i) as [e0|] eqn:Hput
  end.
  - destruct Hlate as (Hr & Hdb & Hobj & Hc).
    rewrite (calls_since_app w w' [_; _; _; _] Hc) in Hin |- *.
    destruct Hin as [Hin|[Hin|[Hin|[Hin|[]]]]]; try discriminate.
    injection Hin as <-. rewrite Hput in Hfail. injection Hfail as ->.
    repeat split; try assumption.
    intros row [H|[H|[H|[H|[]]]]]; discriminate.
  - exfalso. destruct Hlate as [_ Hlate].
    destruct (db_UpdateVideo_fault env _) as [e0|].
    + destruct Hlate as (_ & _ & Hc).
      rewrite (calls_since_app w w' [_; _; _; _; _] Hc) in Hin.
      destruct Hin as [Hin|[Hin|[Hin|[Hin|[Hin|[]]]]]]; try discriminate.
      injection Hin as <-. congruence.
    + destruct Hlate as [_ Hlate].
      destruct (strings.Cut _ ",") as [[b k] found].
      destruct Hlate as [Hc _].
      rewrite (calls_since_app w w' [_; _; _; _; _; _] Hc) in Hin.
      destruct Hin as [Hin|[Hin|[Hin|[Hin|[Hin|[Hin|[]]]]]]];
        try discriminate.
      injection Hin as <-. congruence.
Qed.

(** ** The claims about the handler *)

(** C1, on the handler of [handler_upload_video.go].  The request passes
    every check, the object store rejects the upload, and the handler,
    which does not look at the result of [PutObject], goes on: it calls
    [UpdateVideo], the record that had no location now holds the URL of
    an object that was never stored, and the answer is 200. *)
Theorem direct_put_failure_still_persists :
  let out := Direct.handlerUploadVideo Sample.env_put_fails Sample.cfg
               Sample.request Sample.world0 in
  let key := "AAECAwQFBgcICQoLDA0ODxAREhMUFRYXGBkaGxwdHh8.mp4"%string in
  let url := ("https://tubely.s3.eu-west-1.amazonaws.com/" ++ key)%string in
  let inp := {| Bucket := "tubely"; Key := key;
                Body := "/tmp/tubely-upload.mp4123";
                ContentType := "video/mp4" |} in
  let row := {| id := Sample.video1; thumbnail_url := None;
                video_url := Some url; user_id := Sample.user1 |} in
  s3_PutObject Sample.env_put_fails inp
    = Some "RequestError: send request failed"%string
  /\ calls (snd out)
     = [CallUpdateVideo row; CallPutObject inp; CallGetVideo Sample.video1]
  /\ fst out = respondWithJSON StatusOK row
  /\ video_url <$> db Sample.world0 !! Sample.video1 = Some None
  /\ db (snd out) !! Sample.video1 = Some row
  /\ objects (snd out) !! ("tubely"%string, key) = None.
Proof. vm_compute. repeat split. Qed.

(** C5 as stated fails on the handler of [handler_upload_video.go]: after
    a successful upload the record holds the object's HTTPS URL, not the
    bucket, a comma and the key. *)
Lemma direct_upload_persists_url :
  let out := Direct.handlerUploadVideo Sample.env Sample.cfg
               Sample.request Sample.world0 in
  let key := "AAECAwQFBgcICQoLDA0ODxAREhMUFRYXGBkaGxwdHh8.mp4"%string in
  let url := ("https://tubely.s3.eu-west-1.amazonaws.com/" ++ key)%string in
  (exists payload, fst out = respondWithJSON StatusOK payload)
  /\ objects (snd out) !! (s3Bucket Sample.cfg, key)
     = Some ("video/mp4"%string, "/tmp/tubely-upload.mp4123"%string)
  /\ video_url <$> db (snd out) !! Sample.video1 = Some (Some url)
  /\ video_url <$> db (snd out) !! Sample.video1
     <> Some (Some (s3Bucket Sample.cfg ++ "," ++ key)%string).
Proof.
  vm_compute. repeat split; [eexists; reflexivity | discriminate].
Qed.

(** C5, amended.  For every upload that the handler with the signing
    step answers with 200, the location written to the record is exactly
    the configured bucket, one comma and the key under which the object
    was put: that string is in the [UpdateVideo] call and in the row of
    the metadata store afterwards. *)
Theorem upload_persists_bucket_comma_key env cfg r w code payload :
  fst (handlerUploadVideo env cfg r w) = respondWithJSON code payload ->
  let w' := snd (handlerUploadVideo env cfg r w) in
  exists videoID inp row,
    uuid_Parse env (PathValue_videoID r) = Ok videoID
    /\ In (CallPutObject inp) (calls_since w w')
    /\ s3_PutObject env inp = None
    /\ Bucket inp = s3Bucket cfg
    /\ In (CallUpdateVideo row) (calls_since w w')
    /\ db w' !! videoID = Some row
    /\ video_url row = Some (s3Bucket cfg ++ "," ++ Key inp)%string.
Proof.
  intros Hresp w'.
  destruct (handlerUploadVideo_success env cfg r w code payload Hresp)
    as (videoID & row0 & tempFile & b & k & url & Hid & Hrow & Htmp & H).
  cbv zeta in H.
  destruct H as (Hput & Hupd & Hcut & Hsign & -> & -> & Hdb & Hobj & Hcalls).
  fold w' in Hdb, Hobj, Hcalls.
  eexists videoID, _, _. rewrite Hcalls, Hdb.
  split; [exact Hid|].
  split; [right; right; left; reflexivity|].
  split; [exact Hput|].
  split; [reflexivity|].
  split; [right; left; reflexivity|].
  split; [apply lookup_insert_eq | reflexivity].
Qed.

Lemma upload_persists_bucket_comma_key_witness :
  let w' := snd (handlerUploadVideo Sample.env Sample.cfg Sample.request
                   Sample.world0) in
  exists videoID inp row,
    uuid_Parse Sample.env (PathValue_videoID Sample.request) = Ok videoID
    /\ In (CallPutObject inp) (calls_since Sample.world0 w')
    /\ s3_PutObject Sample.env inp = None
    /\ Bucket inp = s3Bucket Sample.cfg
    /\ In (CallUpdateVideo row) (calls_since Sample.world0 w')
    /\ db w' !! videoID = Some row
    /\ video_url row = Some (s3Bucket Sample.cfg ++ "," ++ Key inp)%string.
Proof.
  eapply (upload_persists_bucket_comma_key Sample.env Sample.cfg
            Sample.request Sample.world0).
  vm_compute. reflexivity.
Defined.

(** C7.  For every upload that the handler answers with 200 (the media
    type then is video/mp4), the key under which the object was put is the
    segment of the classifier's category, a slash, the random id, a dot
    and [mp4], the subtype of the media type.  The random id is the raw
    URL-safe base64 encoding of the 32 bytes read from the random source:
    43 characters of the URL-safe alphabet, none of them padding. *)
Theorem upload_key_shape env cfg r w code payload :
  fst (handlerUploadVideo env cfg r w) = respondWithJSON code payload ->
  let w' := snd (handlerUploadVideo env cfg r w) in
  exists tempFile inp,
    os_CreateTemp env "" "tubely-upload.mp4" = Ok tempFile
    /\ In (CallPutObject inp) (calls_since w w')
    /\ ContentType inp = "video/mp4"%string
    /\ Key inp
       = (segment (category (fst (fst (getVideoAspectRatio env tempFile w))))
          ++ "/" ++ random_id env ++ "."
          ++ default "" (strings.Split (ContentType inp) "/" !! 1%nat))%string
    /\ strings.Split (ContentType inp) "/" !! 1%nat = Some "mp4"%string
    /\ In (segment (category (fst (fst (getVideoAspectRatio env tempFile w)))))
          ["landscape"; "portrait"; "other"]%string
    /\ random_id env
       = base64.EncodeToString (map (rand_byte env) (seq 0 32))
    /\ length (map (rand_byte env) (seq 0 32)) = 32%nat
    /\ String.length (random_id env) = 43%nat
    /\ Forall url_safe (list_ascii_of_string (random_id env))
    /\ ~ url_safe "="%char
    /\ objects w' !! (s3Bucket cfg, Key inp)
       = Some ("video/mp4"%string, (tempFile ++ ".processing")%string).
Proof.
  intros Hresp w'.
  destruct (handlerUploadVideo_success env cfg r w code payload Hresp)
    as (videoID & row0 & tempFile & b & k & url & Hid & Hrow & Htmp & H).
  cbv zeta in H.
  destruct H as (Hput & Hupd & Hcut & Hsign & -> & -> & Hdb & Hobj & Hcalls).
  fold w' in Hdb, Hobj, Hcalls.
  eexists tempFile, _. rewrite Hcalls, Hobj.
  split; [exact Htmp|].
  split; [right; right; left; reflexivity|].
  split; [reflexivity|].
  split; [reflexivity|].
  split; [reflexivity|].
  split; [destruct (category _); simpl; auto|].
  split; [reflexivity|].
  split; [reflexivity|].
  split; [apply random_id_length|].
  split; [apply EncodeToString_url_safe|].
  split; [apply padding_not_url_safe|].
  apply lookup_insert_eq.
Qed.

Lemma upload_key_shape_witness :
  exists tempFile inp,
    os_CreateTemp Sample.env "" "tubely-upload.mp4" = Ok tempFile
    /\ In (CallPutObject inp)
          (calls_since Sample.world0
             (snd (handlerUploadVideo Sample.env Sample.cfg Sample.request
                     Sample.world0)))
    /\ Key inp
       = "landscape/AAECAwQFBgcICQoLDA0ODxAREhMUFRYXGBkaGxwdHh8.mp4"%string.
Proof.
  destruct (upload_key_shape Sample.env Sample.cfg Sample.request
              Sample.world0 StatusOK
              {| id := Sample.video1; thumbnail_url := None;
                 video_url := Some "https://tubely.s3.amazonaws.com/landscape/AAECAwQFBgcICQoLDA0ODxAREhMUFRYXGBkaGxwdHh8.mp4?X-Amz-Expires=300"%string;
                 user_id := Sample.user1 |} eq_refl)
    as (tempFile & inp & Htmp & Hin & _ & Hkey & _).
  exists tempFile, inp.
  split; [exact Htmp|]. split; [exact Hin|].
  rewrite Hkey. injection Htmp as <-. 
  destruct Hin as [Hin|[Hin|[Hin|[Hin|[Hin|[Hin|[]]]]]]]; try discriminate.
  injection Hin as <-. reflexivity.
Defined.

(** C10.  The classifier returns a nil error for every path and every
    probe outcome, and no run of the handler ends in the response of the
    aspect-ratio error branch. *)
Theorem aspect_ratio_error_unreachable env cfg r w :
  (forall filePath w0, snd (fst (getVideoAspectRatio env filePath w0)) = None)
  /\ (forall code err,
        fst (handlerUploadVideo env cfg r w)
        <> respondWithError code "Unable to get file aspect ratio" err).
Proof.
  split; [intros; apply getVideoAspectRatio_nil_error|].
  intros code err Hresp.
  destruct (handlerUploadVideo_cases env cfg r w) as [Hearly | Hlate].
  { destruct Hearly as (c & msg & e & new & Hr & Hmsg & _).
    rewrite Hresp in Hr. injection Hr as _ <- _. now apply Hmsg. }
  destruct Hlate as (videoID & row0 & tempFile & _ & _ & _ & Hlate).
  rewrite Hresp in Hlate. unfold late_outcome in Hlate. cbv zeta in Hlate.
  destruct (s3_PutObject env _); [destruct Hlate as [Hr _]; discriminate|].
  destruct Hlate as [_ Hlate].
  destruct (db_UpdateVideo_fault env _);
    [destruct Hlate as [Hr _]; discriminate|].
  destruct Hlate as [_ Hlate].
  destruct (strings.Cut _ ",") as [[b k] found].
  destruct Hlate as [_ Hlate].
  destruct (s3_PresignGetObject env _ b k _); discriminate.
Qed.

(** The second text of the handler behaves like [Direct] on the same
    request: the failed upload is not noticed and the record receives the
    URL of the missing object. *)
Lemma classified_put_failure_still_persists :
  let out := Classified.handlerUploadVideo Sample.env_put_fails Sample.cfg
               Sample.request Sample.world0 in
  let key :=
    "landscape/AAECAwQFBgcICQoLDA0ODxAREhMUFRYXGBkaGxwdHh8.mp4"%string in
  let url := ("https://tubely.s3.eu-west-1.amazonaws.com/" ++ key)%string in
  let row := {| id := Sample.video1; thumbnail_url := None;
                video_url := Some url; user_id := Sample.user1 |} in
  fst out = respondWithJSON StatusOK row
  /\ db (snd out) !! Sample.video1 = Some row
  /\ objects (snd out) !! ("tubely"%string, key) = None.
Proof. vm_compute. repeat split. Qed.

(** On that request the signing handler aborts and leaves the record
    without a location. *)
Lemma signed_put_failure_example :
  let out := handlerUploadVideo Sample.env_put_fails Sample.cfg
               Sample.request Sample.world0 in
  fst out = respondWithError StatusInternalServerError
              "Unable to update video"
              (Some "RequestError: send request failed"%string)
  /\ db (snd out) = db Sample.world0.
Proof. vm_compute. repeat split. Qed.

(** ** More on the classifier *)

Lemma range_Streams_decided s rest :
  CodecType s = "video"%string -> 0 < Width s -> 0 < Height s ->
  range_Streams (s :: rest) = range_Streams [s].
Proof.
  intros Hc Hw Hh. cbn [range_Streams]. rewrite Hc.
  destruct (Z.ltb_spec 0 (Width s)); [|lia].
  destruct (Z.ltb_spec 0 (Height s)); [|lia].
  reflexivity.
Qed.

Lemma range_Streams_label streams :
  In (fst (range_Streams streams)) ["16:9"; "9:16"; "other"]%string.
Proof.
  induction streams as [|s rest IH]; cbn [range_Streams].
  - simpl. auto.
  - destruct (_ && _ && _); [|exact IH].
    cbv zeta. destruct (_ && _); [simpl; auto|].
    destruct (_ && _); simpl; auto.
Qed.

(** X1.  Only the first stream that has type "video" and positive width
    and height counts: the streams before it that do not qualify (audio,
    or video without dimensions) are skipped and the streams after it are
    never looked at, whatever they hold. *)
Theorem first_qualifying_stream_decides env filePath w pre s post e :
  json_Unmarshal env (fst (exec_Run env "ffprobe" (ffprobe_args filePath)))
    = Decoded (pre ++ s :: post) e ->
  Forall (fun t => CodecType t <> "video"%string \/ Width t <= 0 \/ Height t <= 0)
         pre ->
  CodecType s = "video"%string -> 0 < Width s -> 0 < Height s ->
  fst (getVideoAspectRatio env filePath w) = range_Streams [s].
Proof.
  intros Hout Hpre Hc Hw Hh.
  rewrite getVideoAspectRatio_eq, Hout. cbn [fst].
  rewrite range_Streams_skip by assumption.
  now apply range_Streams_decided.
Qed.

(** X2.  For every path and every probe outcome the classifier answers
    with one of the three labels "16:9", "9:16" and "other", with a nil
    error, and all it does to the world is to run the probe once. *)
Theorem classifier_label_total env filePath w :
  In (fst (fst (getVideoAspectRatio env filePath w)))
     ["16:9"; "9:16"; "other"]%string
  /\ snd (fst (getVideoAspectRatio env filePath w)) = None
  /\ snd (getVideoAspectRatio env filePath w)
     = log (CallExec "ffprobe" (ffprobe_args filePath)) w.
Proof.
  rewrite getVideoAspectRatio_eq. cbn [fst snd].
  split; [apply range_Streams_label|].
  split; [apply range_Streams_nil_error | reflexivity].
Qed.

Lemma range_Streams_video w h :
  0 < w -> w * 1000 <= int_max -> 0 < h ->
  range_Streams [video_stream w h] = (label (classify_spec (w * 1000 / h)), None).
Proof. intros. now apply range_Streams_select. Qed.

Lemma range_Streams_scaled w h k :
  0 < w -> 0 < h -> 0 < k -> k * w * 1000 <= int_max ->
  range_Streams [video_stream (k * w) (k * h)]
  = range_Streams [video_stream w h].
Proof.
  intros Hw Hh Hk Hmax.
  rewrite !range_Streams_video by nia.
  replace (k * w * 1000) with (k * (w * 1000)) by lia.
  rewrite Z.div_mul_cancel_l by lia. reflexivity.
Qed.

(** X3.  The label does not depend on the resolution: scaling width and
    height by the same factor [k] gives the same label, as long as the
    scaled width times 1000 fits the 64-bit [int]. *)
Theorem classifier_scale_invariant w h k :
  0 < w -> 0 < h -> 0 < k -> k * w * 1000 <= int_max ->
  range_Streams [video_stream (k * w) (k * h)]
  = range_Streams [video_stream w h].
Proof. apply range_Streams_scaled. Qed.

(** X4.  At any resolution within the range of [int], a 16:9 frame is
    labelled "16:9", a 9:16 frame "9:16", and 4:3 and square frames
    "other". *)
Theorem classifier_exact_ratios k :
  0 < k -> k * 16 * 1000 <= int_max ->
  range_Streams [video_stream (k * 16) (k * 9)] = ("16:9"%string, None)
  /\ range_Streams [video_stream (k * 9) (k * 16)] = ("9:16"%string, None)
  /\ range_Streams [video_stream (k * 4) (k * 3)] = ("other"%string, None)
  /\ range_Streams [video_stream k k] = ("other"%string, None).
Proof.
  intros Hk Hmax.
  pose proof (range_Streams_scaled 1 1 k) as Hsq.
  rewrite Z.mul_1_r in Hsq.
  rewrite !range_Streams_scaled, Hsq by lia.
  repeat split.
Qed.

(** ** More on the resolver *)

Lemma Cut_comma_rejoin : forall s b a,
  strings.Cut s "," = (b, a, true) ->
  s = (b ++ "," ++ a)%string /\ strings.count_char "," b = 0%nat.
Proof.
  induction s as [|c s IH]; intros b a H; [discriminate|].
  rewrite Cut_comma_cons in H.
  destruct (Ascii.eqb_spec c ",") as [->|Hne].
  - injection H as <- <-. split; reflexivity.
  - destruct (strings.Cut s ",") as [[b' a'] f] eqn:E.
    injection H as <- <- ->.
    destruct (IH b' a' eq_refl) as [-> Hb]. split; [reflexivity|].
    cbn [strings.count_char].
    destruct (Ascii.eqb_spec c ","); [contradiction | exact Hb].
Qed.

Lemma Cut_comma_missing : forall s b a,
  strings.Cut s "," = (b, a, false) ->
  b = s /\ a = ""%string /\ strings.count_char "," s = 0%nat.
Proof.
  induction s as [|c s IH]; intros b a H.
  - injection H as <- <-. auto.
  - rewrite Cut_comma_cons in H.
    destruct (Ascii.eqb_spec c ",") as [->|Hne]; [discriminate|].
    destruct (strings.Cut s ",") as [[b' a'] f] eqn:E.
    injection H as <- <- ->.
    destruct (IH b' a' eq_refl) as (-> & -> & Hs). repeat split.
    cbn [strings.count_char].
    destruct (Ascii.eqb_spec c ","); [contradiction | exact Hs].
Qed.

(** X5.  Whenever a resolution asks the signer for [bucket] and [key],
    the stored location is exactly [bucket], a comma and [key] (the
    bucket holding no comma), the expiry is five minutes and that call is
    the only one the resolution makes. *)
Theorem resolve_decodes_stored_reference env cfg video w bucket key d :
  In (CallPresignGetObject bucket key d)
     (calls_since w (snd (dbVideoToSignedVideo env cfg video w))) ->
  exists p,
    VideoURL video = Some p
    /\ deref w p = (bucket ++ "," ++ key)%string
    /\ strings.count_char "," bucket = 0%nat
    /\ d = time.Minute * 5
    /\ calls_since w (snd (dbVideoToSignedVideo env cfg video w))
       = [CallPresignGetObject bucket key d].
Proof.
  intros Hin.
  destruct (resolve_frame env cfg video w) as (_ & _ & _ & Hcalls).
  destruct Hcalls as [Hc | (p & b & k & Hp & Hcut & Hc)].
  - rewrite (calls_since_app w _ [] Hc) in Hin. destruct Hin.
  - rewrite (calls_since_app w _ [_] Hc) in Hin |- *.
    destruct Hin as [Hin|[]]. injection Hin as -> -> <-.
    destruct (Cut_comma_rejoin _ _ _ Hcut) as [Hs Hb].
    exists p. auto.
Qed.

(** X6.  A resolution changes no field of the record but the location:
    id, thumbnail location and owner come back as they went in.  It
    returns an error only when the signer failed, and then the record is
    returned as it was and no cell is written. *)
Theorem resolve_touches_location_only env cfg video w :
  let out := dbVideoToSignedVideo env cfg video w in
  ID (fst (fst out)) = ID video
  /\ ThumbnailURL (fst (fst out)) = ThumbnailURL video
  /\ UserID (fst (fst out)) = UserID video
  /\ (forall e, snd (fst out) = Some e ->
        fst (fst out) = video
        /\ heap (snd out) = heap w
        /\ exists bucket key,
             s3_PresignGetObject env (length (calls w)) bucket key
               (time.Minute * 5) = Err e).
Proof.
  unfold dbVideoToSignedVideo.
  destruct (VideoURL video) as [p|]; cbn; [|repeat split; discriminate].
  destruct (String.eqb (deref w p) ""); cbn; [repeat split; discriminate|].
  destruct (strings.Cut (deref w p) ",") as [[b k] ok].
  destruct ok; cbn; [|repeat split; discriminate].
  unfold generatePresignedURL.
  destruct (s3_PresignGetObject env _ b k _) as [url|e0] eqn:E; cbn.
  - repeat split; discriminate.
  - repeat split; try (injection H as <-); eauto.
Qed.

(** X7.  Resolving a record that a resolution returned: when the signed
    URL holds no comma (presigned URLs do not), the second resolution
    leaves record and world as they are, so the signed URL is never
    signed again. *)
Theorem resolve_twice env cfg video w p bucket key url :
  VideoURL video = Some p ->
  deref w p = (bucket ++ "," ++ key)%string ->
  strings.count_char "," bucket = 0%nat ->
  s3_PresignGetObject env (length (calls w)) bucket key (time.Minute * 5)
    = Ok url ->
  strings.count_char "," url = 0%nat ->
  let once := dbVideoToSignedVideo env cfg video w in
  dbVideoToSignedVideo env cfg (fst (fst once)) (snd once)
  = ((fst (fst once), None), snd once)
  /\ deref_opt (snd once) (VideoURL (fst (fst once))) = Some url.
Proof.
  intros Hp Hs Hb Hsign Hurl. cbv zeta.
  rewrite (resolve_comma env cfg video w p bucket key Hp Hs Hb).
  cbv zeta. rewrite Hsign. cbn [fst snd].
  assert (Hd : forall d o c,
            deref {| heap := heap w ++ [url]; db := d; objects := o;
                     calls := c |} (length (heap w)) = url)
    by (intros; apply deref_new).
  split.
  - apply resolve_no_comma with (length (heap w)); [reflexivity|].
    now rewrite Hd.
  - cbn [VideoURL set_VideoURL deref_opt]. now rewrite Hd.
Qed.

(** ** Requests that are turned away *)

Lemma GetVideo_found env videoID w row0 :
  db_GetVideo_fault env videoID = None -> db w !! videoID = Some row0 ->
  exists metadata w1,
    GetVideo env videoID w = (Ok metadata, w1)
    /\ ID metadata = videoID /\ UserID metadata = user_id row0
    /\ db w1 = db w /\ objects w1 = objects w
    /\ calls w1 = CallGetVideo videoID :: calls w
    /\ (forall w2, heap w1 `prefix_of` heap w2 ->
          deref_opt w2 (ThumbnailURL metadata) = thumbnail_url row0).
Proof.
  intros Hf Hrow. pose proof (GetVideo_spec env videoID w) as H.
  destruct (GetVideo env videoID w) as [[metadata|e] w1] eqn:HG.
  - destruct H as (row & Hrow' & H). rewrite Hrow in Hrow'.
    injection Hrow' as <-. exists metadata, w1. split; [reflexivity|exact H].
  - exfalso. unfold GetVideo in HG. rewrite Hf in HG. cbn [db log] in HG.
    rewrite Hrow in HG.
    destruct (new_string_opt (thumbnail_url row0) _) as [t w2].
    destruct (new_string_opt (video_url row0) _) as [u w3]. discriminate.
Qed.

Lemma GetVideo_missing env videoID w :
  db_GetVideo_fault env videoID = None -> db w !! videoID = None ->
  GetVideo env videoID w
  = (Err "sql: no rows in result set"%string, log (CallGetVideo videoID) w).
Proof. intros Hf Hrow. unfold GetVideo. rewrite Hf. cbn [db log]. now rewrite Hrow. Qed.

(** X8.  A request with an ill-formed video id, without a bearer token
    or with a token that does not validate is answered with 400 or 401
    and leaves the world exactly as it was: not even the metadata store is
    read. *)
Theorem unauthenticated_request_changes_nothing env cfg r w :
  (forall e, uuid_Parse env (PathValue_videoID r) = Err e ->
     handlerUploadVideo env cfg r w
     = (respondWithError StatusBadRequest "Invalid ID" (Some e), w))
  /\ (forall videoID e,
        uuid_Parse env (PathValue_videoID r) = Ok videoID ->
        auth_GetBearerToken env (Header r) = Err e ->
        handlerUploadVideo env cfg r w
        = (respondWithError StatusUnauthorized "Couldn't find JWT" (Some e),
           w))
  /\ (forall videoID token e,
        uuid_Parse env (PathValue_videoID r) = Ok videoID ->
        auth_GetBearerToken env (Header r) = Ok token ->
        auth_ValidateJWT env token (jwtSecret cfg) = Err e ->
        handlerUploadVideo env cfg r w
        = (respondWithError StatusUnauthorized "Couldn't validate JWT"
             (Some e), w)).
Proof.
  repeat split.
  - intros e H. unfold handlerUploadVideo, run. use_attempt H. reflexivity.
  - intros videoID e H1 H2. unfold handlerUploadVideo, run.
    use_attempt H1. use_attempt H2. reflexivity.
  - intros videoID token e H1 H2 H3. unfold handlerUploadVideo, run.
    use_attempt H1. use_attempt H2. use_attempt H3. reflexivity.
Qed.

(** X9.  A caller who is not the owner of the record is answered with
    401 "Not your video m8"; the metadata store has been read once and
    nothing else has happened: both stores are as before. *)
Theorem foreign_record_is_refused env cfg r w videoID token userID row0 :
  uuid_Parse env (PathValue_videoID r) = Ok videoID ->
  auth_GetBearerToken env (Header r) = Ok token ->
  auth_ValidateJWT env token (jwtSecret cfg) = Ok userID ->
  db_GetVideo_fault env videoID = None ->
  db w !! videoID = Some row0 ->
  user_id row0 <> userID ->
  let w' := snd (handlerUploadVideo env cfg r w) in
  fst (handlerUploadVideo env cfg r w)
  = respondWithError StatusUnauthorized "Not your video m8" None
  /\ db w' = db w /\ objects w' = objects w
  /\ calls_since w w' = [CallGetVideo videoID].
Proof.
  intros H1 H2 H3 Hf Hrow Hne.
  destruct (GetVideo_found env videoID w row0 Hf Hrow)
    as (metadata & w1 & HG & HID & Huser & Hdb & Hobj & Hcalls & _).
  assert (Hrun : handlerUploadVideo env cfg r w
                 = (respondWithError StatusUnauthorized "Not your video m8"
                      None, w1)).
  { unfold handlerUploadVideo, run.
    use_attempt H1. use_attempt H2. use_attempt H3.
    unfold hbind at 1; unfold lift at 1; rewrite HG.
    unfold hbind at 1; unfold attempt at 1; cbn [hret].
    rewrite Huser.
    destruct (String.eqb_spec (user_id row0) userID) as [E|_];
      [contradiction | reflexivity]. }
  cbv zeta. rewrite Hrun. cbn [fst snd].
  repeat split; try assumption.
  now apply (calls_since_app w w1 [_]).
Qed.

(** X10.  A request for a video id the metadata store does not hold is
    answered with 400 "Unable to get video metadata" and the store's
    error; only the read is logged. *)
Theorem unknown_record_is_refused env cfg r w videoID token userID :
  uuid_Parse env (PathValue_videoID r) = Ok videoID ->
  auth_GetBearerToken env (Header r) = Ok token ->
  auth_ValidateJWT env token (jwtSecret cfg) = Ok userID ->
  db_GetVideo_fault env videoID = None ->
  db w !! videoID = None ->
  handlerUploadVideo env cfg r w
  = (respondWithError StatusBadRequest "Unable to get video metadata"
       (Some "sql: no rows in result set"%string),
     log (CallGetVideo videoID) w).
Proof.
  intros H1 H2 H3 Hf Hrow.
  unfold handlerUploadVideo, run.
  use_attempt H1. use_attempt H2. use_attempt H3.
  unfold hbind at 1; unfold lift at 1.
  rewrite (GetVideo_missing env videoID w Hf Hrow).
  reflexivity.
Qed.

(** X11.  An upload by the owner is refused with 400 before anything is
    spooled when the body exceeds 1 GiB, when the multipart form is
    invalid, when it has no file part "video", or when the part's media
    type does not parse or is not video/mp4.  In each case the world is
    the one the read of the record left: both stores unchanged, no
    subprocess started, no object put. *)
Theorem invalid_upload_is_rejected env cfg r w videoID token row0 :
  uuid_Parse env (PathValue_videoID r) = Ok videoID ->
  auth_GetBearerToken env (Header r) = Ok token ->
  auth_ValidateJWT env token (jwtSecret cfg) = Ok (user_id row0) ->
  db_GetVideo_fault env videoID = None ->
  db w !! videoID = Some row0 ->
  let w1 := snd (GetVideo env videoID w) in
  db w1 = db w /\ objects w1 = objects w
  /\ calls_since w w1 = [CallGetVideo videoID]
  /\ (maxMemory < BodySize r ->
      handlerUploadVideo env cfg r w
      = (respondWithError StatusBadRequest
           "Upload too large or invalid multipart form"
           (Some "http: request body too large"%string), w1))
  /\ (forall e, BodySize r <= maxMemory -> MultipartForm r = Err e ->
        handlerUploadVideo env cfg r w
        = (respondWithError StatusBadRequest
             "Upload too large or invalid multipart form" (Some e), w1))
  /\ (forall parts e,
        BodySize r <= maxMemory -> MultipartForm r = Ok parts ->
        find_part "video" parts = Err e ->
        handlerUploadVideo env cfg r w
        = (respondWithError StatusBadRequest "Unable to parse form file"
             (Some e), w1))
  /\ (forall parts file e,
        BodySize r <= maxMemory -> MultipartForm r = Ok parts ->
        find_part "video" parts = Ok file ->
        mime_ParseMediaType env (part_ContentType file) = Err e ->
        handlerUploadVideo env cfg r w
        = (respondWithError StatusBadRequest "Unable to get mediaType"
             (Some e), w1))
  /\ (forall parts file mediaType,
        BodySize r <= maxMemory -> MultipartForm r = Ok parts ->
        find_part "video" parts = Ok file ->
        mime_ParseMediaType env (part_ContentType file) = Ok mediaType ->
        mediaType <> "video/mp4"%string ->
        handlerUploadVideo env cfg r w
        = (respondWithError StatusBadRequest "Unable to get mediaType" None,
           w1)).
Proof.
  intros H1 H2 H3 Hf Hrow.
  destruct (GetVideo_found env videoID w row0 Hf Hrow)
    as (metadata & w1 & HG & HID & Huser & Hdb & Hobj & Hcalls & _).
  rewrite HG. cbn [snd]. cbv zeta.
  split; [exact Hdb|]. split; [exact Hobj|].
  split; [now apply (calls_since_app w w1 [_])|].
  assert (Hsmall : BodySize r <= maxMemory ->
                   ParseMultipartForm r maxMemory
                   = match MultipartForm r with
                     | Err e => Some e
                     | Ok _ => None
                     end).
  { intros Hle. unfold ParseMultipartForm.
    destruct (Z.ltb_spec maxMemory (BodySize r)); [lia | reflexivity]. }
  repeat split.
  - intros Hbig.
    assert (Hp : ParseMultipartForm r maxMemory
                 = Some "http: request body too large"%string).
    { unfold ParseMultipartForm.
      destruct (Z.ltb_spec maxMemory (BodySize r)); [reflexivity | lia]. }
    unfold handlerUploadVideo, run. pass_owner H1 H2 H3 HG Huser.
    use_check Hp. reflexivity.
  - intros e Hle Hform. specialize (Hsmall Hle). rewrite Hform in Hsmall.
    unfold handlerUploadVideo, run. pass_owner H1 H2 H3 HG Huser.
    use_check Hsmall. reflexivity.
  - intros parts e Hle Hform Hfind. specialize (Hsmall Hle).
    rewrite Hform in Hsmall.
    assert (Hfile : FormFile r "video" = Err e)
      by (unfold FormFile; now rewrite Hform).
    unfold handlerUploadVideo, run. pass_owner H1 H2 H3 HG Huser.
    use_check Hsmall. use_attempt Hfile. reflexivity.
  - intros parts file e Hle Hform Hfind Hmime. specialize (Hsmall Hle).
    rewrite Hform in Hsmall.
    assert (Hfile : FormFile r "video" = Ok file)
      by (unfold FormFile; now rewrite Hform).
    unfold handlerUploadVideo, run. pass_owner H1 H2 H3 HG Huser.
    use_check Hsmall. use_attempt Hfile. use_attempt Hmime. reflexivity.
  - intros parts file mediaType Hle Hform Hfind Hmime Hne.
    specialize (Hsmall Hle). rewrite Hform in Hsmall.
    assert (Hfile : FormFile r "video" = Ok file)
      by (unfold FormFile; now rewrite Hform).
    unfold handlerUploadVideo, run. pass_owner H1 H2 H3 HG Huser.
    use_check Hsmall. use_attempt Hfile. use_attempt Hmime.
    destruct (String.eqb_spec mediaType "video/mp4"); [contradiction|].
    reflexivity.
Qed.

Lemma spooled_upload_outcomes env cfg r w videoID row0 file tempFile :
  reaches_spool env cfg r w videoID row0 file tempFile ->
  let w1 := snd (GetVideo env videoID w) in
  let w2 := log (CallExec "ffmpeg" (ffmpeg_args tempFile))
              (log (CallExec "ffprobe" (ffprobe_args tempFile)) w1) in
  let ffmpeg := snd (exec_Run env "ffmpeg" (ffmpeg_args tempFile)) in
  db w1 = db w /\ objects w1 = objects w
  /\ calls w1 = CallGetVideo videoID :: calls w
  /\ (forall e, ffmpeg = Some e ->
        handlerUploadVideo env cfg r w
        = (respondWithError StatusInternalServerError
             "Unable to process video for fast start" (Some e), w2))
  /\ (forall e, ffmpeg = None ->
        os_Open env (tempFile ++ ".processing") = Some e ->
        handlerUploadVideo env cfg r w
        = (respondWithError StatusInternalServerError
             "Unable to process video for fast start" (Some e), w2))
  /\ (ffmpeg = None -> os_Open env (tempFile ++ ".processing") = None ->
      late_outcome env cfg w videoID row0 tempFile
        (fst (handlerUploadVideo env cfg r w))
        (snd (handlerUploadVideo env cfg r w))).
Proof.
  intros (H1 & (token & H2 & H3) & Hf & Hrow & Hform & Hfile & Hmime & Htmp
          & Hcopy & Hrand).
  destruct (GetVideo_found env videoID w row0 Hf Hrow)
    as (metadata & w1 & HG & HID & Huser & Hdb & Hobj & Hcalls & Hthumb).
  rewrite HG. cbn [snd]. cbv zeta.
  split; [exact Hdb|]. split; [exact Hobj|]. split; [exact Hcalls|].
  pose proof (getVideoAspectRatio_nil_error env tempFile w) as Herr.
  destruct (fst (getVideoAspectRatio env tempFile w)) as [ar err] eqn:Har.
  cbn [snd] in Herr. subst err.
  repeat split.
  - intros e Hff.
    unfold handlerUploadVideo, run.
    pass_spool H1 H2 H3 HG Huser Hform Hfile Hmime Htmp Hcopy Hrand.
    unfold hbind at 1; unfold lift at 1.
    rewrite (getVideoAspectRatio_world env tempFile w w1), Har.
    unfold hbind at 1; unfold check at 1; cbn [hret].
    unfold hbind at 1; unfold lift at 1; unfold processVideoForFastStart at 1.
    fold (ffmpeg_args tempFile). rewrite Hff.
    unfold hbind at 1; unfold check at 1; cbn [respond]. reflexivity.
  - intros e Hff Hopen.
    unfold handlerUploadVideo, run.
    pass_spool H1 H2 H3 HG Huser Hform Hfile Hmime Htmp Hcopy Hrand.
    unfold hbind at 1; unfold lift at 1.
    rewrite (getVideoAspectRatio_world env tempFile w w1), Har.
    unfold hbind at 1; unfold check at 1; cbn [hret].
    unfold hbind at 1; unfold lift at 1; unfold processVideoForFastStart at 1.
    fold (ffmpeg_args tempFile). rewrite Hff.
    unfold hbind at 1; unfold check at 1; cbn [hret].
    use_check Hopen. reflexivity.
  - intros Hff Hopen.
    match goal with
    | |- late_outcome _ _ _ _ _ _ (fst ?X) (snd ?X) =>
        enough (Hlate : let '(resp, w') := X in
                        late_outcome env cfg w videoID row0 tempFile resp w')
          by (destruct X; exact Hlate)
    end.
    unfold handlerUploadVideo, run.
    pass_spool H1 H2 H3 HG Huser Hform Hfile Hmime Htmp Hcopy Hrand.
    unfold hbind at 1; unfold lift at 1.
    rewrite (getVideoAspectRatio_world env tempFile w w1), Har.
    unfold hbind at 1; unfold check at 1; cbn [hret].
    rewrite key_of_label.
    unfold hbind at 1; unfold lift at 1; unfold processVideoForFastStart at 1.
    fold (ffmpeg_args tempFile). rewrite Hff.
    unfold hbind at 1; unfold check at 1; cbn [hret].
    use_check Hopen.
    fold (random_id env).
    set (key := (segment (category ar) ++ "/" ++ random_id env ++ "."
                 ++ "mp4")%string).
    unfold late_outcome, storage_key. rewrite Har. cbn [fst]. fold key.
    cbv zeta.
    unfold hbind at 1; unfold lift at 1; unfold PutObject at 1.
    cbn [Bucket Key Body ContentType].
    destruct (s3_PutObject env _) as [e|] eqn:Hput.
    { unfold hbind at 1; unfold check at 1; cbn [respond].
      cbn [db objects calls log heap]. rewrite Hcalls. auto. }
    unfold hbind at 1; unfold check at 1; cbn [hret].
    unfold hbind at 1; unfold lift at 1; unfold new_string at 1.
    cbn [db objects calls log heap].
    set (videoURL := (s3Bucket cfg ++ "," ++ key)%string).
    set (row1 := {| id := videoID; thumbnail_url := thumbnail_url row0;
                    video_url := Some videoURL; user_id := user_id row0 |}).
    assert (Hrow1 : forall d o c,
      row_of {| heap := heap w1 ++ [videoURL]; db := d; objects := o;
                calls := c |}
             (set_VideoURL (Some (length (heap w1))) metadata) = row1).
    { intros d o c. unfold row_of.
      cbn [ID ThumbnailURL VideoURL UserID set_VideoURL].
      rewrite Hthumb by (cbn [heap]; now apply prefix_app_r).
      cbn [deref_opt]. rewrite deref_new, HID, Huser. reflexivity. }
    unfold hbind at 1; unfold lift at 1; unfold UpdateVideo at 1.
    rewrite Hrow1. cbn [db objects calls log heap].
    rewrite Hobj, Hcalls.
    destruct (db_UpdateVideo_fault env row1) as [e|] eqn:Hupd.
    { unfold hbind at 1; unfold check at 1; cbn [respond].
      cbn [db objects calls log heap]. auto. }
    cbn [ID set_VideoURL]. rewrite HID, Hdb, Hrow.
    unfold hbind at 1; unfold check at 1; cbn [hret].
    unfold hbind at 1; unfold lift at 1.
    destruct (Cut_finds_comma (s3Bucket cfg) key) as (b & k & Hcut).
    fold videoURL in Hcut. rewrite Hcut.
    erewrite (resolve_cut env cfg _ _ (length (heap w1)) b k);
      [| reflexivity
       | rewrite deref_new; apply comma_not_empty
       | rewrite deref_new; exact Hcut].
    cbn [db objects calls log heap length].
    destruct (s3_PresignGetObject env _ b k (time.Minute * 5)) as [url|e].
    + unfold hbind at 1; unfold check at 1; cbn [hret].
      cbn [db objects calls log heap].
      split; [reflexivity|]. split; [reflexivity|]. split; [reflexivity|].
      f_equal. unfold row_of.
      cbn [ID ThumbnailURL VideoURL UserID set_VideoURL deref_opt].
      rewrite Hthumb
        by (cbn [heap]; rewrite <- app_assoc; now apply prefix_app_r).
      rewrite deref_new, HID, Huser. reflexivity.
    + unfold hbind at 1; unfold check at 1; cbn [respond].
      cbn [db objects calls log heap]. auto.
Qed.

(** X12.  When the transcoder fails, or its output cannot be opened, the
    handler answers with 500 "Unable to process video for fast start" and
    the error; nothing is put into the object store and the record is not
    updated. *)
Theorem faststart_failure_stops_before_upload
    env cfg r w videoID row0 file tempFile e :
  reaches_spool env cfg r w videoID row0 file tempFile ->
  snd (exec_Run env "ffmpeg" (ffmpeg_args tempFile)) = Some e
  \/ (snd (exec_Run env "ffmpeg" (ffmpeg_args tempFile)) = None
      /\ os_Open env (tempFile ++ ".processing") = Some e) ->
  let w' := snd (handlerUploadVideo env cfg r w) in
  fst (handlerUploadVideo env cfg r w)
  = respondWithError StatusInternalServerError
      "Unable to process video for fast start" (Some e)
  /\ db w' = db w /\ objects w' = objects w
  /\ calls_since w w'
     = [CallExec "ffmpeg" (ffmpeg_args tempFile);
        CallExec "ffprobe" (ffprobe_args tempFile); CallGetVideo videoID].
Proof.
  intros Hreach Hfail.
  destruct (spooled_upload_outcomes env cfg r w videoID row0 file tempFile
              Hreach) as (Hdb & Hobj & Hcalls & Hff & Hopen & _).
  assert (Hrun : handlerUploadVideo env cfg r w
                 = (respondWithError StatusInternalServerError
                      "Unable to process video for fast start" (Some e),
                    log (CallExec "ffmpeg" (ffmpeg_args tempFile))
                      (log (CallExec "ffprobe" (ffprobe_args tempFile))
                         (snd (GetVideo env videoID w))))).
  { destruct Hfail as [H | [H1 H2]]; [now apply Hff | now apply Hopen]. }
  cbv zeta. rewrite Hrun. cbn [fst snd db objects log].
  repeat split; try assumption.
  apply (calls_since_app w _ [_; _; _]). cbn [calls log].
  now rewrite Hcalls.
Qed.

(** X13.  The pipeline succeeds when every step does: for an upload that
    passes the checks, with transcoder, object store, metadata store and
    signer all succeeding (and a bucket name without comma), the answer
    is 200 with the record carrying the signed URL, the object sits under
    the storage key with the transcoded file as body, the row holds
    bucket, comma, key, and the six collaborator calls were made in
    pipeline order, the signer being asked for the bucket and key of the
    object just put. *)
Theorem upload_succeeds env cfg r w videoID row0 file tempFile url :
  reaches_spool env cfg r w videoID row0 file tempFile ->
  snd (exec_Run env "ffmpeg" (ffmpeg_args tempFile)) = None ->
  os_Open env (tempFile ++ ".processing") = None ->
  strings.count_char "," (s3Bucket cfg) = 0%nat ->
  let key := storage_key env tempFile w in
  let inp := {| Bucket := s3Bucket cfg; Key := key;
                Body := (tempFile ++ ".processing")%string;
                ContentType := "video/mp4" |} in
  let row1 := {| id := videoID; thumbnail_url := thumbnail_url row0;
                 video_url := Some (s3Bucket cfg ++ "," ++ key)%string;
                 user_id := user_id row0 |} in
  s3_PutObject env inp = None ->
  db_UpdateVideo_fault env row1 = None ->
  s3_PresignGetObject env (5 + length (calls w))%nat (s3Bucket cfg) key
    (time.Minute * 5) = Ok url ->
  let w' := snd (handlerUploadVideo env cfg r w) in
  fst (handlerUploadVideo env cfg r w)
  = respondWithJSON StatusOK
      {| id := videoID; thumbnail_url := thumbnail_url row0;
         video_url := Some url; user_id := user_id row0 |}
  /\ db w' = <[videoID := row1]> (db w)
  /\ objects w'
     = <[(s3Bucket cfg, key) :=
           ("video/mp4"%string, (tempFile ++ ".processing")%string)]>
         (objects w)
  /\ calls_since w w'
     = [CallPresignGetObject (s3Bucket cfg) key (time.Minute * 5);
        CallUpdateVideo row1; CallPutObject inp;
        CallExec "ffmpeg" (ffmpeg_args tempFile);
        CallExec "ffprobe" (ffprobe_args tempFile); CallGetVideo videoID].
Proof.
  intros Hreach Hff Hopen Hbucket key inp row1 Hput Hupd Hsign w'.
  destruct (spooled_upload_outcomes env cfg r w videoID row0 file tempFile
              Hreach) as (_ & _ & _ & _ & _ & Hlate).
  specialize (Hlate Hff Hopen). fold w' in Hlate.
  unfold late_outcome in Hlate. cbv zeta in Hlate.
  fold key in Hlate. fold inp in Hlate. rewrite Hput in Hlate.
  fold row1 in Hlate. rewrite Hupd in Hlate.
  rewrite (Cut_at_first_comma _ key Hbucket) in Hlate.
  rewrite Hsign in Hlate.
  destruct Hlate as (Hobj & Hdb & Hcalls & Hresp).
  repeat split; try assumption.
  now apply calls_since_app.
Qed.

(** ** Every run *)

(** X14.  The record is never written before the object is stored: in
    every run, an [UpdateVideo] call is directly preceded by a
    [PutObject] call that succeeded, the location written names the
    bucket and key of that call, and the object is in the store. *)
Theorem reference_persisted_only_after_upload env cfg r w row :
  let w' := snd (handlerUploadVideo env cfg r w) in
  In (CallUpdateVideo row) (calls_since w w') ->
  exists inp later earlier,
    calls_since w w'
    = (later ++ CallUpdateVideo row :: CallPutObject inp :: earlier)%list
    /\ s3_PutObject env inp = None
    /\ video_url row = Some (Bucket inp ++ "," ++ Key inp)%string
    /\ objects w' !! (Bucket inp, Key inp)
       = Some (ContentType inp, Body inp).
Proof.
  cbv zeta. intros Hin.
  pose proof (handlerUploadVideo_cases env cfg r w) as [Hearly | Hlate];
    set (w' := snd (handlerUploadVideo env cfg r w)) in *;
    set (resp := fst (handlerUploadVideo env cfg r w)) in *.
  { destruct Hearly as (c & msg & err & new & _ & _ & _ & _ & Hc & Hq).
    rewrite (calls_since_app _ _ _ Hc) in Hin.
    rewrite Forall_forall in Hq.
    apply list_elem_of_In, Hq in Hin. simpl in Hin. contradiction. }
  destruct Hlate as (videoID & row0 & tempFile & _ & _ & _ & Hlate).
  split_late Hlate.
  - rewrite (calls_since_app w w' [_; _; _; _] Hc) in Hin.
    destruct Hin as [Hin|[Hin|[Hin|[Hin|[]]]]]; discriminate.
  - rewrite (calls_since_app w w' [_; _; _; _; _] Hc) in Hin |- *.
    destruct Hin as [Hin|[Hin|[Hin|[Hin|[Hin|[]]]]]]; try discriminate.
    injection Hin as <-.
    eexists _, [], _. split; [reflexivity|].
    split; [exact Hput|]. split; [reflexivity|].
    rewrite Hobj. apply lookup_insert_eq.
  - rewrite (calls_since_app w w' [_; _; _; _; _; _] Hc) in Hin |- *.
    destruct Hin as [Hin|[Hin|[Hin|[Hin|[Hin|[Hin|[]]]]]]]; try discriminate.
    injection Hin as <-.
    eexists _, [_], _. split; [reflexivity|].
    split; [exact Hput|]. split; [reflexivity|].
    rewrite Hobj. apply lookup_insert_eq.
Qed.

(** X15.  When the metadata store rejects the update, the handler
    answers with 500 and the store's error, every row is as it was and
    nothing is signed, but the object that was just put stays in the
    bucket.  The run has made no record refer to it: a row names its
    bucket and key afterwards only if it already did before the run. *)
Theorem update_failure_orphans_object env cfg r w row e :
  let w' := snd (handlerUploadVideo env cfg r w) in
  In (CallUpdateVideo row) (calls_since w w') ->
  db_UpdateVideo_fault env row = Some e ->
  fst (handlerUploadVideo env cfg r w)
  = respondWithError StatusInternalServerError "Unable to update video"
      (Some e)
  /\ db w' = db w
  /\ (forall b k d, ~ In (CallPresignGetObject b k d) (calls_since w w'))
  /\ exists key body,
       video_url row = Some (s3Bucket cfg ++ "," ++ key)%string
       /\ objects w' !! (s3Bucket cfg, key)
          = Some ("video/mp4"%string, body)
       /\ (forall (id' : UUID) row',
             db w' !! id' = Some row' ->
             video_url row' = Some (s3Bucket cfg ++ "," ++ key)%string ->
             exists row0,
               db w !! id' = Some row0
               /\ video_url row0 = Some (s3Bucket cfg ++ "," ++ key)%string).
Proof.
  cbv zeta. intros Hin Hfail.
  pose proof (handlerUploadVideo_cases env cfg r w) as [Hearly | Hlate];
    set (w' := snd (handlerUploadVideo env cfg r w)) in *;
    set (resp := fst (handlerUploadVideo env cfg r w)) in *.
  { destruct Hearly as (c & msg & err & new & _ & _ & _ & _ & Hc & Hq).
    rewrite (calls_since_app _ _ _ Hc) in Hin.
    rewrite Forall_forall in Hq.
    apply list_elem_of_In, Hq in Hin. simpl in Hin. contradiction. }
  destruct Hlate as (videoID & row0 & tempFile & _ & _ & _ & Hlate).
  split_late Hlate.
  - rewrite (calls_since_app w w' [_; _; _; _] Hc) in Hin.
    destruct Hin as [Hin|[Hin|[Hin|[Hin|[]]]]]; discriminate.
  - rewrite (calls_since_app w w' [_; _; _; _; _] Hc) in Hin |- *.
    destruct Hin as [Hin|[Hin|[Hin|[Hin|[Hin|[]]]]]]; try discriminate.
    injection Hin as <-. rewrite Hupd in Hfail. injection Hfail as <-.
    split; [exact Hr|]. split; [exact Hdb|].
    split; [intros b k d [H|[H|[H|[H|[H|[]]]]]]; discriminate|].
    eexists _, _. split; [reflexivity|].
    split; [rewrite Hobj; apply lookup_insert_eq|].
    intros id' row' Hrow' Hurl. rewrite Hdb in Hrow'. eauto.
  - exfalso.
    rewrite (calls_since_app w w' [_; _; _; _; _; _] Hc) in Hin.
    destruct Hin as [Hin|[Hin|[Hin|[Hin|[Hin|[Hin|[]]]]]]]; try discriminate.
    injection Hin as <-. congruence.
Qed.

(** X16.  When the final signing fails, the handler answers with 500 and
    the signer's error although the upload has gone through: the row of
    the record already holds the new location. *)
Theorem signing_failure_after_persist env cfg r w b k d e :
  let w' := snd (handlerUploadVideo env cfg r w) in
  In (CallPresignGetObject b k d) (calls_since w w') ->
  s3_PresignGetObject env (5 + length (calls w))%nat b k d = Err e ->
  fst (handlerUploadVideo env cfg r w)
  = respondWithError StatusInternalServerError "Unable to update video"
      (Some e)
  /\ exists videoID row,
       uuid_Parse env (PathValue_videoID r) = Ok videoID
       /\ In (CallUpdateVideo row) (calls_since w w')
       /\ db w' !! videoID = Some row
       /\ video_url row = Some (b ++ "," ++ k)%string.
Proof.
  cbv zeta. intros Hin Hfail.
  pose proof (handlerUploadVideo_cases env cfg r w) as [Hearly | Hlate];
    set (w' := snd (handlerUploadVideo env cfg r w)) in *;
    set (resp := fst (handlerUploadVideo env cfg r w)) in *.
  { destruct Hearly as (c & msg & err & new & _ & _ & _ & _ & Hc & Hq).
    rewrite (calls_since_app _ _ _ Hc) in Hin.
    rewrite Forall_forall in Hq.
    apply list_elem_of_In, Hq in Hin. simpl in Hin. contradiction. }
  destruct Hlate as (videoID & row0 & tempFile & Hid & _ & _ & Hlate).
  split_late Hlate.
  - rewrite (calls_since_app w w' [_; _; _; _] Hc) in Hin.
    destruct Hin as [Hin|[Hin|[Hin|[Hin|[]]]]]; discriminate.
  - rewrite (calls_since_app w w' [_; _; _; _; _] Hc) in Hin.
    destruct Hin as [Hin|[Hin|[Hin|[Hin|[Hin|[]]]]]]; discriminate.
  - rewrite (calls_since_app w w' [_; _; _; _; _; _] Hc) in Hin |- *.
    destruct Hin as [Hin|[Hin|[Hin|[Hin|[Hin|[Hin|[]]]]]]]; try discriminate.
    injection Hin as -> -> <-. rewrite Hfail in Hr.
    split; [exact Hr|].
    eexists videoID, _. split; [exact Hid|].
    split; [right; left; reflexivity|].
    rewrite Hdb. split; [apply lookup_insert_eq|].
    cbn [video_url]. f_equal.
    assert (found = true) as ->.
    { destruct (Cut_finds_comma (s3Bucket cfg) (storage_key env tempFile w))
        as (b' & k' & E). rewrite E in Hcut. now injection Hcut. }
    now destruct (Cut_comma_rejoin _ _ _ Hcut).
Qed.

(** X17.  A run touches at most the row of the requested record: every
    other row is as before, no row is created, and a row keeps its
    thumbnail location and its owner. *)
Theorem upload_touches_one_row env cfg r w :
  let w' := snd (handlerUploadVideo env cfg r w) in
  (forall id' : UUID, uuid_Parse env (PathValue_videoID r) <> Ok id' ->
     db w' !! id' = db w !! id')
  /\ (forall (id' : UUID) row',
        db w' !! id' = Some row' ->
        exists row0,
          db w !! id' = Some row0
          /\ thumbnail_url row' = thumbnail_url row0
          /\ user_id row' = user_id row0)
  /\ (forall id' : UUID, db w !! id' = None -> db w' !! id' = None).
Proof.
  cbv zeta.
  pose proof (handlerUploadVideo_cases env cfg r w) as [Hearly | Hlate];
    set (w' := snd (handlerUploadVideo env cfg r w)) in *;
    set (resp := fst (handlerUploadVideo env cfg r w)) in *.
  { destruct Hearly as (c & msg & err & new & _ & _ & Hdb & _).
    rewrite Hdb. repeat split; eauto. }
  destruct Hlate as (videoID & row0 & tempFile & Hid & Hrow & _ & Hlate).
  split_late Hlate; rewrite Hdb; try (repeat split; eauto; fail).
  repeat split.
  - intros id' Hne. apply lookup_insert_ne. congruence.
  - intros id' row' Hl.
    destruct (decide (videoID = id')) as [<-|Hne].
    + rewrite lookup_insert_eq in Hl. injection Hl as <-.
      exists row0. auto.
    + rewrite lookup_insert_ne in Hl by exact Hne. eauto.
  - intros id' Hnone.
    destruct (decide (videoID = id')) as [<-|Hne].
    + rewrite Hrow in Hnone. discriminate.
    + now rewrite lookup_insert_ne.
Qed.

(** X18.  A run changes the object store at one key at most: the storage
    key of its single successful [PutObject], in the configured bucket,
    with content type video/mp4 and the transcoded file (not the spooled
    upload) as body. *)
Theorem upload_stores_one_object env cfg r w bk :
  let w' := snd (handlerUploadVideo env cfg r w) in
  objects w' !! bk <> objects w !! bk ->
  exists tempFile inp,
    os_CreateTemp env "" "tubely-upload.mp4" = Ok tempFile
    /\ In (CallPutObject inp) (calls_since w w')
    /\ s3_PutObject env inp = None
    /\ bk = (s3Bucket cfg, Key inp)
    /\ Body inp = (tempFile ++ ".processing")%string
    /\ objects w' !! bk = Some ("video/mp4"%string, Body inp).
Proof.
  cbv zeta. intros Hne.
  pose proof (handlerUploadVideo_cases env cfg r w) as [Hearly | Hlate];
    set (w' := snd (handlerUploadVideo env cfg r w)) in *;
    set (resp := fst (handlerUploadVideo env cfg r w)) in *.
  { destruct Hearly as (c & msg & err & new & _ & _ & _ & Hobj & _).
    rewrite Hobj in Hne. contradiction. }
  destruct Hlate as (videoID & row0 & tempFile & _ & _ & Htmp & Hlate).
  split_late Hlate; rewrite Hobj in Hne |- *; [contradiction| |].
  all: destruct (decide ((s3Bucket cfg, storage_key env tempFile w) = bk))
         as [<-|Hother];
       [|rewrite lookup_insert_ne in Hne by exact Hother; contradiction].
  all: eexists tempFile, _; split; [exact Htmp|].
  - rewrite (calls_since_app w w' [_; _; _; _; _] Hc).
    split; [right; left; reflexivity|].
    split; [exact Hput|]. split; [reflexivity|]. split; [reflexivity|].
    apply lookup_insert_eq.
  - rewrite (calls_since_app w w' [_; _; _; _; _; _] Hc).
    split; [right; right; left; reflexivity|].
    split; [exact Hput|]. split; [reflexivity|]. split; [reflexivity|].
    apply lookup_insert_eq.
Qed.

(** ** The handlers that do not look at the upload's result *)

Lemma direct_outcomes env cfg r w :
  let '(resp, w') := Direct.handlerUploadVideo env cfg r w in
  early_outcome w resp w'
  \/ exists videoID row0 tempFile,
       uuid_Parse env (PathValue_videoID r) = Ok videoID
       /\ db w !! videoID = Some row0
       /\ os_CreateTemp env "" "tubely-upload.mp4" = Ok tempFile
       /\ unchecked_outcome env cfg w videoID row0 tempFile
            (random_id env ++ "." ++ "mp4") [CallGetVideo videoID] resp w'.
Proof.
  unfold Direct.handlerUploadVideo, run.
  step_attempt; [|early (@nil Call)]. rename a into videoID.
  step_attempt; [|early (@nil Call)]. rename a into token.
  step_attempt; [|early (@nil Call)]. rename a into userID.
  unfold hbind at 1; unfold lift at 1.
  pose proof (GetVideo_spec env videoID w) as HG.
  destruct (GetVideo env videoID w) as [got w1].
  unfold hbind at 1; unfold attempt at 1.
  destruct got as [metadata|e]; cbn [hret respond].
  2:{ subst w1. early [CallGetVideo videoID]. }
  destruct HG as (row0 & Hrow & HID & Huser & Hdb & Hobj & Hcalls & Hthumb).
  destruct (negb (UserID metadata =? userID)%string).
  { unfold respond. early [CallGetVideo videoID]. }
  step_check; [early [CallGetVideo videoID]|].
  step_attempt; [|early [CallGetVideo videoID]]. rename a into file.
  step_attempt; [|early [CallGetVideo videoID]]. rename a into mediaType.
  destruct (String.eqb_spec mediaType "video/mp4") as [->|_]; cbn [negb].
  2:{ unfold respond. early [CallGetVideo videoID]. }
  step_attempt; [|early [CallGetVideo videoID]]. rename a into tempFile.
  step_check; [early [CallGetVideo videoID]|].
  unfold hbind at 1; unfold attempt at 1; unfold rand_Read at 1.
  destruct (rand_fault env) eqn:Hrand; cbn [hret respond].
  { early [CallGetVideo videoID]. }
  change (strings.Split "video/mp4" "/" !! 1%nat) with (Some "mp4"%string).
  cbv iota beta zeta.
  fold (random_id env).
  set (key := (random_id env ++ "." ++ "mp4")%string).
  match goal with
  | |- let '(resp, w') := ?X in _ =>
      enough (Hlate : let '(resp, w') := X in
                      unchecked_outcome env cfg w videoID row0 tempFile key
                        [CallGetVideo videoID] resp w')
  end.
  { match goal with
    | H : let '(resp, w') := ?X in _ |- _ => destruct X as [resp w']
    end.
    right. exists videoID, row0, tempFile. auto. }
  unfold unchecked_outcome. cbv zeta.
  fold (direct_url cfg key).
  set (row1 := {| id := videoID; thumbnail_url := thumbnail_url row0;
                  video_url := Some (direct_url cfg key);
                  user_id := user_id row0 |}).
  assert (Hrow1 : forall d o c,
    row_of {| heap := heap w1 ++ [direct_url cfg key]; db := d; objects := o;
              calls := c |}
           (set_VideoURL (Some (length (heap w1))) metadata) = row1).
  { intros d o c. unfold row_of.
    cbn [ID ThumbnailURL VideoURL UserID set_VideoURL].
    rewrite Hthumb by (cbn [heap]; now apply prefix_app_r).
    cbn [deref_opt]. rewrite deref_new, HID, Huser. reflexivity. }
  unfold hbind at 1; unfold lift at 1; unfold PutObject at 1.
  cbn [Bucket Key Body ContentType].
  destruct (s3_PutObject env _) as [e|] eqn:Hput.
  all: unfold hbind at 1; unfold lift at 1; unfold new_string at 1;
       cbn [db objects calls log heap];
       unfold hbind at 1; unfold lift at 1; unfold UpdateVideo at 1;
       rewrite Hrow1; cbn [db objects calls log heap];
       rewrite Hobj, Hcalls;
       destruct (db_UpdateVideo_fault env row1) as [e'|] eqn:Hupd;
       [ unfold hbind at 1; unfold check at 1; cbn [respond];
         cbn [db objects calls log heap]; auto
       | cbn [ID set_VideoURL]; rewrite HID, Hdb, Hrow;
         unfold hbind at 1; unfold check at 1; cbn [hret];
         cbn [db objects calls log heap];
         rewrite Hrow1; auto ].
Qed.

Lemma classified_outcomes env cfg r w :
  let '(resp, w') := Classified.handlerUploadVideo env cfg r w in
  early_outcome w resp w'
  \/ exists videoID row0 tempFile,
       uuid_Parse env (PathValue_videoID r) = Ok videoID
       /\ db w !! videoID = Some row0
       /\ os_CreateTemp env "" "tubely-upload.mp4" = Ok tempFile
       /\ unchecked_outcome env cfg w videoID row0 tempFile
            (storage_key env tempFile w)
            [CallExec "ffprobe" (ffprobe_args tempFile);
             CallGetVideo videoID] resp w'.
Proof.
  unfold Classified.handlerUploadVideo, run.
  step_attempt; [|early (@nil Call)]. rename a into videoID.
  step_attempt; [|early (@nil Call)]. rename a into token.
  step_attempt; [|early (@nil Call)]. rename a into userID.
  unfold hbind at 1; unfold lift at 1.
  pose proof (GetVideo_spec env videoID w) as HG.
  destruct (GetVideo env videoID w) as [got w1].
  unfold hbind at 1; unfold attempt at 1.
  destruct got as [metadata|e]; cbn [hret respond].
  2:{ subst w1. early [CallGetVideo videoID]. }
  destruct HG as (row0 & Hrow & HID & Huser & Hdb & Hobj & Hcalls & Hthumb).
  destruct (negb (UserID metadata =? userID)%string).
  { unfold respond. early [CallGetVideo videoID]. }
  step_check; [early [CallGetVideo videoID]|].
  step_attempt; [|early [CallGetVideo videoID]]. rename a into file.
  step_attempt; [|early [CallGetVideo videoID]]. rename a into mediaType.
  destruct (String.eqb_spec mediaType "video/mp4") as [->|_]; cbn [negb].
  2:{ unfold respond. early [CallGetVideo videoID]. }
  step_attempt; [|early [CallGetVideo videoID]]. rename a into tempFile.
  step_check; [early [CallGetVideo videoID]|].
  unfold hbind at 1; unfold attempt at 1; unfold rand_Read at 1.
  destruct (rand_fault env) eqn:Hrand; cbn [hret respond].
  { early [CallGetVideo videoID]. }
  change (strings.Split "video/mp4" "/" !! 1%nat) with (Some "mp4"%string).
  cbv iota beta zeta.
  unfold hbind at 1; unfold lift at 1.
  rewrite (getVideoAspectRatio_world env tempFile w w1).
  pose proof (getVideoAspectRatio_nil_error env tempFile w) as Herr.
  unfold storage_key.
  destruct (fst (getVideoAspectRatio env tempFile w)) as [ar err] eqn:Har.
  cbn [snd] in Herr. subst err. cbn [fst].
  unfold hbind at 1; unfold check at 1; cbn [hret].
  rewrite key_of_label.
  fold (random_id env).
  set (key := (segment (category ar) ++ "/" ++ random_id env ++ "."
               ++ "mp4")%string).
  match goal with
  | |- let '(resp, w') := ?X in _ =>
      enough (Hlate : let '(resp, w') := X in
                      unchecked_outcome env cfg w videoID row0 tempFile key
                        [CallExec "ffprobe" (ffprobe_args tempFile);
                         CallGetVideo videoID] resp w')
  end.
  { match goal with
    | H : let '(resp, w') := ?X in _ |- _ => destruct X as [resp w']
    end.
    right. exists videoID, row0, tempFile. rewrite ?Har. auto. }
  unfold unchecked_outcome. cbv zeta.
  fold (direct_url cfg key).
  set (row1 := {| id := videoID; thumbnail_url := thumbnail_url row0;
                  video_url := Some (direct_url cfg key);
                  user_id := user_id row0 |}).
  assert (Hrow1 : forall d o c,
    row_of {| heap := heap w1 ++ [direct_url cfg key]; db := d; objects := o;
              calls := c |}
           (set_VideoURL (Some (length (heap w1))) metadata) = row1).
  { intros d o c. unfold row_of.
    cbn [ID ThumbnailURL VideoURL UserID set_VideoURL].
    rewrite Hthumb by (cbn [heap]; now apply prefix_app_r).
    cbn [deref_opt]. rewrite deref_new, HID, Huser. reflexivity. }
  unfold hbind at 1; unfold lift at 1; unfold PutObject at 1.
  cbn [Bucket Key Body ContentType].
  destruct (s3_PutObject env _) as [e|] eqn:Hput.
  all: unfold hbind at 1; unfold lift at 1; unfold new_string at 1;
       cbn [db objects calls log heap];
       unfold hbind at 1; unfold lift at 1; unfold UpdateVideo at 1;
       rewrite Hrow1; cbn [db objects calls log heap];
       rewrite Hobj, Hcalls;
       destruct (db_UpdateVideo_fault env row1) as [e'|] eqn:Hupd;
       [ unfold hbind at 1; unfold check at 1; cbn [respond];
         cbn [db objects calls log heap]; auto
       | cbn [ID set_VideoURL]; rewrite HID, Hdb, Hrow;
         unfold hbind at 1; unfold check at 1; cbn [hret];
         cbn [db objects calls log heap];
         rewrite Hrow1; auto ].
Qed.

Lemma quiet_not_store pre c :
  Forall quiet pre -> In c pre ->
  (forall inp, c <> CallPutObject inp) /\ (forall row, c <> CallUpdateVideo row).
Proof.
  intros Hq Hin. rewrite Forall_forall in Hq.
  apply list_elem_of_In, Hq in Hin.
  split; intros x ->; exact Hin.
Qed.

Lemma unchecked_outcome_put env cfg w videoID row0 body key pre resp w' inp :
  unchecked_outcome env cfg w videoID row0 body key pre resp w' ->
  Forall quiet pre ->
  In (CallPutObject inp) (calls_since w w') ->
  let row1 := {| id := videoID; thumbnail_url := thumbnail_url row0;
                 video_url := Some (direct_url cfg key);
                 user_id := user_id row0 |} in
  inp = {| Bucket := s3Bucket cfg; Key := key; Body := body;
           ContentType := "video/mp4" |}
  /\ In (CallUpdateVideo row1) (calls_since w w')
  /\ (db_UpdateVideo_fault env row1 = None ->
      resp = respondWithJSON StatusOK row1
      /\ db w' = <[videoID := row1]> (db w))
  /\ (forall e, db_UpdateVideo_fault env row1 = Some e ->
      resp = respondWithError StatusInternalServerError
               "Unable to update video" (Some e)
      /\ db w' = db w)
  /\ (forall e, s3_PutObject env inp = Some e -> objects w' = objects w).
Proof.
  intros (Hobj & Hcalls & Hresp) Hq Hin. cbv zeta in *.
  rewrite (calls_since_app w w' (_ :: _ :: pre) Hcalls) in Hin |- *.
  destruct Hin as [Hin|[Hin|Hin]]; [discriminate| |].
  2:{ destruct (quiet_not_store pre _ Hq Hin) as [H _].
      now contradiction (H inp). }
  injection Hin as <-.
  split; [reflexivity|]. split; [now left|].
  split; [intros Hu; now rewrite Hu in Hresp|].
  split; [intros e Hu; now rewrite Hu in Hresp|].
  intros e Hp. now rewrite Hp in Hobj.
Qed.

(** X19.  The handler of [handler_upload_video.go] never looks at the
    result of [PutObject]: every run that reaches the upload goes on to
    [UpdateVideo] with the public URL of the key (the random id and
    [.mp4], no orientation segment, the spooled file as body), and the
    answer depends on the metadata store alone; when the upload failed
    and the update succeeded the answer is 200 and the row points to an
    object that is not in the store. *)
Theorem direct_upload_result_ignored env cfg r w inp :
  let resp := fst (Direct.handlerUploadVideo env cfg r w) in
  let w' := snd (Direct.handlerUploadVideo env cfg r w) in
  In (CallPutObject inp) (calls_since w w') ->
  exists videoID row0 tempFile,
    uuid_Parse env (PathValue_videoID r) = Ok videoID
    /\ db w !! videoID = Some row0
    /\ os_CreateTemp env "" "tubely-upload.mp4" = Ok tempFile
    /\ inp = {| Bucket := s3Bucket cfg;
                Key := (random_id env ++ "." ++ "mp4")%string;
                Body := tempFile; ContentType := "video/mp4" |}
    /\ let row1 := {| id := videoID; thumbnail_url := thumbnail_url row0;
                      video_url := Some (direct_url cfg (Key inp));
                      user_id := user_id row0 |} in
       In (CallUpdateVideo row1) (calls_since w w')
       /\ (db_UpdateVideo_fault env row1 = None ->
           resp = respondWithJSON StatusOK row1
           /\ db w' !! videoID = Some row1)
       /\ (forall e, db_UpdateVideo_fault env row1 = Some e ->
           resp = respondWithError StatusInternalServerError
                    "Unable to update video" (Some e)
           /\ db w' = db w)
       /\ (forall e, s3_PutObject env inp = Some e -> objects w' = objects w).
Proof.
  cbv zeta. intros Hin.
  pose proof (direct_outcomes env cfg r w) as H.
  destruct (Direct.handlerUploadVideo env cfg r w) as [resp w'].
  cbn [fst snd] in *.
  destruct H as [Hearly | (videoID & row0 & tempFile & Hid & Hrow & Htmp & H)].
  { destruct Hearly as (c & msg & err & new & _ & _ & _ & _ & Hc & Hq).
    rewrite (calls_since_app _ _ _ Hc) in Hin.
    destruct (quiet_not_store new _ Hq Hin) as [Hn _].
    now contradiction (Hn inp). }
  destruct (unchecked_outcome_put _ _ _ _ _ _ _ _ _ _ inp H
              ltac:(repeat constructor) Hin)
    as (-> & Hupd & Hok & Hfail & Hput).
  exists videoID, row0, tempFile.
  split; [exact Hid|]. split; [exact Hrow|]. split; [exact Htmp|].
  split; [reflexivity|]. cbn [Key].
  split; [exact Hupd|].
  split.
  { intros Hu. destruct (Hok Hu) as [-> Hdb]. split; [reflexivity|].
    rewrite Hdb. apply lookup_insert_eq. }
  split; [exact Hfail | exact Hput].
Qed.

(** X20.  The second text of the handler behaves the same with the
    classifier's key: the result of [PutObject] is ignored, the row
    receives the public URL of the orientation-prefixed key, and a failed
    upload followed by a successful update is answered with 200. *)
Theorem classified_upload_result_ignored env cfg r w inp :
  let resp := fst (Classified.handlerUploadVideo env cfg r w) in
  let w' := snd (Classified.handlerUploadVideo env cfg r w) in
  In (CallPutObject inp) (calls_since w w') ->
  exists videoID row0 tempFile,
    uuid_Parse env (PathValue_videoID r) = Ok videoID
    /\ db w !! videoID = Some row0
    /\ os_CreateTemp env "" "tubely-upload.mp4" = Ok tempFile
    /\ inp = {| Bucket := s3Bucket cfg; Key := storage_key env tempFile w;
                Body := tempFile; ContentType := "video/mp4" |}
    /\ let row1 := {| id := videoID; thumbnail_url := thumbnail_url row0;
                      video_url := Some (direct_url cfg (Key inp));
                      user_id := user_id row0 |} in
       In (CallUpdateVideo row1) (calls_since w w')
       /\ (db_UpdateVideo_fault env row1 = None ->
           resp = respondWithJSON StatusOK row1
           /\ db w' !! videoID = Some row1)
       /\ (forall e, db_UpdateVideo_fault env row1 = Some e ->
           resp = respondWithError StatusInternalServerError
                    "Unable to update video" (Some e)
           /\ db w' = db w)
       /\ (forall e, s3_PutObject env inp = Some e -> objects w' = objects w).
Proof.
  cbv zeta. intros Hin.
  pose proof (classified_outcomes env cfg r w) as H.
  destruct (Classified.handlerUploadVideo env cfg r w) as [resp w'].
  cbn [fst snd] in *.
  destruct H as [Hearly | (videoID & row0 & tempFile & Hid & Hrow & Htmp & H)].
  { destruct Hearly as (c & msg & err & new & _ & _ & _ & _ & Hc & Hq).
    rewrite (calls_since_app _ _ _ Hc) in Hin.
    destruct (quiet_not_store new _ Hq Hin) as [Hn _].
    now contradiction (Hn inp). }
  destruct (unchecked_outcome_put _ _ _ _ _ _ _ _ _ _ inp H
              ltac:(repeat constructor) Hin)
    as (-> & Hupd & Hok & Hfail & Hput).
  exists videoID, row0, tempFile.
  split; [exact Hid|]. split; [exact Hrow|]. split; [exact Htmp|].
  split; [reflexivity|]. cbn [Key].
  split; [exact Hupd|].
  split.
  { intros Hu. destruct (Hok Hu) as [-> Hdb]. split; [reflexivity|].
    rewrite Hdb. apply lookup_insert_eq. }
  split; [exact Hfail | exact Hput].
Qed.

(** ** The encoding is one-to-one *)

Local Open Scope N_scope.

Lemma small_high_bits x j : x <= 255 -> 8 <= j -> N.testbit x j = false.
Proof.
  intros Hx Hj. destruct (N.eq_dec x 0) as [->|Hne]; [apply N.bits_0|].
  apply N.bits_above_log2.
  apply N.lt_le_trans with 8; [|exact Hj].
  apply N.log2_lt_pow2; [lia|]. change (2 ^ 8) with 256. lia.
Qed.

Lemma pack3_bits_high A B C j :
  B <= 255 -> C <= 255 ->
  N.testbit (pack3 A B C) (j + 16) = N.testbit A j.
Proof.
  intros HB HC. unfold pack3. rewrite !N.lor_spec.
  rewrite (N.shiftl_spec_high' A 16 (j + 16)) by lia.
  rewrite (N.shiftl_spec_high' B 8 (j + 16)) by lia.
  rewrite (small_high_bits B) by lia.
  rewrite (small_high_bits C) by lia.
  rewrite !orb_false_r. f_equal. lia.
Qed.

Lemma pack3_bits_mid A B C j :
  j < 8 -> C <= 255 ->
  N.testbit (pack3 A B C) (j + 8) = N.testbit B j.
Proof.
  intros Hj HC. unfold pack3. rewrite !N.lor_spec.
  rewrite (N.shiftl_spec_low A 16 (j + 8)) by lia.
  rewrite (N.shiftl_spec_high' B 8 (j + 8)) by lia.
  rewrite (small_high_bits C) by lia.
  rewrite orb_false_r. cbn [orb]. f_equal. lia.
Qed.

Lemma pack3_bits_low A B C j :
  j < 8 -> N.testbit (pack3 A B C) j = N.testbit C j.
Proof.
  intros Hj. unfold pack3. rewrite !N.lor_spec.
  rewrite (N.shiftl_spec_low A 16 j) by lia.
  rewrite (N.shiftl_spec_low B 8 j) by lia.
  reflexivity.
Qed.

Lemma small_eq x y :
  x <= 255 -> y <= 255 ->
  (forall j, j < 8 -> N.testbit x j = N.testbit y j) -> x = y.
Proof.
  intros Hx Hy H. apply N.bits_inj. intros j.
  destruct (N.lt_ge_cases j 8) as [Hj|Hj]; [now apply H|].
  now rewrite !small_high_bits.
Qed.

Lemma to_N_inj a b : Byte.to_N a = Byte.to_N b -> a = b.
Proof.
  intros H. pose proof (Byte.of_to_N a) as Ha. rewrite H, Byte.of_to_N in Ha.
  now injection Ha.
Qed.

Lemma sextet_value_lt v sh : sextet_value v sh < 64.
Proof.
  unfold sextet_value. change 63 with (N.ones 6).
  rewrite N.land_ones. apply N.mod_lt. discriminate.
Qed.

Lemma sextet_value_bits v sh j :
  j < 6 -> N.testbit (sextet_value v sh) j = N.testbit v (j + sh).
Proof.
  intros Hj. unfold sextet_value. rewrite N.land_spec, N.shiftr_spec'.
  change 63 with (N.ones 6). rewrite N.ones_spec_low by exact Hj.
  apply andb_true_r.
Qed.

Lemma digit_inj m n :
  m < 64 -> n < 64 -> base64.digit m = base64.digit n -> m = n.
Proof.
  intros Hm Hn H.
  assert (Hall : forallb (fun i => forallb (fun j =>
            implb (Ascii.eqb (base64.digit (N.of_nat i))
                             (base64.digit (N.of_nat j)))
                  (Nat.eqb i j)) (seq 0 64)) (seq 0 64) = true)
    by (vm_compute; reflexivity).
  rewrite forallb_forall in Hall.
  specialize (Hall (N.to_nat m) ltac:(apply in_seq; lia)).
  rewrite forallb_forall in Hall.
  specialize (Hall (N.to_nat n) ltac:(apply in_seq; lia)).
  rewrite !N2Nat.id, H, Ascii.eqb_refl in Hall. cbn [implb] in Hall.
  apply Nat.eqb_eq in Hall. lia.
Qed.

Lemma sextet_inj v v' sh :
  base64.sextet v sh = base64.sextet v' sh ->
  forall j, j < 6 -> N.testbit v (j + sh) = N.testbit v' (j + sh).
Proof.
  intros H j Hj.
  rewrite <- !sextet_value_bits by exact Hj. f_equal.
  apply digit_inj; [apply sextet_value_lt | apply sextet_value_lt | exact H].
Qed.

Lemma bits_from_sextets v v' (lo : N) :
  (lo = 0 \/ lo = 6 \/ lo = 12 \/ lo = 18) ->
  (forall sh, (sh = 0 \/ sh = 6 \/ sh = 12 \/ sh = 18) -> lo <= sh ->
     base64.sextet v sh = base64.sextet v' sh) ->
  forall i, lo <= i < 24 -> N.testbit v i = N.testbit v' i.
Proof.
  intros Hlo H i Hi.
  assert (Hsh : exists sh j,
            (sh = 0 \/ sh = 6 \/ sh = 12 \/ sh = 18) /\ lo <= sh
            /\ j < 6 /\ i = j + sh).
  { destruct (N.lt_ge_cases i 6); [exists 0, i; lia|].
    destruct (N.lt_ge_cases i 12); [exists 6, (i - 6); lia|].
    destruct (N.lt_ge_cases i 18); [exists 12, (i - 12); lia|].
    exists 18, (i - 18); lia. }
  destruct Hsh as (sh & j & Hsh & Hle & Hj & ->).
  apply sextet_inj; [apply H; assumption | exact Hj].
Qed.

Lemma pack3_inj_high a b c a' b' c' :
  (forall i, 16 <= i < 24 ->
     N.testbit (pack3 (Byte.to_N a) (Byte.to_N b) (Byte.to_N c)) i
     = N.testbit (pack3 (Byte.to_N a') (Byte.to_N b') (Byte.to_N c')) i) ->
  a = a'.
Proof.
  intros H. apply to_N_inj.
  apply small_eq; try apply Byte.to_N_bounded.
  intros j Hj.
  rewrite <- (pack3_bits_high (Byte.to_N a) (Byte.to_N b) (Byte.to_N c) j
                (Byte.to_N_bounded b) (Byte.to_N_bounded c)).
  rewrite <- (pack3_bits_high (Byte.to_N a') (Byte.to_N b') (Byte.to_N c') j
                (Byte.to_N_bounded b') (Byte.to_N_bounded c')).
  apply H. lia.
Qed.

Lemma pack3_inj_mid a b c a' b' c' :
  (forall i, 8 <= i < 16 ->
     N.testbit (pack3 (Byte.to_N a) (Byte.to_N b) (Byte.to_N c)) i
     = N.testbit (pack3 (Byte.to_N a') (Byte.to_N b') (Byte.to_N c')) i) ->
  b = b'.
Proof.
  intros H. apply to_N_inj.
  apply small_eq; try apply Byte.to_N_bounded.
  intros j Hj.
  rewrite <- (pack3_bits_mid (Byte.to_N a) (Byte.to_N b) (Byte.to_N c) j Hj
                (Byte.to_N_bounded c)).
  rewrite <- (pack3_bits_mid (Byte.to_N a') (Byte.to_N b') (Byte.to_N c') j
                Hj (Byte.to_N_bounded c')).
  apply H. lia.
Qed.

Lemma pack3_inj_low a b c a' b' c' :
  (forall i, 0 <= i < 8 ->
     N.testbit (pack3 (Byte.to_N a) (Byte.to_N b) (Byte.to_N c)) i
     = N.testbit (pack3 (Byte.to_N a') (Byte.to_N b') (Byte.to_N c')) i) ->
  c = c'.
Proof.
  intros H. apply to_N_inj.
  apply small_eq; try apply Byte.to_N_bounded.
  intros j Hj.
  rewrite <- (pack3_bits_low (Byte.to_N a) (Byte.to_N b) (Byte.to_N c) j Hj).
  rewrite <- (pack3_bits_low (Byte.to_N a') (Byte.to_N b') (Byte.to_N c') j
                Hj).
  apply H. lia.
Qed.

Lemma pack3_one A : N.shiftl A 16 = pack3 A (Byte.to_N x00) (Byte.to_N x00).
Proof.
  unfold pack3. change (Byte.to_N x00) with 0.
  now rewrite N.shiftl_0_l, !N.lor_0_r.
Qed.

Lemma pack3_two A B :
  N.lor (N.shiftl A 16) (N.shiftl B 8) = pack3 A B (Byte.to_N x00).
Proof. unfold pack3. change (Byte.to_N x00) with 0. now rewrite N.lor_0_r. Qed.

Theorem EncodeToString_inj : forall l1 l2 : list byte,
  length l1 = length l2 ->
  base64.EncodeToString l1 = base64.EncodeToString l2 -> l1 = l2.
Proof.
  induction l1 as [|a|a b|a b c l IH] using list_ind3; intros l2 Hlen Henc.
  - destruct l2; [reflexivity | discriminate].
  - destruct l2 as [|a' [|x1 x2]]; try discriminate.
    cbn [base64.EncodeToString] in Henc. cbv zeta in Henc.
    rewrite !pack3_one in Henc.
    injection Henc as H18 H12.
    f_equal. apply (pack3_inj_high a x00 x00 a' x00 x00).
    intros i Hi. apply (bits_from_sextets _ _ 12); [lia| |lia].
    intros sh [-> | [-> | [-> | ->]]] Hle; try lia; assumption.
  - destruct l2 as [|a' [|b' [|x1 x2]]]; try discriminate.
    cbn [base64.EncodeToString] in Henc. cbv zeta in Henc.
    rewrite !pack3_two in Henc.
    injection Henc as H18 H12 H6.
    assert (Hbits : forall i, 6 <= i < 24 ->
              N.testbit (pack3 (Byte.to_N a) (Byte.to_N b) (Byte.to_N x00)) i
              = N.testbit (pack3 (Byte.to_N a') (Byte.to_N b')
                             (Byte.to_N x00)) i).
    { apply bits_from_sextets; [lia|].
      intros sh [-> | [-> | [-> | ->]]] Hle; try lia; assumption. }
    f_equal; [|f_equal].
    + apply (pack3_inj_high a b x00 a' b' x00). intros; apply Hbits; lia.
    + apply (pack3_inj_mid a b x00 a' b' x00). intros; apply Hbits; lia.
  - destruct l2 as [|a' [|b' [|c' l2]]]; try discriminate.
    cbn [base64.EncodeToString] in Henc. cbv zeta in Henc.
    fold (pack3 (Byte.to_N a) (Byte.to_N b) (Byte.to_N c)) in Henc.
    fold (pack3 (Byte.to_N a') (Byte.to_N b') (Byte.to_N c')) in Henc.
    injection Henc as H18 H12 H6 H0 Hrest.
    assert (Hbits : forall i, 0 <= i < 24 ->
              N.testbit (pack3 (Byte.to_N a) (Byte.to_N b) (Byte.to_N c)) i
              = N.testbit (pack3 (Byte.to_N a') (Byte.to_N b')
                             (Byte.to_N c')) i).
    { apply bits_from_sextets; [lia|].
      intros sh [-> | [-> | [-> | ->]]] Hle; assumption. }
    f_equal; [|f_equal; [|f_equal]].
    + apply (pack3_inj_high a b c a' b' c'). intros; apply Hbits; lia.
    + apply (pack3_inj_mid a b c a' b' c'). intros; apply Hbits; lia.
    + apply (pack3_inj_low a b c a' b' c'). intros; apply Hbits; lia.
    + apply IH; [|exact Hrest]. cbn [length] in Hlen. lia.
Qed.

Local Close Scope N_scope.

Lemma append_inj_length : forall s1 s2 t1 t2 : string,
  String.length s1 = String.length s2 ->
  (s1 ++ t1)%string = (s2 ++ t2)%string -> s1 = s2 /\ t1 = t2.
Proof.
  induction s1 as [|c s1 IH]; intros [|d s2] t1 t2 Hlen H;
    try discriminate; [auto|].
  cbn [String.append] in H. injection H as -> H.
  cbn [String.length] in Hlen.
  destruct (IH s2 t1 t2 ltac:(lia) H) as [-> ->]. auto.
Qed.

Lemma random_id_inj env1 env2 :
  random_id env1 = random_id env2 ->
  map (rand_byte env1) (seq 0 32) = map (rand_byte env2) (seq 0 32).
Proof.
  unfold random_id. apply EncodeToString_inj.
  now rewrite !length_map.
Qed.

Lemma storage_key_inj env1 env2 t1 t2 w1 w2 :
  storage_key env1 t1 w1 = storage_key env2 t2 w2 ->
  map (rand_byte env1) (seq 0 32) = map (rand_byte env2) (seq 0 32).
Proof.
  unfold storage_key. intros H. apply random_id_inj.
  assert (Hid : forall s1 s2 : string,
            (s1 ++ "/" ++ random_id env1 ++ "." ++ "mp4")%string
            = (s2 ++ "/" ++ random_id env2 ++ "." ++ "mp4")%string ->
            s1 = s2 -> random_id env1 = random_id env2).
  { intros s1 s2 E ->.
    apply append_inj_length in E as [_ E]; [|reflexivity].
    apply append_inj_length in E as [_ E]; [|reflexivity].
    apply append_inj_length in E as [E _]; [exact E|].
    now rewrite !random_id_length. }
  destruct (category _), (category _); cbn [segment] in H;
    first [ now apply (Hid _ _ H) | discriminate H ].
Qed.

(** X21.  Two successful uploads whose 32 random bytes differ store
    their objects under different keys, whatever the orientation of the
    two videos: the encoding of the bytes is one-to-one. *)
Theorem distinct_random_bytes_distinct_keys
    env1 env2 cfg1 cfg2 r1 r2 w1 w2 code1 code2 payload1 payload2 inp1 inp2 :
  fst (handlerUploadVideo env1 cfg1 r1 w1) = respondWithJSON code1 payload1 ->
  fst (handlerUploadVideo env2 cfg2 r2 w2) = respondWithJSON code2 payload2 ->
  In (CallPutObject inp1)
     (calls_since w1 (snd (handlerUploadVideo env1 cfg1 r1 w1))) ->
  In (CallPutObject inp2)
     (calls_since w2 (snd (handlerUploadVideo env2 cfg2 r2 w2))) ->
  map (rand_byte env1) (seq 0 32) <> map (rand_byte env2) (seq 0 32) ->
  Key inp1 <> Key inp2.
Proof.
  intros Hr1 Hr2 Hin1 Hin2 Hne Hkey. apply Hne.
  destruct (handlerUploadVideo_success _ _ _ _ _ _ Hr1)
    as (v1 & row1 & t1 & b1 & k1 & u1 & _ & _ & _ & H1).
  destruct (handlerUploadVideo_success _ _ _ _ _ _ Hr2)
    as (v2 & row2 & t2 & b2 & k2 & u2 & _ & _ & _ & H2).
  cbv zeta in H1, H2.
  destruct H1 as (_ & _ & _ & _ & _ & _ & _ & _ & Hc1).
  destruct H2 as (_ & _ & _ & _ & _ & _ & _ & _ & Hc2).
  rewrite Hc1 in Hin1. rewrite Hc2 in Hin2.
  destruct Hin1 as [H|[H|[H|[H|[H|[H|[]]]]]]]; try discriminate.
  injection H as <-.
  destruct Hin2 as [H|[H|[H|[H|[H|[H|[]]]]]]]; try discriminate.
  injection H as <-.
  cbn [Key] in Hkey. now apply storage_key_inj in Hkey.
Qed.


(** X22.  When the upload cannot be spooled (no temporary file, a failed
    copy, or a failing random source) the handler answers with 500 and
    both stores are as before; for a failed copy the response carries the
    message only, the error itself is not passed on. *)
Theorem spool_failure_is_reported env cfg r w videoID token row0 file :
  uuid_Parse env (PathValue_videoID r) = Ok videoID ->
  auth_GetBearerToken env (Header r) = Ok token ->
  auth_ValidateJWT env token (jwtSecret cfg) = Ok (user_id row0) ->
  db_GetVideo_fault env videoID = None ->
  db w !! videoID = Some row0 ->
  ParseMultipartForm r maxMemory = None ->
  FormFile r "video" = Ok file ->
  mime_ParseMediaType env (part_ContentType file) = Ok "video/mp4"%string ->
  let w1 := snd (GetVideo env videoID w) in
  db w1 = db w /\ objects w1 = objects w
  /\ calls_since w w1 = [CallGetVideo videoID]
  /\ (forall e, os_CreateTemp env "" "tubely-upload.mp4" = Err e ->
        handlerUploadVideo env cfg r w
        = (respondWithError StatusInternalServerError
             "Unable to create temp file" (Some e), w1))
  /\ (forall tempFile e,
        os_CreateTemp env "" "tubely-upload.mp4" = Ok tempFile ->
        io_Copy env tempFile (part_data file) = Some e ->
        handlerUploadVideo env cfg r w
        = (respondWithError StatusInternalServerError
             "Unable to copy to temp file" None, w1))
  /\ (forall tempFile e,
        os_CreateTemp env "" "tubely-upload.mp4" = Ok tempFile ->
        io_Copy env tempFile (part_data file) = None ->
        rand_fault env = Some e ->
        handlerUploadVideo env cfg r w
        = (respondWithError StatusInternalServerError
             "Unable to create image name" (Some e), w1)).
Proof.
  intros H1 H2 H3 Hf Hrow Hform Hfile Hmime.
  destruct (GetVideo_found env videoID w row0 Hf Hrow)
    as (metadata & w1 & HG & HID & Huser & Hdb & Hobj & Hcalls & _).
  rewrite HG. cbn [snd]. cbv zeta.
  split; [exact Hdb|]. split; [exact Hobj|].
  split; [now apply (calls_since_app w w1 [_])|].
  repeat split.
  - intros e Htmp.
    unfold handlerUploadVideo, run. pass_owner H1 H2 H3 HG Huser.
    use_check Hform. use_attempt Hfile. use_attempt Hmime.
    rewrite String.eqb_refl; cbn [negb].
    use_attempt Htmp. reflexivity.
  - intros tempFile e Htmp Hcopy.
    unfold handlerUploadVideo, run. pass_owner H1 H2 H3 HG Huser.
    use_check Hform. use_attempt Hfile. use_attempt Hmime.
    rewrite String.eqb_refl; cbn [negb].
    use_attempt Htmp. use_check Hcopy. reflexivity.
  - intros tempFile e Htmp Hcopy Hrand.
    unfold handlerUploadVideo, run. pass_owner H1 H2 H3 HG Huser.
    use_check Hform. use_attempt Hfile. use_attempt Hmime.
    rewrite String.eqb_refl; cbn [negb].
    use_attempt Htmp. use_check Hcopy.
    unfold hbind at 1; unfold attempt at 1; unfold rand_Read at 1.
    rewrite Hrand. reflexivity.
Qed.

(** ** Instances *)

Lemma sample_reaches_spool env :
  uuid_Parse env = uuid_Parse Sample.env ->
  auth_GetBearerToken env = auth_GetBearerToken Sample.env ->
  auth_ValidateJWT env = auth_ValidateJWT Sample.env ->
  db_GetVideo_fault env = db_GetVideo_fault Sample.env ->
  mime_ParseMediaType env = mime_ParseMediaType Sample.env ->
  os_CreateTemp env = os_CreateTemp Sample.env ->
  io_Copy env = io_Copy Sample.env ->
  rand_fault env = rand_fault Sample.env ->
  reaches_spool env Sample.cfg Sample.request Sample.world0 Sample.video1
    Cases.sample_row Cases.sample_part Cases.sample_temp.
Proof.
  intros E1 E2 E3 E4 E5 E6 E7 E8. unfold reaches_spool.
  rewrite E1, E2, E3, E4, E5, E6, E7, E8.
  repeat split; try reflexivity.
  exists "token-1"%string. split; reflexivity.
Defined.

Lemma first_qualifying_stream_decides_witness :
  fst (getVideoAspectRatio Cases.env_mixed "/tmp/a.mp4" Sample.world0)
  = range_Streams [{| CodecType := "video"; Width := 720; Height := 1280 |}].
Proof.
  apply (first_qualifying_stream_decides Cases.env_mixed "/tmp/a.mp4"
           Sample.world0
           [{| CodecType := "audio"; Width := 0; Height := 0 |};
            {| CodecType := "video"; Width := 0; Height := 0 |}]
           _ [{| CodecType := "video"; Width := 1920; Height := 1080 |}] None).
  - reflexivity.
  - constructor; [left; discriminate|].
    constructor; [right; left; simpl; lia | constructor].
  - reflexivity.
  - reflexivity.
  - reflexivity.
Defined.

Lemma classifier_scale_invariant_witness :
  range_Streams [video_stream (120 * 16) (120 * 9)]
  = range_Streams [video_stream 16 9].
Proof.
  apply classifier_scale_invariant; try reflexivity.
  vm_compute. discriminate.
Defined.

Lemma classifier_exact_ratios_witness :
  range_Streams [video_stream (80 * 16) (80 * 9)] = ("16:9"%string, None).
Proof.
  apply (classifier_exact_ratios 80); [reflexivity|].
  vm_compute. discriminate.
Defined.

Lemma resolve_decodes_stored_reference_witness :
  exists p,
    VideoURL Cases.stored_video = Some p
    /\ deref Cases.stored_world p = ("tubely" ++ "," ++ "landscape/a.mp4")%string
    /\ strings.count_char "," "tubely" = 0%nat
    /\ 300000000000 = time.Minute * 5
    /\ calls_since Cases.stored_world
         (snd (dbVideoToSignedVideo Sample.env Sample.cfg Cases.stored_video
                 Cases.stored_world))
       = [CallPresignGetObject "tubely" "landscape/a.mp4" 300000000000].
Proof.
  apply (resolve_decodes_stored_reference Sample.env Sample.cfg
           Cases.stored_video Cases.stored_world).
  vm_compute. left. reflexivity.
Defined.

Lemma resolve_twice_witness :
  let once := dbVideoToSignedVideo Sample.env Sample.cfg Cases.stored_video
                Cases.stored_world in
  dbVideoToSignedVideo Sample.env Sample.cfg (fst (fst once)) (snd once)
  = ((fst (fst once), None), snd once)
  /\ deref_opt (snd once) (VideoURL (fst (fst once)))
     = Some "https://tubely.s3.amazonaws.com/landscape/a.mp4?X-Amz-Expires=300"%string.
Proof.
  apply (resolve_twice Sample.env Sample.cfg Cases.stored_video
           Cases.stored_world 0%nat "tubely" "landscape/a.mp4");
    reflexivity.
Defined.

Lemma foreign_record_is_refused_witness :
  fst (handlerUploadVideo Cases.env_stranger Sample.cfg Sample.request
         Sample.world0)
  = respondWithError StatusUnauthorized "Not your video m8" None.
Proof.
  exact (proj1 (foreign_record_is_refused Cases.env_stranger Sample.cfg
    Sample.request Sample.world0 Sample.video1 "token-1" "user-2"
    Cases.sample_row eq_refl eq_refl eq_refl eq_refl eq_refl
    ltac:(discriminate))).
Defined.

Lemma unknown_record_is_refused_witness :
  handlerUploadVideo Sample.env Sample.cfg Sample.request Cases.world_empty
  = (respondWithError StatusBadRequest "Unable to get video metadata"
       (Some "sql: no rows in result set"%string),
     log (CallGetVideo Sample.video1) Cases.world_empty).
Proof.
  apply (unknown_record_is_refused Sample.env Sample.cfg Sample.request
           Cases.world_empty Sample.video1 "token-1" Sample.user1);
    reflexivity.
Defined.

Lemma invalid_upload_is_rejected_witness :
  fst (handlerUploadVideo Sample.env Sample.cfg Cases.big_request
         Sample.world0)
  = respondWithError StatusBadRequest
      "Upload too large or invalid multipart form"
      (Some "http: request body too large"%string).
Proof.
  destruct (invalid_upload_is_rejected Sample.env Sample.cfg
              Cases.big_request Sample.world0 Sample.video1 "token-1"
              Cases.sample_row eq_refl eq_refl eq_refl eq_refl eq_refl)
    as (_ & _ & _ & Hbig & _).
  rewrite Hbig; reflexivity.
Defined.

Lemma spool_failure_is_reported_witness :
  fst (handlerUploadVideo Cases.env_no_temp Sample.cfg Sample.request
         Sample.world0)
  = respondWithError StatusInternalServerError "Unable to create temp file"
      (Some "no space left on device"%string).
Proof.
  destruct (spool_failure_is_reported Cases.env_no_temp Sample.cfg
              Sample.request Sample.world0 Sample.video1 "token-1"
              Cases.sample_row Cases.sample_part
              eq_refl eq_refl eq_refl eq_refl eq_refl eq_refl eq_refl eq_refl)
    as (_ & _ & _ & Htmp & _).
  rewrite (Htmp _ eq_refl). reflexivity.
Defined.

Lemma faststart_failure_stops_before_upload_witness :
  let w' := snd (handlerUploadVideo Cases.env_ffmpeg_fails Sample.cfg
                   Sample.request Sample.world0) in
  fst (handlerUploadVideo Cases.env_ffmpeg_fails Sample.cfg Sample.request
         Sample.world0)
  = respondWithError StatusInternalServerError
      "Unable to process video for fast start" (Some "exit status 1"%string)
  /\ db w' = db Sample.world0 /\ objects w' = objects Sample.world0
  /\ calls_since Sample.world0 w'
     = [CallExec "ffmpeg" (ffmpeg_args Cases.sample_temp);
        CallExec "ffprobe" (ffprobe_args Cases.sample_temp);
        CallGetVideo Sample.video1].
Proof.
  apply (faststart_failure_stops_before_upload Cases.env_ffmpeg_fails
           Sample.cfg Sample.request Sample.world0 Sample.video1
           Cases.sample_row Cases.sample_part Cases.sample_temp).
  - apply sample_reaches_spool; reflexivity.
  - left. reflexivity.
Defined.

Lemma upload_succeeds_witness :
  fst (handlerUploadVideo Sample.env Sample.cfg Sample.request Sample.world0)
  = respondWithJSON StatusOK
      {| id := Sample.video1; thumbnail_url := None;
         video_url := Some "https://tubely.s3.amazonaws.com/landscape/AAECAwQFBgcICQoLDA0ODxAREhMUFRYXGBkaGxwdHh8.mp4?X-Amz-Expires=300"%string;
         user_id := Sample.user1 |}.
Proof.
  exact (proj1 (upload_succeeds Sample.env Sample.cfg Sample.request
    Sample.world0 Sample.video1 Cases.sample_row Cases.sample_part
    Cases.sample_temp _
    (sample_reaches_spool Sample.env eq_refl eq_refl eq_refl eq_refl eq_refl
       eq_refl eq_refl eq_refl)
    eq_refl eq_refl eq_refl eq_refl eq_refl eq_refl)).
Defined.

Lemma reference_persisted_only_after_upload_witness :
  let w' := snd (handlerUploadVideo Sample.env Sample.cfg Sample.request
                   Sample.world0) in
  let row := {| id := Sample.video1; thumbnail_url := None;
                video_url := Some "tubely,landscape/AAECAwQFBgcICQoLDA0ODxAREhMUFRYXGBkaGxwdHh8.mp4"%string;
                user_id := Sample.user1 |} in
  exists inp later earlier,
    calls_since Sample.world0 w'
    = (later ++ CallUpdateVideo row :: CallPutObject inp :: earlier)%list
    /\ s3_PutObject Sample.env inp = None
    /\ video_url row = Some (Bucket inp ++ "," ++ Key inp)%string
    /\ objects w' !! (Bucket inp, Key inp)
       = Some (ContentType inp, Body inp).
Proof.
  apply (reference_persisted_only_after_upload Sample.env Sample.cfg
           Sample.request Sample.world0).
  vm_compute. right. left. reflexivity.
Defined.

Lemma update_failure_orphans_object_witness :
  let w' := snd (handlerUploadVideo Cases.env_update_fails Sample.cfg
                   Sample.request Sample.world0) in
  let key :=
    "landscape/AAECAwQFBgcICQoLDA0ODxAREhMUFRYXGBkaGxwdHh8.mp4"%string in
  fst (handlerUploadVideo Cases.env_update_fails Sample.cfg Sample.request
         Sample.world0)
  = respondWithError StatusInternalServerError "Unable to update video"
      (Some "database is locked"%string)
  /\ db w' = db Sample.world0
  /\ objects w' !! ("tubely"%string, key)
     = Some ("video/mp4"%string, "/tmp/tubely-upload.mp4123.processing"%string).
Proof.
  destruct (update_failure_orphans_object Cases.env_update_fails Sample.cfg
              Sample.request Sample.world0
              {| id := Sample.video1; thumbnail_url := None;
                 video_url := Some "tubely,landscape/AAECAwQFBgcICQoLDA0ODxAREhMUFRYXGBkaGxwdHh8.mp4"%string;
                 user_id := Sample.user1 |}
              "database is locked"
              ltac:(vm_compute; left; reflexivity) eq_refl)
    as (Hresp & Hdb & _ & _).
  split; [exact Hresp|]. split; [exact Hdb|]. vm_compute. reflexivity.
Defined.

Lemma signing_failure_after_persist_witness :
  let w' := snd (handlerUploadVideo Cases.env_sign_fails Sample.cfg
                   Sample.request Sample.world0) in
  fst (handlerUploadVideo Cases.env_sign_fails Sample.cfg Sample.request
         Sample.world0)
  = respondWithError StatusInternalServerError "Unable to update video"
      (Some "no credentials"%string)
  /\ exists videoID row,
       uuid_Parse Cases.env_sign_fails (PathValue_videoID Sample.request)
       = Ok videoID
       /\ In (CallUpdateVideo row) (calls_since Sample.world0 w')
       /\ db w' !! videoID = Some row
       /\ video_url row
          = Some ("tubely" ++ ","
                  ++ "landscape/AAECAwQFBgcICQoLDA0ODxAREhMUFRYXGBkaGxwdHh8.mp4")%string.
Proof.
  apply (signing_failure_after_persist Cases.env_sign_fails Sample.cfg
           Sample.request Sample.world0 "tubely"
           "landscape/AAECAwQFBgcICQoLDA0ODxAREhMUFRYXGBkaGxwdHh8.mp4"
           300000000000 "no credentials").
  - vm_compute. left. reflexivity.
  - reflexivity.
Defined.

Lemma upload_stores_one_object_witness :
  let w' := snd (handlerUploadVideo Sample.env Sample.cfg Sample.request
                   Sample.world0) in
  let bk := ("tubely"%string,
             "landscape/AAECAwQFBgcICQoLDA0ODxAREhMUFRYXGBkaGxwdHh8.mp4"%string) in
  exists tempFile inp,
    os_CreateTemp Sample.env "" "tubely-upload.mp4" = Ok tempFile
    /\ In (CallPutObject inp) (calls_since Sample.world0 w')
    /\ s3_PutObject Sample.env inp = None
    /\ bk = (s3Bucket Sample.cfg, Key inp)
    /\ Body inp = (tempFile ++ ".processing")%string
    /\ objects w' !! bk = Some ("video/mp4"%string, Body inp).
Proof.
  apply (upload_stores_one_object Sample.env Sample.cfg Sample.request
           Sample.world0).
  vm_compute. discriminate.
Defined.

Lemma direct_upload_result_ignored_witness :
  let w' := snd (Direct.handlerUploadVideo Sample.env_put_fails Sample.cfg
                   Sample.request Sample.world0) in
  let inp := {| Bucket := "tubely";
                Key := "AAECAwQFBgcICQoLDA0ODxAREhMUFRYXGBkaGxwdHh8.mp4";
                Body := "/tmp/tubely-upload.mp4123";
                ContentType := "video/mp4" |} in
  exists row,
    In (CallUpdateVideo row) (calls_since Sample.world0 w')
    /\ video_url row = Some (direct_url Sample.cfg (Key inp))
    /\ fst (Direct.handlerUploadVideo Sample.env_put_fails Sample.cfg
              Sample.request Sample.world0)
       = respondWithJSON StatusOK row
    /\ objects w' = objects Sample.world0.
Proof.
  cbv zeta.
  destruct (direct_upload_result_ignored Sample.env_put_fails Sample.cfg
              Sample.request Sample.world0
              {| Bucket := "tubely";
                 Key := "AAECAwQFBgcICQoLDA0ODxAREhMUFRYXGBkaGxwdHh8.mp4";
                 Body := "/tmp/tubely-upload.mp4123";
                 ContentType := "video/mp4" |}
              ltac:(vm_compute; right; left; reflexivity))
    as (videoID & row0 & tempFile & Hid & Hrow & Htmp & Hinp & H).
  cbv zeta in H. destruct H as (Hupd & Hok & _ & Hput).
  eexists. split; [exact Hupd|]. split; [reflexivity|].
  split; [exact (proj1 (Hok eq_refl))|].
  exact (Hput _ eq_refl).
Defined.

Lemma classified_upload_result_ignored_witness :
  let w' := snd (Classified.handlerUploadVideo Sample.env_put_fails
                   Sample.cfg Sample.request Sample.world0) in
  let inp := {| Bucket := "tubely";
                Key := "landscape/AAECAwQFBgcICQoLDA0ODxAREhMUFRYXGBkaGxwdHh8.mp4";
                Body := "/tmp/tubely-upload.mp4123";
                ContentType := "video/mp4" |} in
  exists row,
    In (CallUpdateVideo row) (calls_since Sample.world0 w')
    /\ video_url row = Some (direct_url Sample.cfg (Key inp))
    /\ fst (Classified.handlerUploadVideo Sample.env_put_fails Sample.cfg
              Sample.request Sample.world0)
       = respondWithJSON StatusOK row
    /\ objects w' = objects Sample.world0.
Proof.
  cbv zeta.
  destruct (classified_upload_result_ignored Sample.env_put_fails Sample.cfg
              Sample.request Sample.world0
              {| Bucket := "tubely";
                 Key := "landscape/AAECAwQFBgcICQoLDA0ODxAREhMUFRYXGBkaGxwdHh8.mp4";
                 Body := "/tmp/tubely-upload.mp4123";
                 ContentType := "video/mp4" |}
              ltac:(vm_compute; right; left; reflexivity))
    as (videoID & row0 & tempFile & Hid & Hrow & Htmp & Hinp & H).
  cbv zeta in H. destruct H as (Hupd & Hok & _ & Hput).
  eexists. split; [exact Hupd|]. split; [reflexivity|].
  split; [exact (proj1 (Hok eq_refl))|].
  exact (Hput _ eq_refl).
Defined.

Lemma distinct_random_bytes_distinct_keys_witness :
  "landscape/AAECAwQFBgcICQoLDA0ODxAREhMUFRYXGBkaGxwdHh8.mp4"%string
  <> "landscape/__________________________________________8.mp4"%string.
Proof.
  apply (distinct_random_bytes_distinct_keys Sample.env Cases.env_other_bytes
           Sample.cfg Sample.cfg Sample.request Sample.request
           Sample.world0 Sample.world0 StatusOK StatusOK
           {| id := Sample.video1; thumbnail_url := None;
              video_url := Some "https://tubely.s3.amazonaws.com/landscape/AAECAwQFBgcICQoLDA0ODxAREhMUFRYXGBkaGxwdHh8.mp4?X-Amz-Expires=300"%string;
              user_id := Sample.user1 |}
           {| id := Sample.video1; thumbnail_url := None;
              video_url := Some "https://tubely.s3.amazonaws.com/landscape/__________________________________________8.mp4?X-Amz-Expires=300"%string;
              user_id := Sample.user1 |}
           {| Bucket := "tubely";
              Key := "landscape/AAECAwQFBgcICQoLDA0ODxAREhMUFRYXGBkaGxwdHh8.mp4";
              Body := "/tmp/tubely-upload.mp4123.processing";
              ContentType := "video/mp4" |}
           {| Bucket := "tubely";
              Key := "landscape/__________________________________________8.mp4";
              Body := "/tmp/tubely-upload.mp4123.processing";
              ContentType := "video/mp4" |}).
  - reflexivity.
  - reflexivity.
  - vm_compute. right. right. left. reflexivity.
  - vm_compute. right. right. left. reflexivity.
  - vm_compute. discriminate.
Defined.

(** ** The thumbnail handlers *)

Import Thumbnail.

Lemma exec_bind {A} (m : Handler A) (k : A -> Handler unit) s :
  exec (bind m k) s
  = match m s with
    | (Some a, s') => exec (k a) s'
    | (None, s') => s'
    end.
Proof. unfold exec, bind. destruct (m s) as [[a|] s']; reflexivity. Qed.

Lemma GetVideo_record env videoID w row0 :
  db_GetVideo_fault env videoID = None -> db w !! videoID = Some row0 ->
  exists metadata w1,
    GetVideo env videoID w = (Ok metadata, w1)
    /\ ID metadata = videoID /\ UserID metadata = user_id row0
    /\ db w1 = db w /\ objects w1 = objects w
    /\ calls w1 = CallGetVideo videoID :: calls w
    /\ (forall w2, heap w1 `prefix_of` heap w2 ->
          deref_opt w2 (VideoURL metadata) = video_url row0).
Proof.
  intros Hf Hrow. unfold GetVideo. rewrite Hf. cbn [db log]. rewrite Hrow.
  unfold new_string_opt, new_string.
  destruct (thumbnail_url row0) as [t|], (video_url row0) as [u|] eqn:Hu;
    cbn; eexists _, _; (split; [reflexivity|]); cbn; repeat split;
    intros w2 Hpre; cbn; try reflexivity.
  all: f_equal; unfold deref.
  all: erewrite prefix_lookup_Some; [reflexivity| |exact Hpre].
  all: now apply list_lookup_middle.
Qed.

(** What the last statements of the three handlers do, given the record
    as [GetVideo] returned it: the location is written to a new cell, the
    row is rewritten and the record sent, or the update's error is. *)
Lemma record_thumbnail sys metadata url s videoID row0 :
  ID metadata = videoID -> UserID metadata = user_id row0 ->
  db (world s) !! videoID = Some row0 ->
  (forall w2, heap (world s) `prefix_of` heap w2 ->
     deref_opt w2 (VideoURL metadata) = video_url row0) ->
  let row1 := {| id := videoID; thumbnail_url := Some url;
                 video_url := video_url row0; user_id := user_id row0 |} in
  exec (let* p := lift (new_string url) in
        let* err := lift (UpdateVideo (collaborators sys)
                            (set_ThumbnailURL (Some p) metadata)) in
        let* _ := check err
          (fun err => respondWithError StatusInternalServerError
                        "Unable to update video" (Some err)) in
        write_json StatusOK (set_ThumbnailURL (Some p) metadata))%thumbnail s
  = {| world :=
         {| heap := heap (world s) ++ [url];
            db := match db_UpdateVideo_fault (collaborators sys) row1 with
                  | None => <[videoID := row1]> (db (world s))
                  | Some _ => db (world s)
                  end;
            objects := objects (world s);
            calls := CallUpdateVideo row1 :: calls (world s) |};
       videoThumbnails := videoThumbnails s;
       files := files s;
       written :=
         written s
         ++ [match db_UpdateVideo_fault (collaborators sys) row1 with
             | None => respondWithJSON StatusOK row1
             | Some e => respondWithError StatusInternalServerError
                           "Unable to update video" (Some e)
             end] |}.
Proof.
  intros HID Huser Hrow Hvideo row1.
  rewrite exec_bind. unfold lift at 1, new_string at 1.
  rewrite exec_bind. unfold lift at 1. cbn [world].
  assert (Hrow1 : forall d o c,
            row_of {| heap := heap (world s) ++ [url]; db := d;
                      objects := o; calls := c |}
                   (set_ThumbnailURL (Some (length (heap (world s)))) metadata)
            = row1).
  { intros d o c. unfold row_of, set_ThumbnailURL, row1.
    cbn [ID ThumbnailURL VideoURL UserID deref_opt].
    rewrite deref_new, HID, Huser, Hvideo; [reflexivity|].
    cbn [heap]. now apply prefix_app_r. }
  unfold UpdateVideo at 1. cbn [log db heap objects calls].
  rewrite !Hrow1. cbn [set_ThumbnailURL ID]. rewrite HID, Hrow.
  destruct (db_UpdateVideo_fault (collaborators sys) row1) as [e|].
  - rewrite exec_bind. reflexivity.
  - rewrite exec_bind. cbn [check ret]. unfold exec, write_json, write.
    cbn [snd world written videoThumbnails files]. now rewrite Hrow1.
Qed.

Ltac th_attempt H :=
  rewrite exec_bind; unfold attempt at 1; rewrite H; cbn [ret].

Ltac th_step :=
  rewrite exec_bind; unfold attempt at 1;
  match goal with
  | |- context [match ?x with Ok _ => _ | Err _ => _ end] =>
      destruct x eqn:?
  end; cbn [ret respond].

Ltac th_away :=
  eexists _, _, _; cbn [written videoThumbnails files world db objects calls
                        log];
  repeat split; eauto.

Lemma in_memory_run sys cfg r s videoID user row0 file :
  reaches_record sys cfg r s videoID user row0 file ->
  let w1 := snd (GetVideo (collaborators sys) videoID (world s)) in
  let row1 := with_thumbnail videoID (memory_url cfg videoID) row0 in
  InMemory.handlerUploadThumbnail sys cfg r s
  = {| world :=
         {| heap := heap w1 ++ [memory_url cfg videoID];
            db := update_db sys videoID row1 (db (world s));
            objects := objects (world s);
            calls := CallUpdateVideo row1 :: CallGetVideo videoID
                     :: calls (world s) |};
       videoThumbnails :=
         <[videoID := {| data := part_data file;
                         mediaType := part_ContentType file |}]>
           (videoThumbnails s);
       files := files s;
       written :=
         written s
         ++ (if String.eqb (user_id row0) user then [] else [not_yours])
         ++ [update_response sys row1] |}.
Proof.
  intros (H1 & (token & H2 & H3) & Hfile & Hread & Hf & Hrow).
  destruct (GetVideo_record _ videoID (world s) row0 Hf Hrow)
    as (metadata & w1 & HG & HID & Huser & Hdb & Hobj & Hcalls & Hvideo).
  rewrite HG. cbn [snd]. cbv zeta.
  unfold InMemory.handlerUploadThumbnail. cbv zeta.
  th_attempt H1. th_attempt H2. th_attempt H3. th_attempt Hfile.
  rewrite exec_bind; unfold attempt at 1, ReadAll at 1; rewrite Hread;
    cbn [ret].
  rewrite exec_bind; unfold lift at 1; rewrite HG.
  rewrite exec_bind; unfold attempt at 1; cbn [ret].
  rewrite exec_bind, Huser.
  destruct (String.eqb (user_id row0) user); cbn [negb];
    [unfold ret at 1 | unfold write at 1];
    rewrite exec_bind; unfold store_thumbnail at 1;
    fold (memory_url cfg videoID);
    rewrite (record_thumbnail sys metadata (memory_url cfg videoID) _
               videoID row0 HID Huser);
    cbn [world videoThumbnails files written];
    rewrite ?Hdb, ?Hobj, ?Hcalls; try assumption; try reflexivity.
  unfold not_yours. now rewrite <- app_assoc.
Qed.

Lemma GetVideo_fails env videoID w :
  db_GetVideo_fault env videoID <> None \/ db w !! videoID = None ->
  exists e, GetVideo env videoID w = (Err e, log (CallGetVideo videoID) w).
Proof.
  intros H. unfold GetVideo.
  destruct (db_GetVideo_fault env videoID) as [e|]; [eauto|].
  destruct H as [H|H]; [congruence|].
  cbn [db log]. rewrite H. eauto.
Qed.

Lemma in_memory_outcomes sys cfg r s :
  turned_away s (InMemory.handlerUploadThumbnail sys cfg r s)
  \/ exists videoID user row0 file,
       reaches_record sys cfg r s videoID user row0 file.
Proof.
  unfold InMemory.handlerUploadThumbnail. cbv zeta.
  th_step; [|left; th_away]. rename a into videoID.
  th_step; [|left; th_away]. rename a into token.
  th_step; [|left; th_away]. rename a into user.
  th_step; [|left; th_away]. rename a into file.
  rewrite exec_bind; unfold attempt at 1, ReadAll at 1.
  destruct (io_ReadAll_fault sys (part_data file)) eqn:Hread;
    cbn [ret respond]; [left; th_away|].
  destruct (db_GetVideo_fault (collaborators sys) videoID) eqn:Hf.
  { destruct (GetVideo_fails (collaborators sys) videoID (world s)) as [e' HG];
      [left; congruence|].
    rewrite exec_bind; unfold lift at 1; rewrite HG.
    rewrite exec_bind; unfold attempt at 1; cbn [respond].
    left; th_away. }
  destruct (db (world s) !! videoID) as [row0|] eqn:Hrow.
  2:{ destruct (GetVideo_fails (collaborators sys) videoID (world s))
        as [e' HG]; [now right|].
      rewrite exec_bind; unfold lift at 1; rewrite HG.
      rewrite exec_bind; unfold attempt at 1; cbn [respond].
      left; th_away. }
  right. exists videoID, user, row0, file.
  repeat split; try assumption. now exists token.
Qed.

Lemma data_url_run sys cfg r s videoID user row0 file :
  reaches_record sys cfg r s videoID user row0 file ->
  let w1 := snd (GetVideo (collaborators sys) videoID (world s)) in
  let row1 := with_thumbnail videoID (data_url file) row0 in
  DataURL.handlerUploadThumbnail sys cfg r s
  = {| world :=
         {| heap := heap w1 ++ [data_url file];
            db := update_db sys videoID row1 (db (world s));
            objects := objects (world s);
            calls := CallUpdateVideo row1 :: CallGetVideo videoID
                     :: calls (world s) |};
       videoThumbnails := videoThumbnails s;
       files := files s;
       written :=
         written s
         ++ (if String.eqb (user_id row0) user then [] else [not_yours])
         ++ [update_response sys row1] |}.
Proof.
  intros (H1 & (token & H2 & H3) & Hfile & Hread & Hf & Hrow).
  destruct (GetVideo_record _ videoID (world s) row0 Hf Hrow)
    as (metadata & w1 & HG & HID & Huser & Hdb & Hobj & Hcalls & Hvideo).
  rewrite HG. cbn [snd]. cbv zeta.
  unfold DataURL.handlerUploadThumbnail. cbv zeta.
  th_attempt H1. th_attempt H2. th_attempt H3. th_attempt Hfile.
  rewrite exec_bind; unfold attempt at 1, ReadAll at 1; rewrite Hread;
    cbn [ret].
  rewrite exec_bind; unfold lift at 1; rewrite HG.
  rewrite exec_bind; unfold attempt at 1; cbn [ret].
  rewrite exec_bind, Huser.
  destruct (String.eqb (user_id row0) user); cbn [negb];
    [unfold ret at 1 | unfold write at 1];
    fold (data_url file);
    rewrite (record_thumbnail sys metadata (data_url file) _
               videoID row0 HID Huser);
    cbn [world videoThumbnails files written];
    rewrite ?Hdb, ?Hobj, ?Hcalls; try assumption; try reflexivity.
  unfold not_yours. now rewrite <- app_assoc.
Qed.

Lemma data_url_outcomes sys cfg r s :
  turned_away s (DataURL.handlerUploadThumbnail sys cfg r s)
  \/ exists videoID user row0 file,
       reaches_record sys cfg r s videoID user row0 file.
Proof.
  unfold DataURL.handlerUploadThumbnail. cbv zeta.
  th_step; [|left; th_away]. rename a into videoID.
  th_step; [|left; th_away]. rename a into token.
  th_step; [|left; th_away]. rename a into user.
  th_step; [|left; th_away]. rename a into file.
  rewrite exec_bind; unfold attempt at 1, ReadAll at 1.
  destruct (io_ReadAll_fault sys (part_data file)) eqn:Hread;
    cbn [ret respond]; [left; th_away|].
  destruct (db_GetVideo_fault (collaborators sys) videoID) eqn:Hf.
  { destruct (GetVideo_fails (collaborators sys) videoID (world s)) as [e' HG];
      [left; congruence|].
    rewrite exec_bind; unfold lift at 1; rewrite HG.
    rewrite exec_bind; unfold attempt at 1; cbn [respond].
    left; th_away. }
  destruct (db (world s) !! videoID) as [row0|] eqn:Hrow.
  2:{ destruct (GetVideo_fails (collaborators sys) videoID (world s))
        as [e' HG]; [now right|].
      rewrite exec_bind; unfold lift at 1; rewrite HG.
      rewrite exec_bind; unfold attempt at 1; cbn [respond].
      left; th_away. }
  right. exists videoID, user, row0, file.
  repeat split; try assumption. now exists token.
Qed.

Lemma update_db_lookup sys videoID row1 (d : gmap string Row) :
  db_UpdateVideo_fault (collaborators sys) row1 = None ->
  update_db sys videoID row1 d !! videoID = Some row1.
Proof. intros H. unfold update_db. rewrite H. apply lookup_insert_eq. Qed.

Lemma update_db_other sys videoID row1 (d : gmap string Row) (id' : UUID) :
  id' <> videoID -> update_db sys videoID row1 d !! id' = d !! id'.
Proof.
  intros H. unfold update_db.
  destruct (db_UpdateVideo_fault _ _); [reflexivity|].
  now apply lookup_insert_ne.
Qed.

(** Rewriting the row of [videoID] from [row0] to [row1], or not at all,
    keeps what the two rows have in common. *)
Lemma update_db_frame sys videoID url row0 (d : gmap string Row) :
  d !! videoID = Some row0 ->
  let d' := update_db sys videoID (with_thumbnail videoID url row0) d in
  (forall (id' : UUID) row',
     d' !! id' = Some row' ->
     exists row, d !! id' = Some row /\ video_url row' = video_url row
                 /\ user_id row' = user_id row)
  /\ (forall id' : UUID, d !! id' = None -> d' !! id' = None).
Proof.
  intros Hrow d'. subst d'. unfold update_db.
  destruct (db_UpdateVideo_fault _ _); [split; eauto|].
  split.
  - intros id' row' H. destruct (decide (id' = videoID)) as [->|Hne].
    + rewrite lookup_insert_eq in H. injection H as <-. eauto.
    + rewrite lookup_insert_ne in H by congruence. eauto.
  - intros id' H. destruct (decide (id' = videoID)) as [->|Hne];
      [congruence|]. now rewrite lookup_insert_ne by congruence.
Qed.

Lemma update_db_stays sys videoID url row0 (d : gmap string Row) :
  d !! videoID = Some row0 ->
  forall (id' : UUID) row,
    d !! id' = Some row ->
    exists row',
      update_db sys videoID (with_thumbnail videoID url row0) d !! id'
      = Some row'
      /\ video_url row' = video_url row /\ user_id row' = user_id row.
Proof.
  intros Hrow id' row H. unfold update_db.
  destruct (db_UpdateVideo_fault _ _); [eauto|].
  destruct (decide (id' = videoID)) as [->|Hne].
  - rewrite lookup_insert_eq. rewrite Hrow in H. injection H as <-. eauto.
  - rewrite lookup_insert_ne by congruence. eauto.
Qed.

(** X23.  The owner check of the in-memory text does not stop anything.
    Any authenticated caller who sends a readable file part "thumbnail"
    for an existing record replaces the thumbnail kept in memory and has
    the record's thumbnail location rewritten; the part's Content-Type is
    taken as it is.  A caller who is not the owner is first answered 401
    "Not your video m8" and then, on the same response, gets what the
    owner gets. *)
Theorem in_memory_owner_check_falls_through
    sys cfg r s videoID user row0 file :
  reaches_record sys cfg r s videoID user row0 file ->
  let s' := InMemory.handlerUploadThumbnail sys cfg r s in
  let row1 := with_thumbnail videoID (memory_url cfg videoID) row0 in
  videoThumbnails s' !! videoID
  = Some {| data := part_data file; mediaType := part_ContentType file |}
  /\ calls_since (world s) (world s')
     = [CallUpdateVideo row1; CallGetVideo videoID]
  /\ written s'
     = (written s
        ++ (if String.eqb (user_id row0) user then [] else [not_yours])
        ++ [update_response sys row1])%list
  /\ (db_UpdateVideo_fault (collaborators sys) row1 = None ->
        db (world s') !! videoID = Some row1
        /\ (user <> user_id row0 ->
              written s'
              = (written s
                 ++ [not_yours; respondWithJSON StatusOK row1])%list)).
Proof.
  intros Hreach. cbv zeta. rewrite (in_memory_run _ _ _ _ _ _ _ _ Hreach).
  cbn [videoThumbnails world written db].
  split; [apply lookup_insert_eq|].
  split; [now apply (calls_since_app _ _ [_; _])|].
  split; [reflexivity|].
  intros Hupd. split; [now apply update_db_lookup|].
  intros Hne. destruct (String.eqb_spec (user_id row0) user); [congruence|].
  unfold update_response. now rewrite Hupd.
Qed.

(** X24.  Whatever the request, a run of the in-memory text writes one
    response or two, and two only when the first is the 401 for a caller
    who is not the owner.  It touches neither a file nor the object
    store; in the metadata store no row appears or disappears (a row
    that is there afterwards was there before, and a row that was there
    before is there afterwards) and every row keeps its video location
    and its owner; rows and thumbnails of other records than the one in
    the request path stay as they are. *)
Theorem in_memory_every_run sys cfg r s :
  let s' := InMemory.handlerUploadThumbnail sys cfg r s in
  files s' = files s /\ objects (world s') = objects (world s)
  /\ (exists first rest,
        written s' = (written s ++ first :: rest)%list
        /\ (rest = [] \/ (first = not_yours /\ exists last, rest = [last])))
  /\ (forall (id' : UUID) row',
        db (world s') !! id' = Some row' ->
        exists row0, db (world s) !! id' = Some row0
                     /\ video_url row' = video_url row0
                     /\ user_id row' = user_id row0)
  /\ (forall id' : UUID,
        db (world s) !! id' = None -> db (world s') !! id' = None)
  /\ (forall id' : UUID,
        uuid_Parse (collaborators sys) (PathValue_videoID r) <> Ok id' ->
        db (world s') !! id' = db (world s) !! id'
        /\ videoThumbnails s' !! id' = videoThumbnails s !! id')
  /\ (forall (id' : UUID) row0,
        db (world s) !! id' = Some row0 ->
        exists row', db (world s') !! id' = Some row'
                     /\ video_url row' = video_url row0
                     /\ user_id row' = user_id row0).
Proof.
  cbv zeta.
  destruct (in_memory_outcomes sys cfg r s)
    as [(code & msg & err & Hw & Ht & Hfi & Hdb & Hobj & _)
       | (videoID & user & row0 & file & Hreach)].
  - rewrite Hw, Ht, Hfi, Hdb, Hobj.
    repeat split; eauto.
  - rewrite (in_memory_run _ _ _ _ _ _ _ _ Hreach).
    cbn [videoThumbnails world written db files objects].
    destruct Hreach as (H1 & _ & _ & _ & _ & Hrow).
    destruct (update_db_frame sys videoID (memory_url cfg videoID) row0
                (db (world s)) Hrow) as [Hkeep Hnone].
    split; [reflexivity|]. split; [reflexivity|].
    split.
    { destruct (String.eqb (user_id row0) user); cbn [app];
        eexists _, _; split; try reflexivity; eauto. }
    split; [exact Hkeep|]. split; [exact Hnone|].
    split; [|now apply update_db_stays].
    intros id' Hne. assert (id' <> videoID) by congruence.
    split; [now apply update_db_other|].
    now apply lookup_insert_ne.
Qed.

(** X25.  The data-URL text has the same fall-through: any authenticated
    caller who sends a readable file part "thumbnail" for an existing
    record has the record's thumbnail location rewritten to
    data:<Content-Type>;base64,<standard base64 of the bytes>, the
    Content-Type being the part's header as sent.  A caller who is not
    the owner is answered 401 first and 200 with the rewritten record
    after it; nothing else is stored anywhere. *)
Theorem data_url_owner_check_falls_through
    sys cfg r s videoID user row0 file :
  reaches_record sys cfg r s videoID user row0 file ->
  let s' := DataURL.handlerUploadThumbnail sys cfg r s in
  let row1 := with_thumbnail videoID (data_url file) row0 in
  videoThumbnails s' = videoThumbnails s /\ files s' = files s
  /\ objects (world s') = objects (world s)
  /\ calls_since (world s) (world s')
     = [CallUpdateVideo row1; CallGetVideo videoID]
  /\ written s'
     = (written s
        ++ (if String.eqb (user_id row0) user then [] else [not_yours])
        ++ [update_response sys row1])%list
  /\ (db_UpdateVideo_fault (collaborators sys) row1 = None ->
        db (world s') !! videoID = Some row1
        /\ (user <> user_id row0 ->
              written s'
              = (written s
                 ++ [not_yours; respondWithJSON StatusOK row1])%list)).
Proof.
  intros Hreach. cbv zeta. rewrite (data_url_run _ _ _ _ _ _ _ _ Hreach).
  cbn [videoThumbnails world written db files objects].
  do 3 (split; [reflexivity|]).
  split; [now apply (calls_since_app _ _ [_; _])|].
  split; [reflexivity|].
  intros Hupd. split; [now apply update_db_lookup|].
  intros Hne. destruct (String.eqb_spec (user_id row0) user); [congruence|].
  unfold update_response. now rewrite Hupd.
Qed.

(** *** The standard encoding is one-to-one *)

Local Open Scope N_scope.

Lemma std_digit_inj m n :
  m < 64 -> n < 64 -> StdEncoding.digit m = StdEncoding.digit n -> m = n.
Proof.
  intros Hm Hn H.
  assert (Hall : forallb (fun i => forallb (fun j =>
            implb (Ascii.eqb (StdEncoding.digit (N.of_nat i))
                             (StdEncoding.digit (N.of_nat j)))
                  (Nat.eqb i j)) (seq 0 64)) (seq 0 64) = true)
    by (vm_compute; reflexivity).
  rewrite forallb_forall in Hall.
  specialize (Hall (N.to_nat m) ltac:(apply in_seq; lia)).
  rewrite forallb_forall in Hall.
  specialize (Hall (N.to_nat n) ltac:(apply in_seq; lia)).
  rewrite !N2Nat.id, H, Ascii.eqb_refl in Hall. cbn [implb] in Hall.
  apply Nat.eqb_eq in Hall. lia.
Qed.

(** No digit of the standard alphabet is the padding character. *)
Lemma std_sextet_not_pad v sh : StdEncoding.sextet v sh <> "="%char.
Proof.
  unfold StdEncoding.sextet. fold (sextet_value v sh).
  pose proof (sextet_value_lt v sh) as Hlt. intros H.
  assert (Hall : forallb (fun i =>
            negb (Ascii.eqb (StdEncoding.digit (N.of_nat i)) "="))
            (seq 0 64) = true) by (vm_compute; reflexivity).
  rewrite forallb_forall in Hall.
  specialize (Hall (N.to_nat (sextet_value v sh)) ltac:(apply in_seq; lia)).
  now rewrite N2Nat.id, H, Ascii.eqb_refl in Hall.
Qed.

Lemma std_sextet_inj v v' sh :
  StdEncoding.sextet v sh = StdEncoding.sextet v' sh ->
  forall j, j < 6 -> N.testbit v (j + sh) = N.testbit v' (j + sh).
Proof.
  intros H j Hj.
  rewrite <- !sextet_value_bits by exact Hj. f_equal.
  apply std_digit_inj;
    [apply sextet_value_lt | apply sextet_value_lt | exact H].
Qed.

Lemma bits_from_std_sextets v v' (lo : N) :
  (lo = 0 \/ lo = 6 \/ lo = 12 \/ lo = 18) ->
  (forall sh, (sh = 0 \/ sh = 6 \/ sh = 12 \/ sh = 18) -> lo <= sh ->
     StdEncoding.sextet v sh = StdEncoding.sextet v' sh) ->
  forall i, lo <= i < 24 -> N.testbit v i = N.testbit v' i.
Proof.
  intros Hlo H i Hi.
  assert (Hsh : exists sh j,
            (sh = 0 \/ sh = 6 \/ sh = 12 \/ sh = 18) /\ lo <= sh
            /\ j < 6 /\ i = j + sh).
  { destruct (N.lt_ge_cases i 6); [exists 0, i; lia|].
    destruct (N.lt_ge_cases i 12); [exists 6, (i - 6); lia|].
    destruct (N.lt_ge_cases i 18); [exists 12, (i - 12); lia|].
    exists 18, (i - 18); lia. }
  destruct Hsh as (sh & j & Hsh & Hle & Hj & ->).
  apply std_sextet_inj; [apply H; assumption | exact Hj].
Qed.

Ltac pad_clash :=
  exfalso;
  match goal with
  | H : StdEncoding.sextet _ _ = "="%char |- _ =>
      exact (std_sextet_not_pad _ _ H)
  | H : "="%char = StdEncoding.sextet _ _ |- _ =>
      exact (std_sextet_not_pad _ _ (eq_sym H))
  end.

Lemma StdEncoding_inj : forall l1 l2 : list byte,
  StdEncoding.EncodeToString l1 = StdEncoding.EncodeToString l2 -> l1 = l2.
Proof.
  induction l1 as [|a|a b|a b c l IH] using list_ind3; intros l2 Henc.
  - destruct l2 as [|a' [|b' [|c' l2]]]; [reflexivity|discriminate..].
  - destruct l2 as [|a' [|b' [|c' l2]]]; try discriminate;
      cbn [StdEncoding.EncodeToString] in Henc; cbv zeta in Henc.
    + rewrite !pack3_one in Henc. injection Henc as H18 H12.
      f_equal. apply (pack3_inj_high a x00 x00 a' x00 x00).
      intros i Hi. apply (bits_from_std_sextets _ _ 12); [lia| |lia].
      intros sh [-> | [-> | [-> | ->]]] Hle; try lia; assumption.
    + injection Henc as H18 H12 H6. pad_clash.
    + injection Henc as H18 H12 H6 H0. pad_clash.
  - destruct l2 as [|a' [|b' [|c' l2]]]; try discriminate;
      cbn [StdEncoding.EncodeToString] in Henc; cbv zeta in Henc.
    + injection Henc as H18 H12 H6. pad_clash.
    + rewrite !pack3_two in Henc. injection Henc as H18 H12 H6.
      assert (Hbits : forall i, 6 <= i < 24 ->
                N.testbit (pack3 (Byte.to_N a) (Byte.to_N b)
                             (Byte.to_N x00)) i
                = N.testbit (pack3 (Byte.to_N a') (Byte.to_N b')
                               (Byte.to_N x00)) i).
      { apply bits_from_std_sextets; [lia|].
        intros sh [-> | [-> | [-> | ->]]] Hle; try lia; assumption. }
      f_equal; [|f_equal].
      * apply (pack3_inj_high a b x00 a' b' x00). intros; apply Hbits; lia.
      * apply (pack3_inj_mid a b x00 a' b' x00). intros; apply Hbits; lia.
    + injection Henc as H18 H12 H6 H0. pad_clash.
  - destruct l2 as [|a' [|b' [|c' l2]]]; try discriminate;
      cbn [StdEncoding.EncodeToString] in Henc; cbv zeta in Henc.
    + injection Henc as H18 H12 H6. pad_clash.
    + injection Henc as H18 H12 H6 H0. pad_clash.
    + fold (pack3 (Byte.to_N a) (Byte.to_N b) (Byte.to_N c)) in Henc.
      fold (pack3 (Byte.to_N a') (Byte.to_N b') (Byte.to_N c')) in Henc.
      injection Henc as H18 H12 H6 H0 Hrest.
      assert (Hbits : forall i, 0 <= i < 24 ->
                N.testbit (pack3 (Byte.to_N a) (Byte.to_N b) (Byte.to_N c)) i
                = N.testbit (pack3 (Byte.to_N a') (Byte.to_N b')
                               (Byte.to_N c')) i).
      { apply bits_from_std_sextets; [lia|].
        intros sh [-> | [-> | [-> | ->]]] Hle; assumption. }
      f_equal; [|f_equal; [|f_equal]].
      * apply (pack3_inj_high a b c a' b' c'). intros; apply Hbits; lia.
      * apply (pack3_inj_mid a b c a' b' c'). intros; apply Hbits; lia.
      * apply (pack3_inj_low a b c a' b' c'). intros; apply Hbits; lia.
      * now apply IH.
Qed.

Local Close Scope N_scope.

(** X26.  The data URL keeps the image: two uploads through the data-URL
    text whose parts carry the same Content-Type and different bytes
    write different thumbnail locations, since the standard encoding with
    its padding is one-to-one on byte strings of any length. *)
Theorem data_url_keeps_the_image
    sys1 sys2 cfg1 cfg2 r1 r2 s1 s2 id1 id2 user1 user2 row1 row2
    file1 file2 :
  reaches_record sys1 cfg1 r1 s1 id1 user1 row1 file1 ->
  reaches_record sys2 cfg2 r2 s2 id2 user2 row2 file2 ->
  part_ContentType file1 = part_ContentType file2 ->
  part_data file1 <> part_data file2 ->
  forall rowA rowB,
    In (CallUpdateVideo rowA)
       (calls_since (world s1)
          (world (DataURL.handlerUploadThumbnail sys1 cfg1 r1 s1))) ->
    In (CallUpdateVideo rowB)
       (calls_since (world s2)
          (world (DataURL.handlerUploadThumbnail sys2 cfg2 r2 s2))) ->
    thumbnail_url rowA <> thumbnail_url rowB.
Proof.
  intros Hreach1 Hreach2 Hct Hne rowA rowB HinA HinB Heq. apply Hne.
  rewrite (data_url_run _ _ _ _ _ _ _ _ Hreach1) in HinA.
  rewrite (data_url_run _ _ _ _ _ _ _ _ Hreach2) in HinB.
  cbn [world] in HinA, HinB.
  rewrite (calls_since_app _ _ [_; _]) in HinA by reflexivity.
  rewrite (calls_since_app _ _ [_; _]) in HinB by reflexivity.
  destruct HinA as [H|[H|[]]]; try discriminate. injection H as <-.
  destruct HinB as [H|[H|[]]]; try discriminate. injection H as <-.
  cbn [with_thumbnail thumbnail_url] in Heq. injection Heq as Heq.
  unfold data_url in Heq. rewrite Hct in Heq.
  apply append_inj_length in Heq as [_ Heq]; [|reflexivity].
  apply append_inj_length in Heq as [_ Heq]; [|reflexivity].
  apply append_inj_length in Heq as [_ Heq]; [|reflexivity].
  now apply StdEncoding_inj.
Qed.

(** *** The text that writes a file *)

Lemma assets_run sys cfg r s videoID row0 file ext :
  reaches_asset sys cfg r s videoID row0 file ext ->
  let w1 := snd (GetVideo (collaborators sys) videoID (world s)) in
  let path := asset_path sys cfg ext in
  let row1 := with_thumbnail videoID (asset_url sys cfg ext) row0 in
  Assets.handlerUploadThumbnail sys cfg r s
  = match os_Create sys path with
    | Some _ =>
        {| world := w1; videoThumbnails := videoThumbnails s;
           files := files s; written := written s ++ [not_yours] |}
    | None =>
        {| world :=
             {| heap := heap w1 ++ [asset_url sys cfg ext];
                db := update_db sys videoID row1 (db (world s));
                objects := objects (world s);
                calls := CallUpdateVideo row1 :: CallGetVideo videoID
                         :: calls (world s) |};
           videoThumbnails := videoThumbnails s;
           files := <[path := arrived sys path (part_data file)]>
                      (<[path := []]> (files s));
           written := written s ++ [update_response sys row1] |}
    end.
Proof.
  intros (H1 & (token & H2 & H3) & Hfile & Hmime & Hext & Hf & Hrow & Hrand).
  destruct (GetVideo_record _ videoID (world s) row0 Hf Hrow)
    as (metadata & w1 & HG & HID & Huser & Hdb & Hobj & Hcalls & Hvideo).
  rewrite HG. cbn [snd]. cbv zeta.
  unfold Assets.handlerUploadThumbnail. cbv zeta.
  th_attempt H1. th_attempt H2. th_attempt H3. th_attempt Hfile.
  th_attempt Hmime.
  assert (Hsplit : strings.Split ("image/" ++ ext) "/" !! 1%nat = Some ext)
    by (destruct Hext as [-> | ->]; reflexivity).
  assert (Hok : negb (String.eqb ("image/" ++ ext) "image/jpeg")
                && negb (String.eqb ("image/" ++ ext) "image/png") = false)
    by (destruct Hext as [-> | ->]; reflexivity).
  rewrite Hok.
  rewrite exec_bind; unfold lift at 1; rewrite HG.
  rewrite exec_bind; unfold attempt at 1; cbn [ret].
  rewrite Huser, String.eqb_refl. cbn [negb].
  rewrite exec_bind; unfold attempt at 1, rand_Read at 1; rewrite Hrand;
    cbn [ret].
  rewrite Hsplit.
  fold (random_id (collaborators sys)). fold (asset_name sys ext).
  fold (asset_path sys cfg ext). fold (asset_url sys cfg ext).
  rewrite exec_bind. unfold Create at 1.
  destruct (os_Create sys (asset_path sys cfg ext)) as [e|].
  - rewrite exec_bind. reflexivity.
  - rewrite exec_bind. cbn [check ret].
    rewrite exec_bind. unfold Copy at 1.
    rewrite (record_thumbnail sys metadata (asset_url sys cfg ext) _
               videoID row0 HID Huser);
      cbn [world videoThumbnails files written];
      rewrite ?Hdb, ?Hobj, ?Hcalls; try assumption; reflexivity.
Qed.

Lemma assets_outcomes sys cfg r s :
  turned_away s (Assets.handlerUploadThumbnail sys cfg r s)
  \/ exists videoID row0 file ext,
       reaches_asset sys cfg r s videoID row0 file ext.
Proof.
  unfold Assets.handlerUploadThumbnail. cbv zeta.
  th_step; [|left; th_away]. rename a into videoID.
  th_step; [|left; th_away]. rename a into token.
  th_step; [|left; th_away]. rename a into user.
  th_step; [|left; th_away]. rename a into file.
  th_step; [|left; th_away]. rename a into mediaType.
  assert (Hext : (exists ext, mediaType = ("image/" ++ ext)%string
                              /\ (ext = "jpeg"%string \/ ext = "png"%string))
                 \/ negb (String.eqb mediaType "image/jpeg")
                    && negb (String.eqb mediaType "image/png") = true).
  { destruct (String.eqb_spec mediaType "image/jpeg") as [->|_];
      [left; exists "jpeg"%string; auto|].
    destruct (String.eqb_spec mediaType "image/png") as [->|_];
      [left; exists "png"%string; auto|].
    now right. }
  destruct Hext as [(ext & -> & Hext) | Hbad].
  2:{ rewrite Hbad. unfold exec, respond. cbn [snd]. left; th_away. }
  replace (negb (String.eqb ("image/" ++ ext) "image/jpeg")
           && negb (String.eqb ("image/" ++ ext) "image/png")) with false
    by (destruct Hext as [-> | ->]; reflexivity).
  destruct (db_GetVideo_fault (collaborators sys) videoID) eqn:Hf.
  { destruct (GetVideo_fails (collaborators sys) videoID (world s)) as [e' HG];
      [left; congruence|].
    rewrite exec_bind; unfold lift at 1; rewrite HG.
    rewrite exec_bind; unfold attempt at 1; cbn [respond].
    left; th_away. }
  destruct (db (world s) !! videoID) as [row0|] eqn:Hrow.
  2:{ destruct (GetVideo_fails (collaborators sys) videoID (world s))
        as [e' HG]; [now right|].
      rewrite exec_bind; unfold lift at 1; rewrite HG.
      rewrite exec_bind; unfold attempt at 1; cbn [respond].
      left; th_away. }
  destruct (GetVideo_record _ videoID (world s) row0 Hf Hrow)
    as (metadata & w1 & HG & HID & Huser & Hdb & Hobj & Hcalls & Hvideo).
  rewrite exec_bind; unfold lift at 1; rewrite HG.
  rewrite exec_bind; unfold attempt at 1; cbn [ret].
  rewrite Huser.
  destruct (String.eqb_spec (user_id row0) user) as [<-|_]; cbn [negb].
  2:{ unfold exec, respond. cbn [snd]. left; th_away. }
  destruct (rand_fault (collaborators sys)) eqn:Hrand.
  { rewrite exec_bind; unfold attempt at 1, rand_Read at 1; rewrite Hrand.
    cbn [respond]. left; th_away. }
  right. exists videoID, row0, file, ext.
  repeat split; try assumption. now exists token.
Qed.

(** X27.  The text that writes a file turns two kinds of request away
    with a single response and without a trace: a part whose media type
    is neither image/jpeg nor image/png is answered 400 before the record
    is even read, and a caller who is not the owner of the record is
    answered 401 "Not your video m8" after the read; in both cases no
    file is created and the record is not rewritten. *)
Theorem assets_refuses_other_types_and_strangers
    sys cfg r s videoID user file mediaType :
  uuid_Parse (collaborators sys) (PathValue_videoID r) = Ok videoID ->
  authenticated sys cfg r user ->
  FormFile r "thumbnail" = Ok file ->
  mime_ParseMediaType (collaborators sys) (part_ContentType file)
  = Ok mediaType ->
  let s' := Assets.handlerUploadThumbnail sys cfg r s in
  (mediaType <> "image/jpeg"%string -> mediaType <> "image/png"%string ->
     s' = {| world := world s; videoThumbnails := videoThumbnails s;
             files := files s;
             written := written s
                        ++ [respondWithError StatusBadRequest
                              "Unable to get mediaType" None] |})
  /\ (forall row0,
        mediaType = "image/jpeg"%string \/ mediaType = "image/png"%string ->
        db_GetVideo_fault (collaborators sys) videoID = None ->
        db (world s) !! videoID = Some row0 ->
        user <> user_id row0 ->
        written s' = (written s ++ [not_yours])%list
        /\ calls_since (world s) (world s') = [CallGetVideo videoID]
        /\ db (world s') = db (world s) /\ files s' = files s
        /\ videoThumbnails s' = videoThumbnails s).
Proof.
  intros H1 (token & H2 & H3) Hfile Hmime. cbv zeta. split.
  - intros Hj Hp.
    unfold Assets.handlerUploadThumbnail. cbv zeta.
    th_attempt H1. th_attempt H2. th_attempt H3. th_attempt Hfile.
    th_attempt Hmime.
    destruct (String.eqb_spec mediaType "image/jpeg"); [contradiction|].
    destruct (String.eqb_spec mediaType "image/png"); [contradiction|].
    reflexivity.
  - intros row0 Hext Hf Hrow Hne.
    destruct (GetVideo_record _ videoID (world s) row0 Hf Hrow)
      as (metadata & w1 & HG & HID & Huser & Hdb & Hobj & Hcalls & Hvideo).
    assert (Hrun : Assets.handlerUploadThumbnail sys cfg r s
                   = {| world := w1; videoThumbnails := videoThumbnails s;
                        files := files s;
                        written := written s ++ [not_yours] |}).
    { unfold Assets.handlerUploadThumbnail. cbv zeta.
      th_attempt H1. th_attempt H2. th_attempt H3. th_attempt Hfile.
      th_attempt Hmime.
      replace (negb (String.eqb mediaType "image/jpeg")
               && negb (String.eqb mediaType "image/png")) with false
        by (destruct Hext as [-> | ->]; reflexivity).
      rewrite exec_bind; unfold lift at 1; rewrite HG.
      rewrite exec_bind; unfold attempt at 1; cbn [ret].
      rewrite Huser.
      destruct (String.eqb_spec (user_id row0) user); [congruence|].
      reflexivity. }
    rewrite Hrun. cbn [written world files videoThumbnails].
    repeat split; try assumption.
    now apply (calls_since_app _ _ [_]).
Qed.

(** X28.  When the text that writes a file answers with the record, the
    upload went all the way: the caller owns the record, the part is a
    jpeg or png image, the file named by 43 URL-safe characters, a dot
    and the subtype exists below the assets directory and holds what the
    copy delivered, and the row of the record carries the /assets/
    location of that name, with video location and owner unchanged. *)
Theorem assets_record_answer_means_stored sys cfg r s code payload :
  written (Assets.handlerUploadThumbnail sys cfg r s)
  = (written s ++ [respondWithJSON code payload])%list ->
  let s' := Assets.handlerUploadThumbnail sys cfg r s in
  exists videoID row0 file ext,
    reaches_asset sys cfg r s videoID row0 file ext
    /\ code = StatusOK
    /\ payload = with_thumbnail videoID (asset_url sys cfg ext) row0
    /\ db (world s') !! videoID = Some payload
    /\ files s' !! asset_path sys cfg ext
       = Some (arrived sys (asset_path sys cfg ext) (part_data file))
    /\ asset_name sys ext
       = (random_id (collaborators sys) ++ "." ++ ext)%string
    /\ String.length (random_id (collaborators sys)) = 43%nat
    /\ Forall url_safe
         (list_ascii_of_string (random_id (collaborators sys))).
Proof.
  intros Hw. cbv zeta.
  destruct (assets_outcomes sys cfg r s)
    as [(c & msg & err & Hw' & _) | (videoID & row0 & file & ext & Hreach)].
  { rewrite Hw' in Hw. apply app_inv_head in Hw. discriminate. }
  exists videoID, row0, file, ext.
  rewrite (assets_run _ _ _ _ _ _ _ _ Hreach) in Hw |- *.
  destruct (os_Create sys (asset_path sys cfg ext)) as [e|];
    cbn [written] in Hw; apply app_inv_head in Hw; [discriminate|].
  unfold update_response in Hw. cbn [world db files].
  destruct (db_UpdateVideo_fault (collaborators sys)
              (with_thumbnail videoID (asset_url sys cfg ext) row0))
    as [e|] eqn:Hupd; [discriminate|].
  injection Hw as <- <-.
  split; [exact Hreach|]. split; [reflexivity|]. split; [reflexivity|].
  split; [now apply update_db_lookup|].
  split; [apply lookup_insert_eq|].
  split; [reflexivity|].
  split; [apply random_id_length|].
  apply EncodeToString_url_safe.
Qed.

(** X29.  Trouble with the file is not reported as such.  When the owner's
    file cannot be created, the answer is 401 "Not your video m8", the
    answer a stranger gets, and nothing has changed.  When the copy into
    the file fails, nobody looks: the record is rewritten and sent with
    200 while the file holds only the bytes that were written before the
    error. *)
Theorem assets_file_errors_are_misreported
    sys cfg r s videoID row0 file ext :
  reaches_asset sys cfg r s videoID row0 file ext ->
  let s' := Assets.handlerUploadThumbnail sys cfg r s in
  let path := asset_path sys cfg ext in
  let row1 := with_thumbnail videoID (asset_url sys cfg ext) row0 in
  (os_Create sys path <> None ->
     written s' = (written s ++ [not_yours])%list
     /\ db (world s') = db (world s) /\ files s' = files s
     /\ calls_since (world s) (world s') = [CallGetVideo videoID])
  /\ (os_Create sys path = None ->
      io_Copy (collaborators sys) path (part_data file) <> None ->
      db_UpdateVideo_fault (collaborators sys) row1 = None ->
      written s' = (written s ++ [respondWithJSON StatusOK row1])%list
      /\ db (world s') !! videoID = Some row1
      /\ files s' !! path
         = Some (take (io_Copy_written sys path (part_data file))
                      (part_data file))).
Proof.
  intros Hreach. cbv zeta. rewrite (assets_run _ _ _ _ _ _ _ _ Hreach).
  destruct Hreach as (_ & _ & _ & _ & _ & Hf & Hrow & _).
  destruct (GetVideo_record _ videoID (world s) row0 Hf Hrow)
    as (metadata & w1 & HG & HID & Huser & Hdb & Hobj & Hcalls & Hvideo).
  rewrite HG. cbn [snd].
  destruct (os_Create sys (asset_path sys cfg ext)) as [e|];
    (split; [intros Hc | intros Hc Hcopy Hupd]); try congruence;
    cbn [written world db files].
  - repeat split; try assumption. now apply (calls_since_app _ _ [_]).
  - unfold update_response. rewrite Hupd.
    split; [reflexivity|]. split; [now apply update_db_lookup|].
    rewrite lookup_insert_eq. unfold arrived.
    destruct (io_Copy _ _ _); [reflexivity|congruence].
Qed.

(** X30.  Whatever the request, a run of the text that writes a file
    writes exactly one response, and never because of an index out of
    range: the media type has been checked to be one with a subtype.  It
    leaves the thumbnails in memory and the object store alone, creates
    no file but the asset of the random name, creates no row (a row that
    is there afterwards was there before) and deletes none (a row that
    was there before is there afterwards), leaves video location and
    owner of every row as they are, and leaves the rows of other records
    than the one in the request path untouched. *)
Theorem assets_every_run sys cfg r s :
  let s' := Assets.handlerUploadThumbnail sys cfg r s in
  (exists resp, written s' = (written s ++ [resp])%list
                /\ forall msg, resp <> panic msg)
  /\ videoThumbnails s' = videoThumbnails s
  /\ objects (world s') = objects (world s)
  /\ (forall p : string,
        (forall ext, p <> asset_path sys cfg ext) ->
        files s' !! p = files s !! p)
  /\ (forall (id' : UUID) row',
        db (world s') !! id' = Some row' ->
        exists row0, db (world s) !! id' = Some row0
                     /\ video_url row' = video_url row0
                     /\ user_id row' = user_id row0)
  /\ (forall id' : UUID,
        db (world s) !! id' = None -> db (world s') !! id' = None)
  /\ (forall (id' : UUID) row0,
        db (world s) !! id' = Some row0 ->
        exists row', db (world s') !! id' = Some row'
                     /\ video_url row' = video_url row0
                     /\ user_id row' = user_id row0)
  /\ (forall id' : UUID,
        uuid_Parse (collaborators sys) (PathValue_videoID r) <> Ok id' ->
        db (world s') !! id' = db (world s) !! id').
Proof.
  cbv zeta.
  destruct (assets_outcomes sys cfg r s)
    as [(code & msg & err & Hw & Ht & Hfi & Hdb & Hobj & _)
       | (videoID & row0 & file & ext & Hreach)].
  - rewrite Hw, Ht, Hfi, Hdb, Hobj.
    split; [eexists; split; [reflexivity|discriminate]|].
    repeat split; eauto.
  - rewrite (assets_run _ _ _ _ _ _ _ _ Hreach).
    destruct Hreach as (H1 & _ & _ & _ & _ & Hf & Hrow & _).
    destruct (GetVideo_record _ videoID (world s) row0 Hf Hrow)
      as (metadata & w1 & HG & HID & Huser & Hdb & Hobj & Hcalls & Hvideo).
    rewrite HG. cbn [snd].
    destruct (os_Create sys (asset_path sys cfg ext)) as [e|];
      cbn [written world db files objects videoThumbnails].
    + rewrite Hdb, Hobj.
      split; [eexists; split; [reflexivity|discriminate]|].
      repeat split; eauto.
    + destruct (update_db_frame sys videoID (asset_url sys cfg ext) row0
                  (db (world s)) Hrow) as [Hkeep Hnone].
      split.
      { eexists; split; [reflexivity|]. unfold update_response.
        destruct (db_UpdateVideo_fault _ _); discriminate. }
      do 2 (split; [reflexivity|]).
      split.
      { intros p Hp. specialize (Hp ext).
        now rewrite !lookup_insert_ne by congruence. }
      split; [exact Hkeep|]. split; [exact Hnone|].
      split; [now apply update_db_stays|].
      intros id' Hne. apply update_db_other. congruence.
Qed.

(** *** Instances for the thumbnail handlers *)

Lemma sample_reaches_record sys user file r :
  collaborators sys
  = Cases.with_jwt (Ok user) Sample.env ->
  io_ReadAll_fault sys = (fun _ => None) ->
  PathValue_videoID r = Sample.video1 ->
  MultipartForm r = Ok [("thumbnail"%string, file)] ->
  reaches_record sys ThumbnailCases.cfg r ThumbnailCases.state0
    Sample.video1 user ThumbnailCases.row file.
Proof.
  intros E1 E2 E3 E4. unfold reaches_record, authenticated, FormFile.
  rewrite E1, E2, E3, E4.
  repeat split; try reflexivity.
  exists "token-1"%string. split; reflexivity.
Defined.

Lemma in_memory_owner_check_falls_through_witness :
  let s' := InMemory.handlerUploadThumbnail ThumbnailCases.stranger
              ThumbnailCases.cfg ThumbnailCases.request
              ThumbnailCases.state0 in
  let row1 := with_thumbnail Sample.video1
                "http://localhost:8091/api/thumbnails/video-1"
                ThumbnailCases.row in
  written s' = [not_yours; respondWithJSON StatusOK row1]
  /\ db (world s') !! Sample.video1 = Some row1
  /\ videoThumbnails s' !! Sample.video1
     = Some {| data := [x89; x50; x4e; x47]; mediaType := "image/png" |}.
Proof.
  cbv zeta.
  destruct (in_memory_owner_check_falls_through ThumbnailCases.stranger
              ThumbnailCases.cfg ThumbnailCases.request
              ThumbnailCases.state0 Sample.video1 "user-2"
              ThumbnailCases.row ThumbnailCases.picture
              (sample_reaches_record ThumbnailCases.stranger "user-2"
                 ThumbnailCases.picture ThumbnailCases.request
                 eq_refl eq_refl eq_refl eq_refl))
    as (Ht & _ & _ & Hok).
  destruct (Hok eq_refl) as [Hdb Hw].
  split; [exact (Hw ltac:(discriminate))|]. split; [exact Hdb|exact Ht].
Defined.

Lemma data_url_owner_check_falls_through_witness :
  let s' := DataURL.handlerUploadThumbnail ThumbnailCases.stranger
              ThumbnailCases.cfg ThumbnailCases.request
              ThumbnailCases.state0 in
  let row1 := with_thumbnail Sample.video1 "data:image/png;base64,iVBORw=="
                ThumbnailCases.row in
  written s' = [not_yours; respondWithJSON StatusOK row1]
  /\ db (world s') !! Sample.video1 = Some row1.
Proof.
  cbv zeta.
  destruct (data_url_owner_check_falls_through ThumbnailCases.stranger
              ThumbnailCases.cfg ThumbnailCases.request
              ThumbnailCases.state0 Sample.video1 "user-2"
              ThumbnailCases.row ThumbnailCases.picture
              (sample_reaches_record ThumbnailCases.stranger "user-2"
                 ThumbnailCases.picture ThumbnailCases.request
                 eq_refl eq_refl eq_refl eq_refl))
    as (_ & _ & _ & _ & _ & Hok).
  destruct (Hok eq_refl) as [Hdb Hw].
  split; [exact (Hw ltac:(discriminate))|exact Hdb].
Defined.

Lemma data_url_keeps_the_image_witness :
  Some "data:image/png;base64,iVBORw=="%string
  <> Some "data:image/png;base64,iVBOSA=="%string.
Proof.
  apply (data_url_keeps_the_image ThumbnailCases.owner ThumbnailCases.owner
           ThumbnailCases.cfg ThumbnailCases.cfg
           ThumbnailCases.request ThumbnailCases.other_request
           ThumbnailCases.state0 ThumbnailCases.state0
           Sample.video1 Sample.video1 "user-1" "user-1"
           ThumbnailCases.row ThumbnailCases.row
           ThumbnailCases.picture ThumbnailCases.other_picture
           (sample_reaches_record ThumbnailCases.owner "user-1"
              ThumbnailCases.picture ThumbnailCases.request
              eq_refl eq_refl eq_refl eq_refl)
           (sample_reaches_record ThumbnailCases.owner "user-1"
              ThumbnailCases.other_picture ThumbnailCases.other_request
              eq_refl eq_refl eq_refl eq_refl)
           eq_refl ltac:(discriminate)
           (with_thumbnail Sample.video1 "data:image/png;base64,iVBORw=="
              ThumbnailCases.row)
           (with_thumbnail Sample.video1 "data:image/png;base64,iVBOSA=="
              ThumbnailCases.row)).
  - vm_compute. left. reflexivity.
  - vm_compute. left. reflexivity.
Defined.

Lemma assets_refuses_other_types_and_strangers_witness :
  let s' := Assets.handlerUploadThumbnail ThumbnailCases.stranger
              ThumbnailCases.cfg ThumbnailCases.request
              ThumbnailCases.state0 in
  written s' = [not_yours]
  /\ db (world s') = db (world ThumbnailCases.state0)
  /\ files s' = files ThumbnailCases.state0.
Proof.
  cbv zeta.
  destruct (proj2 (assets_refuses_other_types_and_strangers
              ThumbnailCases.stranger ThumbnailCases.cfg
              ThumbnailCases.request ThumbnailCases.state0 Sample.video1
              "user-2" ThumbnailCases.picture "image/png" eq_refl
              ltac:(exists "token-1"%string; split; reflexivity)
              eq_refl eq_refl)
            ThumbnailCases.row ltac:(right; reflexivity) eq_refl eq_refl
            ltac:(discriminate))
    as (Hw & _ & Hdb & Hfi & _).
  split; [exact Hw|]. split; [exact Hdb|exact Hfi].
Defined.

Lemma sample_reaches_asset sys :
  collaborators sys = Sample.env \/
  collaborators sys = ThumbnailCases.env_copy_fails ->
  reaches_asset sys ThumbnailCases.cfg ThumbnailCases.request
    ThumbnailCases.state0 Sample.video1 ThumbnailCases.row
    ThumbnailCases.picture "png".
Proof.
  intros E. unfold reaches_asset, authenticated.
  destruct E as [-> | ->].
  all: repeat split; try reflexivity; try (right; reflexivity).
  all: exists "token-1"%string; split; reflexivity.
Defined.

Lemma assets_record_answer_means_stored_witness :
  exists videoID row0 file ext,
    reaches_asset ThumbnailCases.owner ThumbnailCases.cfg
      ThumbnailCases.request ThumbnailCases.state0 videoID row0 file ext
    /\ files (Assets.handlerUploadThumbnail ThumbnailCases.owner
                ThumbnailCases.cfg ThumbnailCases.request
                ThumbnailCases.state0)
       !! asset_path ThumbnailCases.owner ThumbnailCases.cfg ext
       = Some (arrived ThumbnailCases.owner
                 (asset_path ThumbnailCases.owner ThumbnailCases.cfg ext)
                 (part_data file)).
Proof.
  destruct (assets_record_answer_means_stored ThumbnailCases.owner
              ThumbnailCases.cfg ThumbnailCases.request
              ThumbnailCases.state0 StatusOK
              (with_thumbnail Sample.video1
                 ("http://localhost:8091/assets/" ++ ThumbnailCases.asset)
                 ThumbnailCases.row)
              eq_refl)
    as (videoID & row0 & file & ext & Hreach & _ & _ & _ & Hfile & _).
  exists videoID, row0, file, ext. split; [exact Hreach|exact Hfile].
Defined.

Lemma assets_file_errors_are_misreported_witness :
  let s' := Assets.handlerUploadThumbnail ThumbnailCases.copy_fails
              ThumbnailCases.cfg ThumbnailCases.request
              ThumbnailCases.state0 in
  let row1 := with_thumbnail Sample.video1
                ("http://localhost:8091/assets/" ++ ThumbnailCases.asset)
                ThumbnailCases.row in
  written s' = [respondWithJSON StatusOK row1]
  /\ db (world s') !! Sample.video1 = Some row1
  /\ files s' !! ("./assets/" ++ ThumbnailCases.asset)%string = Some [x89].
Proof.
  cbv zeta.
  exact (proj2 (assets_file_errors_are_misreported ThumbnailCases.copy_fails
                  ThumbnailCases.cfg ThumbnailCases.request
                  ThumbnailCases.state0 Sample.video1 ThumbnailCases.row
                  ThumbnailCases.picture "png"
                  (sample_reaches_asset ThumbnailCases.copy_fails
                     (or_intror eq_refl)))
               eq_refl ltac:(discriminate) eq_refl).
Defined.
